(** * Energy-consumption analysis: CSV normalisation and range statistics

    A shallow embedding of [src/data_analysis.py] (class [DataAnalysis]) and
    of the column classification and normalisation of [src/data_loader.py]
    (method [DataLoader._load_csv]), with the properties of [spec.md] stated
    over it; then of the loader object ([load_from_file], [load_from_url]),
    of [plot_consumption] of [src/visualisation.py] and of the loading and
    plotting slots of [src/interface.py], with further properties of the
    code.

    Conventions of the embedding.
    - A Python [str] is a [string] holding its UTF-8 bytes; the substring
      test [a in b] on code points and on UTF-8 bytes agree.
    - A timestamp is an integer number of nanoseconds since the epoch, in
      UTC (pandas' [datetime64[ns, UTC]]); the missing timestamp [NaT] is
      [None].  The int64 bound of pandas is not modelled.
    - A [float64] value held by a table is the rational number it stands
      for, the missing value [NaN] is [None]; floats are compared exactly, as
      float64 compares them.  The one rounded operation of the code, the mean
      of a column, is not computed here: it is the field [float_mean] of the
      class [Pandas], of which nothing is assumed.
    - An exception is a value of [exn]; code that can raise returns an
      [outcome].  A [ValueError] keeps the constant text of its message; the
      part formatted from another exception is left out.
    - Functions of Python and pandas whose text is not part of the
      repository ([str.lower], [pd.to_datetime], [pd.to_numeric], [str] of a
      number, the mean of floats) are the fields of the class [Pandas]; every
      theorem holds for
      all of them, and [sample_pandas] gives them on the formats the
      docstrings name, to run the examples. *)

From Stdlib Require Import Ascii String ZArith QArith Qabs Qround Lia.
From stdpp Require Import base option list gmap strings pretty.

Open Scope string_scope.
Open Scope Z_scope.

(** ** Exceptions *)

Inductive exn :=
| ValueError (msg : string)
| KeyError (key : string)
| TypeError
| IndexError.

Inductive outcome (A : Type) :=
| Return (a : A)
| Raise (e : exn).
Arguments Return {A} a.
Arguments Raise {A} e.

#[global] Instance outcome_ret : MRet outcome := fun _ a => Return a.
#[global] Instance outcome_bind : MBind outcome := fun _ _ f c =>
  match c with
  | Return a => f a
  | Raise e => Raise e
  end.

(** [try: c except Exception as e: h e] *)
Definition try_except {A} (c : outcome A) (h : exn → outcome A) : outcome A :=
  match c with
  | Return a => Return a
  | Raise e => h e
  end.

(** ** Python strings *)

(** [needle in hay] *)
Fixpoint str_in (needle hay : string) : bool :=
  String.prefix needle hay ||
  match hay with
  | EmptyString => false
  | String _ hay' => str_in needle hay'
  end.

(** [name in names], for a list or a pandas [Index] of labels *)
Definition label_in (name : string) (names : list string) : bool :=
  existsb (String.eqb name) names.

(** ** Values of pandas *)

(** A column of a frame. *)
Inductive Series :=
| ObjectSeries (v : list (option string))
| DatetimeSeries (v : list (option Z))
| FloatSeries (v : list (option Q)).

(** A value held by a cell: a text, a timestamp, a number, or the missing
    value of the column's dtype. *)
Inductive scalar :=
| Str (s : string)
| Timestamp (t : Z)
| NaT
| Float (x : Q)
| NaN.

Record DataFrame := {
  index : list Z;
  series : list (string * Series)
}.

(** [df.columns] *)
Definition columns (df : DataFrame) : list string := map fst (series df).

Class Pandas := {
  (** [s.lower()] *)
  lower : string → string;
  (** [pd.to_datetime(x, utc=True)] on one value: a timestamp, [NaT], or an
      exception *)
  to_datetime : scalar → outcome (option Z);
  (** [pd.to_numeric(x, errors='coerce')] on one text *)
  to_numeric : string → option Q;
  (** [str(x)] of a number or a timestamp *)
  str_of : scalar → string;
  (** [s.mean()] of a float column whose present values are [xs], not
      empty: what float64 arithmetic makes of their sum divided by their
      number, with its rounding and its overflow *)
  float_mean : list Q → scalar
}.

(** ** Operations of pandas on series and frames *)

(** [l[mask]] for a boolean mask of the length of [l] *)
Fixpoint boolean_index {A} (mask : list bool) (l : list A) : list A :=
  match mask, l with
  | b :: mask', x :: l' =>
      if b then x :: boolean_index mask' l' else boolean_index mask' l'
  | _, _ => []
  end.

Definition series_select (mask : list bool) (s : Series) : Series :=
  match s with
  | ObjectSeries v => ObjectSeries (boolean_index mask v)
  | DatetimeSeries v => DatetimeSeries (boolean_index mask v)
  | FloatSeries v => FloatSeries (boolean_index mask v)
  end.

(** [df[mask]]: the rows where the mask holds, with their labels *)
Definition frame_select (mask : list bool) (df : DataFrame) : DataFrame :=
  {| index := boolean_index mask (index df);
     series := map (fun c => (fst c, series_select mask (snd c))) (series df) |}.

(** [df.empty]: one of the two axes has length 0 *)
Definition empty (df : DataFrame) : bool :=
  match index df, series df with
  | _ :: _, _ :: _ => false
  | _, _ => true
  end.

(** [df[name]].  With a label that occurs twice pandas gives a frame, on
    which the series operations used here fail. *)
Definition getitem (df : DataFrame) (name : string) : outcome Series :=
  match List.filter (fun c => String.eqb (fst c) name) (series df) with
  | [] => Raise (KeyError name)
  | [c] => Return (snd c)
  | _ => Raise TypeError
  end.

(** [df.columns[0]] *)
Definition first_column (df : DataFrame) : outcome string :=
  match columns df with
  | c :: _ => Return c
  | [] => Raise IndexError
  end.

(** [s.notna()] *)
Definition notna (s : Series) : list bool :=
  match s with
  | ObjectSeries v => map (fun c => bool_decide (is_Some c)) v
  | DatetimeSeries v => map (fun c => bool_decide (is_Some c)) v
  | FloatSeries v => map (fun c => bool_decide (is_Some c)) v
  end.

(** [df.dropna(subset=[name])] *)
Definition dropna (df : DataFrame) (name : string) : outcome DataFrame :=
  s ← getitem df name;
  Return (frame_select (notna s) df).

(** The cells of a series as scalars. *)
Definition cells (s : Series) : list scalar :=
  match s with
  | ObjectSeries v => map (fun c => match c with Some x => Str x | None => NaN end) v
  | DatetimeSeries v => map (fun c => match c with Some t => Timestamp t | None => NaT end) v
  | FloatSeries v => map (fun c => match c with Some x => Float x | None => NaN end) v
  end.

(** Position of the first row labelled [label]. *)
Fixpoint position (label : Z) (idx : list Z) : option nat :=
  match idx with
  | [] => None
  | l :: idx' => if Z.eqb l label then Some O else S <$> position label idx'
  end.

(** [df.loc[label, name]], on a frame whose row labels are distinct *)
Definition loc (df : DataFrame) (label : Z) (name : string) : outcome scalar :=
  s ← getitem df name;
  match position label (index df) with
  | Some i =>
      match cells s !! i with
      | Some x => Return x
      | None => Raise IndexError
      end
  | None => Raise (KeyError "")
  end.

(** [df[[a, b]]] *)
Definition project2 (df : DataFrame) (a b : string) : outcome DataFrame :=
  sa ← getitem df a;
  sb ← getitem df b;
  Return {| index := index df; series := [(a, sa); (b, sb)] |}.

Definition Qlt_bool (x y : Q) : bool := negb (Qle_bool y x).

(** The label and value of the first smallest present value for the strict
    order [lt], scanning from the best one seen so far. *)
Fixpoint argbest {A} (lt : A → A → bool) (best : option (Z * A))
    (l : list (Z * option A)) : option (Z * A) :=
  match l with
  | [] => best
  | (_, None) :: l' => argbest lt best l'
  | (i, Some x) :: l' =>
      match best with
      | Some (_, b) =>
          if lt x b then argbest lt (Some (i, x)) l' else argbest lt best l'
      | None => argbest lt (Some (i, x)) l'
      end
  end.

Definition label_of {A} (r : option (Z * A)) : outcome Z :=
  match r with
  | Some (i, _) => Return i
  | None => Raise (ValueError "all-NA")
  end.

(** [s.idxmin()]: the label of the first occurrence of the minimum, missing
    values skipped.  On a series with no present value pandas raises or gives
    a missing label that [.loc] then rejects; both are the [Raise] here. *)
Definition idxmin (idx : list Z) (s : Series) : outcome Z :=
  match s with
  | ObjectSeries _ => Raise TypeError
  | DatetimeSeries v => label_of (argbest Z.ltb None (zip idx v))
  | FloatSeries v => label_of (argbest Qlt_bool None (zip idx v))
  end.

(** [s.idxmax()] *)
Definition idxmax (idx : list Z) (s : Series) : outcome Z :=
  match s with
  | ObjectSeries _ => Raise TypeError
  | DatetimeSeries v => label_of (argbest (fun x b => Z.ltb b x) None (zip idx v))
  | FloatSeries v => label_of (argbest (fun x b => Qlt_bool b x) None (zip idx v))
  end.

(** The present values of a column, in order. *)
Definition present {A} (v : list (option A)) : list A := omap id v.

Definition Qsum (l : list Q) : Q := foldr Qplus 0%Q l.
Definition Zsum (l : list Z) : Z := foldr Z.add 0 l.

(** [s.mean()]: missing values are skipped; with none left the result is
    the missing value of the dtype.  The mean of timestamps is rounded down
    to a nanosecond; the mean of floats is float64's, [float_mean]. *)
Definition mean `{Pandas} (s : Series) : outcome scalar :=
  match s with
  | ObjectSeries _ => Raise TypeError
  | DatetimeSeries v =>
      match present v with
      | [] => Return NaT
      | ts => Return (Timestamp (Zsum ts / Z.of_nat (length ts)))
      end
  | FloatSeries v =>
      match present v with
      | [] => Return NaN
      | xs => Return (float_mean xs)
      end
  end.

(** [(s > threshold).sum()] and [(s < threshold).sum()] for a float
    threshold: a missing value compares false; a timestamp or a text cannot
    be compared with a float. *)
Definition count_where (p : Q → bool) (s : Series) : outcome Z :=
  match s with
  | ObjectSeries v =>
      if forallb (fun c => bool_decide (c = None)) v then Return 0 else Raise TypeError
  | DatetimeSeries _ => Raise TypeError
  | FloatSeries v => Return (Z.of_nat (length (List.filter p (present v))))
  end.

(** [t + pd.Timedelta(...)] on a timestamp or [NaT] *)
Definition timestamp_add (t : option Z) (delta : Z) : option Z := (λ x, x + delta) <$> t.

Definition Timedelta_days (n : Z) : Z := n * 86400000000000.
Definition Timedelta_seconds (n : Z) : Z := n * 1000000000.

(** [a > b] and [a <= b] on timestamps: false when one is [NaT] *)
Definition timestamp_gt (a b : option Z) : bool :=
  match a, b with
  | Some x, Some y => Z.ltb y x
  | _, _ => false
  end.

Definition timestamp_le (a b : option Z) : bool :=
  match a, b with
  | Some x, Some y => Z.leb x y
  | _, _ => false
  end.

(** [(s >= start) & (s <= end)] for timestamps [start] and [end] *)
Definition between (s : Series) (start end_ : option Z) : outcome (list bool) :=
  match s with
  | DatetimeSeries v =>
      Return (map (fun d => timestamp_le start d && timestamp_le d end_) v)
  | ObjectSeries [] => Return []
  | ObjectSeries _ => Raise TypeError
  | FloatSeries _ => Raise TypeError
  end.

(** ** [src/data_analysis.py]: class [DataAnalysis] *)

Module DataAnalysis.
Section methods.
Context `{Pandas}.

(** The object's field [self.data]: a frame, or [None] before a load. *)
Variable data : option DataFrame.

(** [_validate_date_range(start_date, end_date)] *)
Definition _validate_date_range (start_date end_date : string)
    : outcome (option Z * option Z) :=
  try_except
    (start ← to_datetime (Str start_date);
     end_ ← to_datetime (Str end_date);
     let end_ := timestamp_add (timestamp_add end_ (Timedelta_days 1))
                               (- Timedelta_seconds 1) in
     if timestamp_gt start end_
     then Raise (ValueError "Start date cannot be after end date")
     else Return (start, end_))
    (fun e => Raise (ValueError "Invalid date range")).

(** The column choice at the head of [_filter_data_by_date] (lines 85 to
    124), for the labels [cols] of [self.data.columns]. *)
Definition resolve_column (cols : list string) (consumption_type : string)
    : outcome string :=
  if String.eqb consumption_type "gas" then
    if label_in "gas_consumption" cols then Return "gas_consumption"
    else
      match List.filter (fun col => str_in "gas" (lower col) || str_in "gaz" (lower col)) cols with
      | column :: _ => Return column
      | [] => Raise (ValueError "No gas consumption data available")
      end
  else if String.eqb consumption_type "electricity" then
    if label_in "electricity_consumption" cols then Return "electricity_consumption"
    else
      match List.filter (fun col => str_in "electr" (lower col) || str_in "électr" (lower col)) cols with
      | column :: _ => Return column
      | [] => Raise (ValueError "No electricity consumption data available")
      end
  else if label_in "consumption" cols then Return "consumption"
  else
    match List.filter (fun col => negb (String.eqb col "date")) cols with
    | column :: _ => Return column
    | [] => Raise (ValueError ("No " ++ consumption_type ++ " consumption data available"))
    end.

(** [_filter_data_by_date(start_date, end_date, consumption_type)] *)
Definition _filter_data_by_date (start_date end_date : option Z)
    (consumption_type : string) : outcome (DataFrame * string) :=
  match data with
  | None => Raise (ValueError "No data loaded")
  | Some df =>
      column ← resolve_column (columns df) consumption_type;
      let date_column := "date" in
      dates ← getitem df date_column;
      mask ← between dates start_date end_date;
      Return (frame_select mask df, column)
  end.

(** [get_minimum]; the result [None] stands for the pair [(None, None)]. *)
Definition get_minimum (start_date end_date consumption_type : string)
    : outcome (option (scalar * scalar)) :=
  try_except
    ('(start, end_) ← _validate_date_range start_date end_date;
     '(filtered, column) ← _filter_data_by_date start end_ consumption_type;
     if empty filtered then Return None
     else
       s ← getitem filtered column;
       min_idx ← idxmin (index filtered) s;
       min_value ← loc filtered min_idx column;
       c0 ← first_column filtered;
       min_date ← loc filtered min_idx c0;
       Return (Some (min_value, min_date)))
    (fun e => Return None).

(** [get_maximum] *)
Definition get_maximum (start_date end_date consumption_type : string)
    : outcome (option (scalar * scalar)) :=
  try_except
    ('(start, end_) ← _validate_date_range start_date end_date;
     '(filtered, column) ← _filter_data_by_date start end_ consumption_type;
     if empty filtered then Return None
     else
       s ← getitem filtered column;
       max_idx ← idxmax (index filtered) s;
       max_value ← loc filtered max_idx column;
       c0 ← first_column filtered;
       max_date ← loc filtered max_idx c0;
       Return (Some (max_value, max_date)))
    (fun e => Return None).

(** [get_average] *)
Definition get_average (start_date end_date consumption_type : string)
    : outcome (option scalar) :=
  try_except
    ('(start, end_) ← _validate_date_range start_date end_date;
     '(filtered, column) ← _filter_data_by_date start end_ consumption_type;
     if empty filtered then Return None
     else
       s ← getitem filtered column;
       m ← mean s;
       Return (Some m))
    (fun e => Return None).

(** [count_days_above_threshold] *)
Definition count_days_above_threshold (start_date end_date : string)
    (threshold : Q) (consumption_type : string) : outcome (option Z) :=
  try_except
    ('(start, end_) ← _validate_date_range start_date end_date;
     '(filtered, column) ← _filter_data_by_date start end_ consumption_type;
     if empty filtered then Return None
     else
       s ← getitem filtered column;
       n ← count_where (fun x => Qlt_bool threshold x) s;
       Return (Some n))
    (fun e => Return None).

(** [count_days_below_threshold] *)
Definition count_days_below_threshold (start_date end_date : string)
    (threshold : Q) (consumption_type : string) : outcome (option Z) :=
  try_except
    ('(start, end_) ← _validate_date_range start_date end_date;
     '(filtered, column) ← _filter_data_by_date start end_ consumption_type;
     if empty filtered then Return None
     else
       s ← getitem filtered column;
       n ← count_where (fun x => Qlt_bool x threshold) s;
       Return (Some n))
    (fun e => Return None).

(** [get_data_for_period] *)
Definition get_data_for_period (start_date end_date consumption_type : string)
    : outcome (option DataFrame) :=
  try_except
    ('(start, end_) ← _validate_date_range start_date end_date;
     '(filtered, column) ← _filter_data_by_date start end_ consumption_type;
     if empty filtered then Return None
     else
       non_empty_data ← dropna filtered column;
       if empty non_empty_data then
         if String.eqb consumption_type "electricity" then
           try_except
             ('(_, gas_column) ← _filter_data_by_date start end_ "gas";
              non_empty_gas ← dropna filtered gas_column;
              if negb (empty non_empty_gas) then
                c0 ← first_column filtered;
                r ← project2 non_empty_gas c0 gas_column;
                Return (Some r)
              else Return None)
             (fun gas_error => Return None)
         else Return None
       else
         c0 ← first_column filtered;
         r ← project2 non_empty_data c0 column;
         Return (Some r))
    (fun e => Return None).

End methods.
End DataAnalysis.

(** ** [src/data_loader.py]: class [DataLoader] *)

Module DataLoader.
Section methods.
Context `{Pandas}.

Definition date_patterns : list string :=
  ["date"; "Date"; "temps"; "Temps"; "time"; "Time"; "période"; "Période"].
Definition elec_patterns : list string :=
  ["électricité"; "electricite"; "électr"; "electr"; "RTE"].
Definition gas_patterns : list string :=
  ["gaz"; "gas"; "GRTgaz"; "Teréga"].

(** [for pattern in patterns: candidates = [col for col in cols if
    matches pattern col]; if candidates: found = candidates[0]; break] *)
Fixpoint first_candidate (matches : string → string → bool)
    (patterns cols : list string) : option string :=
  match patterns with
  | [] => None
  | pattern :: patterns' =>
      match List.filter (matches pattern) cols with
      | col :: _ => Some col
      | [] => first_candidate matches patterns' cols
      end
  end.

(** [s.iloc[0]] *)
Definition iloc0 (s : Series) : outcome scalar :=
  match cells s with
  | x :: _ => Return x
  | [] => Raise IndexError
  end.

(** [str(x)] for the cells of [s.dropna().head(5).astype(str)] *)
Definition samples (s : Series) : list string :=
  map (fun x => match x with Str t => t | _ => str_of x end)
      (take 5 (boolean_index (notna s) (cells s))).

(** Lines 186 to 219: the date column. *)
Definition find_date_col (df : DataFrame) : outcome string :=
  let date_col := first_candidate (fun pattern col => str_in pattern col)
                    date_patterns (columns df) in
  let date_col :=
    match date_col with
    | Some c => Some c
    | None =>
        match (first_col ← first_column df;
               s ← getitem df first_col;
               x ← iloc0 s;
               _ ← to_datetime x;
               Return first_col) with
        | Return c => Some c
        | Raise _ => None
        end
    end in
  let date_col :=
    match date_col with
    | Some c => Some c
    | None =>
        head (List.filter
          (fun col =>
             match getitem df col with
             | Return s =>
                 existsb (str_in "-") (samples s) || existsb (str_in "/") (samples s)
             | Raise _ => false
             end)
          (columns df))
    end in
  match date_col with
  | Some c => Return c
  | None => Raise (ValueError "No date column found in the CSV file")
  end.

(** [df.select_dtypes(include=['number']).columns] *)
Definition numeric_cols (df : DataFrame) : list string :=
  map fst (List.filter
    (fun c => match snd c with FloatSeries _ => true | _ => false end)
    (series df)).

Definition by_name (pattern col : string) : bool :=
  str_in (lower pattern) (lower col).

(** Lines 221 to 242: the electricity and gas columns. *)
Definition find_consumption_cols (df : DataFrame) : option string * option string :=
  let elec_col := first_candidate by_name elec_patterns (columns df) in
  let gas_col := first_candidate by_name gas_patterns (columns df) in
  match elec_col, gas_col with
  | None, None =>
      (numeric_cols df !! 0%nat, numeric_cols df !! 1%nat)
  | _, _ => (elec_col, gas_col)
  end.

(** [if col:] for a label or [None] *)
Definition truthy (col : option string) : list string :=
  match col with
  | Some c => if String.eqb c "" then [] else [c]
  | None => []
  end.

(** [if col: mapping[col] = name] *)
Definition assign_if (col : option string) (name : string)
    (mapping : gmap string string) : gmap string string :=
  match truthy col with
  | c :: _ => <[ c := name ]> mapping
  | [] => mapping
  end.

(** [df[names]] for a list of labels *)
Definition getitems (df : DataFrame) (names : list string) : DataFrame :=
  {| index := index df;
     series := flat_map (fun name =>
                 List.filter (fun c => String.eqb (fst c) name) (series df)) names |}.

(** [df.rename(columns=mapping)] *)
Definition rename (df : DataFrame) (mapping : gmap string string) : DataFrame :=
  {| index := index df;
     series := map (fun c => (default (fst c) (mapping !! fst c), snd c)) (series df) |}.

(** [df[name] = s] *)
Definition setitem (df : DataFrame) (name : string) (s : Series) : DataFrame :=
  if label_in name (columns df) then
    {| index := index df;
       series := map (fun c => if String.eqb (fst c) name then (name, s) else c) (series df) |}
  else {| index := index df; series := (series df ++ [(name, s)])%list |}.

Fixpoint to_datetime_all (l : list scalar) : outcome (list (option Z)) :=
  match l with
  | [] => Return []
  | x :: l' =>
      t ← to_datetime x;
      ts ← to_datetime_all l';
      Return (t :: ts)
  end.

(** [pd.to_datetime(s, utc=True)]: raises when a cell does *)
Definition to_datetime_strict (s : Series) : outcome Series :=
  ts ← to_datetime_all (cells s);
  Return (DatetimeSeries ts).

(** [pd.to_datetime(s, errors='coerce', utc=True)] *)
Definition to_datetime_coerce (s : Series) : Series :=
  DatetimeSeries (map (fun x => match to_datetime x with
                                | Return t => t
                                | Raise _ => None
                                end) (cells s)).

(** [pd.to_numeric(s, errors='coerce')] *)
Definition to_numeric_coerce (s : Series) : Series :=
  match s with
  | ObjectSeries v => FloatSeries (map (fun c => c ≫= to_numeric) v)
  | DatetimeSeries v => FloatSeries (map (fmap inject_Z) v)
  | FloatSeries v => FloatSeries v
  end.

(** [for col in cols: df[col] = pd.to_numeric(df[col], errors='coerce')] *)
Fixpoint convert_columns (cols : list string) (df : DataFrame) : outcome DataFrame :=
  match cols with
  | [] => Return df
  | col :: cols' =>
      s ← getitem df col;
      convert_columns cols' (setitem df col (to_numeric_coerce s))
  end.

(** [s != 'oui'] *)
Definition ne_oui (s : Series) : list bool :=
  match s with
  | ObjectSeries v => map (fun c => bool_decide (c ≠ Some "oui")) v
  | DatetimeSeries v => map (fun _ => true) v
  | FloatSeries v => map (fun _ => true) v
  end.

(** [idx.isin(labels)] *)
Definition isin (idx labels : list Z) : list bool :=
  map (fun l => existsb (Z.eqb l) labels) idx.

(** Lines 244 to 268: the columns kept, under their new names.  [None]
    stands for the [ValueError] of line 255. *)
Definition keep_and_rename (df : DataFrame) (date_col : string)
    (elec_col gas_col : option string) : option DataFrame :=
  let columns_to_keep := ([date_col] ++ truthy elec_col ++ truthy gas_col)%list in
  let columns_to_keep :=
    List.filter (fun col => label_in col (columns df)) columns_to_keep in
  if (length columns_to_keep <? 2)%nat then None
  else
    let new_df := getitems df columns_to_keep in
    let column_mapping : gmap string string := {[ date_col := "date" ]} in
    let column_mapping :=
      assign_if elec_col "electricity_consumption" column_mapping in
    let column_mapping :=
      assign_if gas_col "gas_consumption" column_mapping in
    Some (rename new_df column_mapping).

(** Lines 270 to 279: the date column as timestamps, strictly, else with
    the cells that do not parse made [NaT]. *)
Definition convert_dates (new_df : DataFrame) : outcome DataFrame :=
  try_except
    (s ← getitem new_df "date";
     d ← to_datetime_strict s;
     Return (setitem new_df "date" d))
    (fun _ =>
       try_except
         (s ← getitem new_df "date";
          Return (setitem new_df "date" (to_datetime_coerce s)))
         (fun e => Raise (ValueError "Cannot parse date column"))).

(** Lines 288 to 292: the rows flagged [oui] are dropped, by label. *)
Definition drop_flagged (df new_df : DataFrame) : outcome DataFrame :=
  if label_in "flag_ignore" (columns df) then
    flag ← getitem df "flag_ignore";
    let filtered_indices := index (frame_select (ne_oui flag) df) in
    Return (frame_select (isin (index new_df) filtered_indices) new_df)
  else Return new_df.

(** [_load_csv], from the frame that [pd.read_csv] returned. *)
Definition _load_csv (df : DataFrame) : outcome DataFrame :=
  try_except
    (if (length (columns df) <? 2)%nat
     then Raise (ValueError "File does not have enough columns")
     else
       date_col ← find_date_col df;
       let '(elec_col, gas_col) := find_consumption_cols df in
       match keep_and_rename df date_col elec_col gas_col with
       | None => Raise (ValueError "Couldn't find required columns in the CSV file")
       | Some new_df =>
           new_df ← convert_dates new_df;
           new_df ← dropna new_df "date";
           new_df ← convert_columns (tail (columns new_df)) new_df;
           drop_flagged df new_df
       end)
    (fun e => Raise (ValueError "Invalid file format")).

End methods.
End DataLoader.

(** ** A sample of the Python and pandas functions

    [str.lower] on ASCII and Latin-1 letters, [pd.to_datetime] on the texts
    [YYYY-MM-DD], on the empty text (read as [NaT]) and on non-text cells,
    [pd.to_numeric] on decimal numbers, [str] on short decimals. *)

Module Sample.

Definition lower_ascii (c : ascii) : ascii :=
  let n := nat_of_ascii c in
  if ((65 <=? n) && (n <=? 90))%nat then ascii_of_nat (n + 32) else c.

(** the second byte of a Latin-1 capital after the lead byte 195 *)
Definition lower_latin1 (c : ascii) : ascii :=
  let n := nat_of_ascii c in
  if ((128 <=? n) && (n <=? 158) && negb (n =? 151))%nat
  then ascii_of_nat (n + 32) else c.

Fixpoint lower_from (lead : bool) (s : string) : string :=
  match s with
  | EmptyString => EmptyString
  | String c s' =>
      if lead then String (lower_latin1 c) (lower_from false s')
      else String (lower_ascii c) (lower_from (nat_of_ascii c =? 195)%nat s')
  end.

Definition lower (s : string) : string := lower_from false s.

Definition digit (c : ascii) : option Z :=
  let n := nat_of_ascii c in
  if ((48 <=? n) && (n <=? 57))%nat then Some (Z.of_nat n - 48) else None.

(** the number written by the digits [s], after the digits of value [acc] *)
Fixpoint digits (acc : Z) (s : string) : option Z :=
  match s with
  | EmptyString => Some acc
  | String c s' => d ← digit c; digits (10 * acc + d) s'
  end.

Definition number (s : string) : option Z :=
  match s with
  | EmptyString => None
  | _ => digits 0 s
  end.

Definition leap (y : Z) : bool :=
  ((y mod 4 =? 0) && negb (y mod 100 =? 0)) || (y mod 400 =? 0).

Definition days_in_month (y m : Z) : Z :=
  if m =? 2 then (if leap y then 29 else 28)
  else if (m =? 4) || (m =? 6) || (m =? 9) || (m =? 11) then 30
  else 31.

(** days from 1970-01-01 to the day [y]-[m]-[d] *)
Definition days_from_civil (y m d : Z) : Z :=
  let y := if m <=? 2 then y - 1 else y in
  let era := y / 400 in
  let yoe := y - era * 400 in
  let mp := (m + 9) mod 12 in
  let doy := (153 * mp + 2) / 5 + d - 1 in
  let doe := yoe * 365 + yoe / 4 - yoe / 100 + doy in
  era * 146097 + doe - 719468.

Definition parse_day (s : string) : option Z :=
  if negb (String.length s =? 10)%nat then None
  else if negb (String.eqb (substring 4 1 s) "-" && String.eqb (substring 7 1 s) "-")
  then None
  else
    y ← number (substring 0 4 s);
    m ← number (substring 5 2 s);
    d ← number (substring 8 2 s);
    if (1 <=? m) && (m <=? 12) && (1 <=? d) && (d <=? days_in_month y m)
    then Some (Timedelta_days (days_from_civil y m d))
    else None.

Definition to_datetime (x : scalar) : outcome (option Z) :=
  match x with
  | Str "" => Return None
  | Str s =>
      match parse_day s with
      | Some t => Return (Some t)
      | None => Raise (ValueError "Unknown datetime string format")
      end
  | Timestamp t => Return (Some t)
  | Float x => Return (Some (Qfloor x))
  | NaT | NaN => Return None
  end.

(** the value of [int.frac], for digit texts [int] and [frac] *)
Definition decimal (int frac : string) : option Q :=
  i ← number int;
  f ← digits 0 frac;
  Some (inject_Z i + (f # Pos.pow 10 (Pos.of_nat (String.length frac))))%Q.

Definition unsigned_number (s : string) : option Q :=
  match String.index 0 "." s with
  | Some k =>
      decimal (substring 0 k s) (substring (S k) (String.length s - S k) s)
  | None => inject_Z <$> number s
  end.

Definition to_numeric (s : string) : option Q :=
  match s with
  | String "-" s' => Qopp <$> unsigned_number s'
  | _ => unsigned_number s
  end.

(** the decimals of [num / den] below the point, at most [n] of them *)
Fixpoint decimals (n : nat) (num den : Z) : string :=
  match n with
  | O => ""
  | S n' =>
      let q := 10 * num / den in
      let r := 10 * num mod den in
      pretty q ++ (if r =? 0 then "" else decimals n' r den)
  end.

Definition str_of (x : scalar) : string :=
  match x with
  | Str s => s
  | Float x =>
      let a := Qabs x in
      let den := Z.pos (Qden a) in
      (if Qlt_bool x 0 then "-" else "") ++
      pretty (Qnum a / den) ++ "." ++ decimals 16 (Qnum a mod den) den
  | Timestamp t => pretty t
  | NaT => "NaT"
  | NaN => "nan"
  end.

(** the mean taken exactly: that of float64 when no rounding occurs *)
Definition float_mean (xs : list Q) : scalar :=
  Float (Qsum xs / inject_Z (Z.of_nat (length xs))).

End Sample.

#[global] Instance sample_pandas : Pandas := {|
  lower := Sample.lower;
  to_datetime := Sample.to_datetime;
  to_numeric := Sample.to_numeric;
  str_of := Sample.str_of;
  float_mean := Sample.float_mean
|}.

(** ** Vocabulary of the specification *)

(** The consumption kinds of the specification and the argument
    [consumption_type] that selects them. *)
Inductive kind := electricity | gas.

Definition kind_name (k : kind) : string :=
  match k with
  | electricity => "electricity"
  | gas => "gas"
  end.

(** The canonical column name of a kind. *)
Definition canonical (k : kind) : string :=
  match k with
  | electricity => "electricity_consumption"
  | gas => "gas_consumption"
  end.

(** The column name contains a token of the kind, whatever the case. *)
Definition token_match `{Pandas} (k : kind) (col : string) : bool :=
  match k with
  | electricity => str_in "electr" (lower col) || str_in "électr" (lower col)
  | gas => str_in "gas" (lower col) || str_in "gaz" (lower col)
  end.

(** [c] is the first element of [l] on which [f] holds. *)
Inductive first_where {A} (f : A → bool) : list A → A → Prop :=
| first_here c l : f c = true → first_where f (c :: l) c
| first_later x l c : f x = false → first_where f l c → first_where f (x :: l) c.

(** The table of the examples of the specification: electricity 10, 5 and
    20 on three days of December 2024; gas is missing on the second day. *)
Definition day (y m d : Z) : Z := Timedelta_days (Sample.days_from_civil y m d).

Definition sample_frame : DataFrame :=
  {| index := [0; 1; 2];
     series :=
       [("date", DatetimeSeries [Some (day 2024 12 1); Some (day 2024 12 2); Some (day 2024 12 3)]);
        ("electricity_consumption", FloatSeries [Some 10%Q; Some 5%Q; Some 20%Q]);
        ("gas_consumption", FloatSeries [Some 7%Q; None; Some 3%Q])] |}.

(** A frame as pandas builds it: distinct row labels, and every column as
    long as the index. *)
Definition well_formed (df : DataFrame) : Prop :=
  NoDup (index df)
  ∧ Forall (fun c => length (cells (snd c)) = length (index df)) (series df).

(** The values of a column with the rows outside the mask made missing. *)
Definition mask_values {A} (mask : list bool) (vals : list (option A)) : list (option A) :=
  zip_with (fun (m : bool) v => if m then v else None) mask vals.

(** A strict order whose incomparable elements are equivalent, as [<] is on
    numbers. *)
Class StrictWeak {A} (lt : A → A → bool) := {
  lt_irrefl x : lt x x = false;
  lt_trans x y z : lt x y = true → lt y z = true → lt x z = true;
  lt_cotrans x y z : lt x y = true → lt x z = true ∨ lt z y = true
}.

(** The row at position [i] is dated within the two bounds. *)
Definition in_range (dates : list (option Z)) (start end_ : option Z) (i : nat) : Prop :=
  ∃ t a b, dates !! i = Some (Some t) ∧ start = Some a ∧ end_ = Some b ∧ a ≤ t ≤ b.

(** [(dates >= start) & (dates <= end)], the mask of the rows in range *)
Definition range_mask (dates : list (option Z)) (start end_ : option Z) : list bool :=
  map (fun d => timestamp_le start d && timestamp_le d end_) dates.

(** The search of [idxmin] or [idxmax] in a selection of [df], and the two
    reads with [.loc] at the label it gives. *)
Definition extreme (df : DataFrame) (mask : list bool) (vals : list (option Q))
    (col : string) (lt : Q → Q → bool) : outcome (option (scalar * scalar)) :=
  let filtered := frame_select mask df in
  i ← label_of (argbest lt None (zip (index filtered) (boolean_index mask vals)));
  v ← loc filtered i col;
  c ← first_column filtered;
  d ← loc filtered i c;
  Return (Some (v, d)).

(** A row, as the pair of its date and its value, is dated within the
    bounds and its value is present and satisfies [p]. *)
Definition qualifies (start end_ : option Z) (p : Q → bool)
    (r : option Z * option Q) : bool :=
  timestamp_le start (fst r) && timestamp_le (fst r) end_ && from_option p false (snd r).

(** The rows of the table that qualify, in table order. *)
Definition qualifying (start end_ : option Z) (p : Q → bool)
    (dates : list (option Z)) (vals : list (option Q)) : list (option Z * option Q) :=
  List.filter (qualifies start end_ p) (zip dates vals).

(** The rows in range whose cell in the column [s] is present. *)
Definition keep_mask (dates : list (option Z)) (start end_ : option Z) (s : Series)
    : list bool :=
  zip_with andb (range_mask dates start end_) (notna s).

Definition has_row (keep : list bool) : Prop := ∃ i, keep !! i = Some true.

(** The rows [keep] of [df], with the two columns [c0] and [col]. *)
Definition subtable (df : DataFrame) (keep : list bool) (c0 : string) (s0 : Series)
    (col : string) (s : Series) : DataFrame :=
  {| index := boolean_index keep (index df);
     series := [(c0, series_select keep s0); (col, series_select keep s)] |}.

(** A file with a gas column and no electricity column, and the table that
    the load makes of it. *)
Definition gas_raw_frame : DataFrame :=
  {| index := [0; 1];
     series :=
       [("Date", ObjectSeries [Some "2024-12-01"; Some "2024-12-02"]);
        ("Consommation gaz (MWh)", FloatSeries [Some 3%Q; Some 4%Q])] |}.

Definition gas_loaded_frame : DataFrame :=
  {| index := [0; 1];
     series :=
       [("date", DatetimeSeries [Some (day 2024 12 1); Some (day 2024 12 2)]);
        ("gas_consumption", FloatSeries [Some 3%Q; Some 4%Q])] |}.

(** A table without electricity values: the extraction for electricity falls
    back on gas. *)
Definition gas_only_frame : DataFrame :=
  {| index := [0; 1];
     series :=
       [("date", DatetimeSeries [Some (day 2024 12 1); Some (day 2024 12 2)]);
        ("electricity_consumption", FloatSeries [None; None]);
        ("gas_consumption", FloatSeries [Some 3%Q; Some 4%Q])] |}.

(** A frame read from a CSV file: the third date does not parse, the second
    electricity cell is not a number, the fourth row is flagged. *)
Definition raw_frame : DataFrame :=
  {| index := [0; 1; 2; 3];
     series :=
       [("Date", ObjectSeries [Some "2024-12-01"; Some "2024-12-02"; Some "soon";
                               Some "2024-12-04"]);
        ("Consommation électricité (MWh)",
         ObjectSeries [Some "10"; Some "n/a"; Some "5"; Some "7.5"]);
        ("Consommation gaz (MWh)", FloatSeries [Some 3%Q; Some 4%Q; None; Some 6%Q]);
        ("flag_ignore", ObjectSeries [None; Some "non"; None; Some "oui"])] |}.

(** A frame whose date column holds numbers and whose names match no
    electricity or gas pattern. *)
Definition numeric_date_frame : DataFrame :=
  {| index := [0; 1];
     series :=
       [("Date", FloatSeries [Some 20240101%Q; Some 20240102%Q]);
        ("value", FloatSeries [Some 1%Q; Some 2%Q])] |}.

(** The rows that the flag column lets through: all of them without a
    column [flag_ignore]. *)
Definition unflagged (df : DataFrame) : list bool :=
  if label_in "flag_ignore" (columns df) then
    match getitem df "flag_ignore" with
    | Return flag => DataLoader.ne_oui flag
    | Raise _ => []
    end
  else map (fun _ => true) (index df).

(** The rows of the file that the load keeps, for the date column [sd]:
    the date parses and the row is not flagged. *)
Definition kept `{Pandas} (df : DataFrame) (sd : Series) : list bool :=
  zip_with andb (notna (DataLoader.to_datetime_coerce sd)) (unflagged df).

(** A table whose first column is not the date column. *)
Definition swapped_frame : DataFrame :=
  {| index := [0; 1; 2];
     series :=
       [("electricity_consumption", FloatSeries [Some 10%Q; Some 5%Q; Some 20%Q]);
        ("date", DatetimeSeries [Some (day 2024 12 1); Some (day 2024 12 2); Some (day 2024 12 3)])] |}.

(** The table that the load makes of [raw_frame]. *)
Definition loaded_frame : DataFrame :=
  {| index := [0; 1];
     series :=
       [("date", DatetimeSeries [Some (day 2024 12 1); Some (day 2024 12 2)]);
        ("electricity_consumption", FloatSeries [Some 10%Q; None]);
        ("gas_consumption", FloatSeries [Some 3%Q; Some 4%Q])] |}.

(** A frame with no dates: the column [ref] is taken for the dates because
    its cells hold a dash. *)
Definition undated_frame : DataFrame :=
  {| index := [0; 1];
     series :=
       [("id", ObjectSeries [Some "a"; Some "b"]);
        ("ref", ObjectSeries [Some "x-1"; Some "y-2"]);
        ("value", FloatSeries [Some 1%Q; Some 2%Q])] |}.

(** ** [src/data_loader.py]: the loader object *)

(** [s.endswith(suffix)] *)
Fixpoint endswith (s suffix : string) : bool :=
  String.eqb s suffix ||
  match s with
  | EmptyString => false
  | String _ s' => endswith s' suffix
  end.

(** [os.path.basename(p)] of [posixpath]: what follows the last slash *)
Fixpoint basename (p : string) : string :=
  match p with
  | EmptyString => EmptyString
  | String c p' =>
      if str_in "/" p' then basename p'
      else if Ascii.eqb c "/" then p' else p
  end.

Module Loading.
Section methods.
Context `{Pandas}.

(** The fields [self.data] and [self.data_source] of a [DataLoader]. *)
Record loader := {
  data : option DataFrame;
  data_source : option string
}.

(** [DataLoader()] *)
Definition __init__ : loader := {| data := None; data_source := None |}.

(** [_load_csv(file_path)]: [read] is what opening the file and
    [pd.read_csv] give at the time of the call; a failure to read is caught
    with the failures of the normalisation. *)
Definition _load_csv (read : outcome DataFrame) : outcome DataFrame :=
  match read with
  | Return df => DataLoader._load_csv df
  | Raise _ => Raise (ValueError "Invalid file format")
  end.

(** [load_from_file(file_path)] *)
Definition load_from_file (self : loader) (file_path : string)
    (read : outcome DataFrame) : loader * bool :=
  match _load_csv read with
  | Return df => ({| data := Some df; data_source := Some file_path |}, true)
  | Raise _ => (self, false)
  end.

Definition download_url : string :=
  "https://odre.opendatasoft.com/api/explore/v2.1/catalog/datasets/consommation-quotidienne-brute/exports/csv".

(** Lines 39 to 46: the address that is downloaded. *)
Definition direct_url (url : string) : string :=
  if str_in "opendatasoft.com" url && negb (endswith url ".csv") then
    if str_in "explore/dataset/consommation-quotidienne-brute" url
    then download_url
    else url
  else url.

(** Lines 48 to 54: the name of the temporary file after [temp_], from
    [path], the path that [urlparse] finds in the address. *)
Definition filename_of (path : string) : string :=
  let filename :=
    if String.eqb (basename path) "" then "downloaded_data.csv" else basename path in
  if endswith filename ".csv" then filename else filename ++ ".csv".

(** [load_from_url(url)].  [download] is the outcome of lines 56 to 76 (the
    request and the writing of the temporary file), [read] that of reading
    the temporary file, [backup] that of lines 86 to 91 (the copy to the
    resources directory).  The removal of the temporary file has its own
    handler and changes nothing here. *)
Definition load_from_url (self : loader) (url : string)
    (download : outcome unit) (read : outcome DataFrame) (backup : outcome unit)
    : loader * bool :=
  let url := direct_url url in
  match download with
  | Raise _ => (self, false)
  | Return _ =>
      match _load_csv read with
      | Raise _ => (self, false)
      | Return df =>
          let self := {| data := Some df; data_source := data_source self |} in
          match backup with
          | Raise _ => (self, false)
          | Return _ => ({| data := data self; data_source := Some url |}, true)
          end
      end
  end.

(** [get_data()] *)
Definition get_data (self : loader) : option DataFrame := data self.

(** [has_data()] *)
Definition has_data (self : loader) : bool :=
  match data self with
  | Some _ => true
  | None => false
  end.

End methods.
End Loading.

(** ** [src/visualisation.py]: class [EnergyConsumptionVisualization] *)

Module Visualisation.
Section methods.
Context `{Pandas}.

(** What [ax.plot] and [ax.bar] are given: the dates, and the columns that
    [self.data[column]] selects. *)
Inductive artist :=
| Line (dates : Series) (values : list Series)
| Bar (dates : Series) (values : list Series).

(** The fields [self.data] and [self.figure]; a figure is the list of what
    has been drawn on it since it was last cleared.  Titles, labels, the grid
    and the legend are left out, and drawing is taken to succeed. *)
Record visualizer := {
  data : option DataFrame;
  figure : option (list artist)
}.

Definition __init__ : visualizer := {| data := None; figure := None |}.

(** [set_data(data)] *)
Definition set_data (self : visualizer) (d : option DataFrame) : visualizer :=
  {| data := d; figure := figure self |}.

(** [create_figure()] *)
Definition create_figure (self : visualizer) : visualizer :=
  {| data := data self; figure := Some [] |}.

(** [df.iloc[:, 0]] *)
Definition iloc_column0 (df : DataFrame) : outcome Series :=
  match series df with
  | c :: _ => Return (snd c)
  | [] => Raise IndexError
  end.

(** [df[name]] as it is handed to the plot: every column of that name *)
Definition getitem_all (df : DataFrame) (name : string) : outcome (list Series) :=
  match List.filter (fun c => String.eqb (fst c) name) (series df) with
  | [] => Raise (KeyError name)
  | l => Return (map snd l)
  end.

(** [plot_consumption(consumption_type, plot_type, title)].  The column
    choice of lines 80 to 116 is, statement for statement, that of
    [DataAnalysis._filter_data_by_date]. *)
Definition plot_consumption (self : visualizer) (consumption_type plot_type : string)
    : visualizer * outcome unit :=
  match data self with
  | None => (self, Raise (ValueError "No data loaded for visualization"))
  | Some df =>
      match figure self with
      | None => (self, Raise (ValueError "Figure not created yet"))
      | Some _ =>
          let self := {| data := data self; figure := Some [] |} in
          match (column ← DataAnalysis.resolve_column (columns df) consumption_type;
                 dates ← iloc_column0 df;
                 values ← getitem_all df column;
                 if String.eqb plot_type "line" then Return (Line dates values)
                 else if String.eqb plot_type "bar" then Return (Bar dates values)
                 else Raise (ValueError ("Invalid plot type: " ++ plot_type))) with
          | Return a => ({| data := data self; figure := Some [a] |}, Return tt)
          | Raise e => (self, Raise e)
          end
      end
  end.

(** [save_plot(file_path)], for the outcome [savefig] of writing the file *)
Definition save_plot (self : visualizer) (savefig : outcome unit) : bool :=
  match figure self with
  | None => false
  | Some _ =>
      match savefig with
      | Return _ => true
      | Raise _ => false
      end
  end.

End methods.
End Visualisation.

(** ** [src/interface.py]: the loader, the analysis and the plot together *)

Module Interface.
Section methods.
Context `{Pandas}.

(** [add_approximation(degree)]: the fit is scikit-learn's. *)
Variable add_approximation :
  Visualisation.visualizer → nat → Visualisation.visualizer * outcome unit.

(** The three objects that the window holds. *)
Record window := {
  data_loader : Loading.loader;
  data_analysis : option DataFrame;
  visualizer : Visualisation.visualizer
}.

(** [__init__]: the figure is created by [setup_visualization]. *)
Definition __init__ : window :=
  {| data_loader := Loading.__init__;
     data_analysis := None;
     visualizer := Visualisation.create_figure Visualisation.__init__ |}.

(** Lines 119 to 122 and 200 to 203: on success the table of the loader is
    handed to the analysis and to the plot. *)
Definition after_load (self : window) (r : Loading.loader * bool) : window :=
  let '(l, success) := r in
  if success then
    {| data_loader := l;
       data_analysis := Loading.get_data l;
       visualizer := Visualisation.set_data (visualizer self) (Loading.get_data l) |}
  else
    {| data_loader := l;
       data_analysis := data_analysis self;
       visualizer := visualizer self |}.

(** [load_file()], for the path that the dialog returns *)
Definition load_file (self : window) (file_path : string) (read : outcome DataFrame)
    : window :=
  if String.eqb file_path "" then self
  else after_load self (Loading.load_from_file (data_loader self) file_path read).

(** [load_from_url()], for the accepted and stripped text [url] *)
Definition load_from_url (self : window) (url : string)
    (download : outcome unit) (read : outcome DataFrame) (backup : outcome unit)
    : window :=
  if String.eqb url "" then self
  else after_load self
         (Loading.load_from_url (data_loader self) url download read backup).

(** What [create_plot] tells the user. *)
Inductive status :=
| NoDataLoaded
| NoDataForPeriod
| PlotCreated
| ErrorCreatingPlot (e : exn).

(** [create_plot()], for the state of the widgets: the two dates as texts,
    the two radio buttons, and the degree when the approximation is asked
    for. *)
Definition create_plot (self : window) (start_date end_date : string)
    (radioElectricity radioLine : bool) (degree : option nat) : window * status :=
  if negb (Loading.has_data (data_loader self)) then (self, NoDataLoaded)
  else
    let consumption_type := if radioElectricity then "electricity" else "gas" in
    let plot_type := if radioLine then "line" else "bar" in
    match DataAnalysis.get_data_for_period (data_analysis self)
            start_date end_date consumption_type with
    | Raise e => (self, ErrorCreatingPlot e)
    | Return None => (self, NoDataForPeriod)
    | Return (Some period_data) =>
        if empty period_data then (self, NoDataForPeriod)
        else
          let v := Visualisation.set_data (visualizer self) (Some period_data) in
          let '(v, r) := Visualisation.plot_consumption v consumption_type plot_type in
          let self := {| data_loader := data_loader self;
                         data_analysis := data_analysis self;
                         visualizer := v |} in
          match r with
          | Raise e => (self, ErrorCreatingPlot e)
          | Return _ =>
              match degree with
              | None => (self, PlotCreated)
              | Some n =>
                  let '(v, r) := add_approximation v n in
                  let self := {| data_loader := data_loader self;
                                 data_analysis := data_analysis self;
                                 visualizer := v |} in
                  match r with
                  | Raise e => (self, ErrorCreatingPlot e)
                  | Return _ => (self, PlotCreated)
                  end
              end
          end
    end.

(** What the user does, with what the outside world answers. *)
Inductive action :=
| Load_file (file_path : string) (read : outcome DataFrame)
| Load_from_url (url : string) (download : outcome unit) (read : outcome DataFrame)
    (backup : outcome unit)
| Create_plot (start_date end_date : string) (radioElectricity radioLine : bool)
    (degree : option nat).

Definition step (self : window) (a : action) : window :=
  match a with
  | Load_file file_path read => load_file self file_path read
  | Load_from_url url download read backup => load_from_url self url download read backup
  | Create_plot start_date end_date radioElectricity radioLine degree =>
      fst (create_plot self start_date end_date radioElectricity radioLine degree)
  end.

Definition run (self : window) (actions : list action) : window :=
  fold_left step actions self.

End methods.
End Interface.

(** A download whose backup copy fails. *)
Definition backup_fails (a : Interface.action) : Prop :=
  match a with
  | Interface.Load_from_url _ _ _ (Raise _) => True
  | _ => False
  end.

(** The table, if any, is one that the normalisation has returned. *)
Definition normalised `{Pandas} (d : option DataFrame) : Prop :=
  ∀ df, d = Some df → ∃ raw, DataLoader._load_csv raw = Return df.

(** * Properties *)

Example sample_lower : lower "Consommation Électricité (MWh)" = "consommation électricité (mwh)".
Proof. reflexivity. Qed.

Example sample_day :
  to_datetime (Str "2024-12-01") = Return (Some (Timedelta_seconds 1733011200)).
Proof. reflexivity. Qed.

Example sample_numeric : to_numeric "-12.50" = Some (- (12 + (50 # 100)))%Q.
Proof. reflexivity. Qed.

Example sample_str : str_of (Float (- (5 # 2))) = "-2.5".
Proof. reflexivity. Qed.

(** ** Lists and masks *)

Lemma filter_head_first {A} (f : A → bool) l c :
  head (List.filter f l) = Some c ↔ first_where f l c.
Proof.
  induction l as [|x l IH]; simpl.
  - split; [discriminate | inversion 1].
  - destruct (f x) eqn:Hx; simpl.
    + split.
      * intros [= ->]. by constructor.
      * inversion 1; subst; [done | congruence].
    + rewrite IH. split.
      * intros. by constructor.
      * inversion 1; subst; [congruence | done].
Qed.

Lemma filter_nil_none {A} (f : A → bool) l :
  List.filter f l = [] ↔ ∀ x, In x l → f x = false.
Proof.
  induction l as [|x l IH]; simpl.
  - split; [intros _ ? [] | done].
  - destruct (f x) eqn:Hx.
    + split; [discriminate | intros Hall]. specialize (Hall x (or_introl eq_refl)). congruence.
    + rewrite IH. split.
      * intros Hall y [<- | Hy]; auto.
      * intros Hall y Hy. apply Hall. by right.
Qed.

Lemma label_in_In name names : label_in name names = true ↔ In name names.
Proof.
  unfold label_in. rewrite existsb_exists. split.
  - intros (x & Hx & Heq). apply String.eqb_eq in Heq. by subst.
  - intros Hin. exists name. split; [done | apply String.eqb_refl].
Qed.

Lemma label_in_not_In name names : label_in name names = false ↔ ¬ In name names.
Proof.
  rewrite <- label_in_In. destruct (label_in name names); split; congruence.
Qed.

Lemma boolean_index_length_le {A} mask (l : list A) :
  (length (boolean_index mask l) ≤ length l)%nat.
Proof.
  revert l. induction mask as [|b mask IH]; intros [|x l]; simpl; try lia.
  destruct b; simpl; specialize (IH l); lia.
Qed.

Lemma boolean_index_map {A B} (f : A → B) mask l :
  boolean_index mask (map f l) = map f (boolean_index mask l).
Proof.
  revert l. induction mask as [|b mask IH]; intros [|x l]; simpl; try done.
  destruct b; simpl; by rewrite IH.
Qed.

(** Two masks in sequence are one mask. *)
Lemma boolean_index_twice {A} m1 m2 (l : list A) :
  length m1 = length m2 →
  boolean_index (boolean_index m1 m2) (boolean_index m1 l)
  = boolean_index (zip_with andb m1 m2) l.
Proof.
  revert m2 l. induction m1 as [|b m1 IH]; intros [|c m2] l Hlen; simpl in *; try done.
  destruct l as [|x l]; simpl.
  - destruct b; simpl; [done | by destruct (boolean_index m1 m2)].
  - destruct b; simpl; [destruct c; simpl|]; rewrite IH; try done; lia.
Qed.

Lemma boolean_index_nil_iff {A} mask (l : list A) :
  length mask = length l →
  boolean_index mask l = [] ↔ ∀ i, mask !! i = Some true → False.
Proof.
  revert l. induction mask as [|b mask IH]; intros [|x l] Hlen; simpl in *; try done.
  destruct b.
  - split; [discriminate | intros Hall; exfalso; by apply (Hall 0%nat)].
  - rewrite IH by lia. split.
    + intros Hall [|i] Hi; [done | by apply (Hall i)].
    + intros Hall i Hi. by apply (Hall (S i)).
Qed.

(** The row labelled [label], when kept by the mask, is found in the
    selection with the cell it had. *)
Lemma position_boolean_index {A} mask idx (l : list A) i label x :
  NoDup idx → length mask = length idx →
  idx !! i = Some label → mask !! i = Some true → l !! i = Some x →
  ∃ k, position label (boolean_index mask idx) = Some k
       ∧ boolean_index mask l !! k = Some x.
Proof.
  revert idx l i. induction mask as [|b mask IH]; intros [|j idx] [|y l] i Hnd Hlen Hi Hm Hl;
    simpl in *; try done.
  apply NoDup_cons in Hnd as [Hnotin Hnd].
  destruct i as [|i]; simpl in *.
  - injection Hi as ->. injection Hm as ->. injection Hl as ->.
    exists 0%nat. simpl. by rewrite Z.eqb_refl.
  - destruct (IH idx l i) as (k & Hk & Hx); try done; [lia|].
    assert (j ≠ label) as Hne.
    { intros ->. apply Hnotin. by eapply list_elem_of_lookup_2. }
    destruct b; simpl.
    + exists (S k). apply Z.eqb_neq in Hne. rewrite Hne, Hk. done.
    + by exists k.
Qed.

(** ** Column resolution of the range filter *)

Section resolution.
Context `{Pandas}.

Lemma resolve_column_kind k cols :
  DataAnalysis.resolve_column cols (kind_name k) =
    if label_in (canonical k) cols then Return (canonical k)
    else match List.filter (token_match k) cols with
         | column :: _ => Return column
         | [] => Raise (ValueError ("No " ++ kind_name k ++ " consumption data available"))
         end.
Proof. by destruct k. Qed.

(** C1, as the code has it.  For the kinds electricity and gas the column
    is the canonical name when the table has it, else the first column
    whose lower-cased name contains a token of the kind; the resolution
    fails exactly when neither exists.  The generic column [consumption]
    and the first non-date column are not tried for these two kinds. *)
Theorem resolve_column_two_steps (k : kind) (cols : list string) :
  (∀ c, DataAnalysis.resolve_column cols (kind_name k) = Return c ↔
        (In (canonical k) cols ∧ c = canonical k)
        ∨ (¬ In (canonical k) cols ∧ first_where (token_match k) cols c))
  ∧ ((∃ e, DataAnalysis.resolve_column cols (kind_name k) = Raise e) ↔
        ¬ In (canonical k) cols ∧ ∀ c, In c cols → token_match k c = false).
Proof.
  rewrite resolve_column_kind.
  destruct (label_in (canonical k) cols) eqn:Hcan.
  - apply label_in_In in Hcan. split.
    + intros c. split; [intros [= <-]; by left | intros [[_ ->] | [Hno _]]; done].
    + split; [intros [e He]; done | intros [Hno _]; done].
  - apply label_in_not_In in Hcan. split.
    + intros c. rewrite <- filter_head_first.
      destruct (List.filter (token_match k) cols) as [|c' l]; simpl.
      * split; [done | intros [[Hin _] | [_ Hc]]; done].
      * split; [intros [= <-]; by right | intros [[Hin _] | [_ [= <-]]]; done].
    + rewrite <- filter_nil_none.
      destruct (List.filter (token_match k) cols) as [|c' l]; simpl.
      * split; [done | intros _; by eexists].
      * split; [intros [e He]; done | intros [_ Hnil]; done].
Qed.

(** The two last steps of the chain belong to the other values of
    [consumption_type]. *)
Lemma resolve_column_generic cols consumption_type :
  consumption_type ≠ "gas" → consumption_type ≠ "electricity" →
  DataAnalysis.resolve_column cols consumption_type =
    if label_in "consumption" cols then Return "consumption"
    else match List.filter (fun col => negb (String.eqb col "date")) cols with
         | column :: _ => Return column
         | [] => Raise (ValueError ("No " ++ consumption_type ++ " consumption data available"))
         end.
Proof.
  intros Hg He. unfold DataAnalysis.resolve_column.
  apply String.eqb_neq in Hg, He. by rewrite Hg, He.
Qed.

End resolution.

(** C1 as stated fails: a table with the columns [date] and [consumption]
    has a generic consumption column and a non-date column, and the
    resolution for electricity still fails. *)
Lemma resolve_column_no_generic_fallback :
  let cols := ["date"; "consumption"] in
  label_in "consumption" cols = true
  ∧ List.filter (fun col => negb (String.eqb col "date")) cols = ["consumption"]
  ∧ DataAnalysis.resolve_column cols (kind_name electricity)
    = Raise (ValueError "No electricity consumption data available")
  ∧ DataAnalysis.resolve_column cols (kind_name gas)
    = Raise (ValueError "No gas consumption data available").
Proof. by vm_compute. Qed.

(** ** Range validation and row filtering *)

Section range.
Context `{Pandas}.

Ltac case_outcome c := destruct c as [?|?] eqn:?; simpl.

Lemma _validate_date_range_cases start_date end_date :
  DataAnalysis._validate_date_range start_date end_date =
    match to_datetime (Str start_date), to_datetime (Str end_date) with
    | Return start, Return end_ =>
        let end_ := timestamp_add (timestamp_add end_ (Timedelta_days 1))
                                  (- Timedelta_seconds 1) in
        if timestamp_gt start end_ then Raise (ValueError "Invalid date range")
        else Return (start, end_)
    | _, _ => Raise (ValueError "Invalid date range")
    end.
Proof.
  unfold DataAnalysis._validate_date_range.
  case_outcome (to_datetime (Str start_date)); [|done].
  case_outcome (to_datetime (Str end_date)); [|done].
  by destruct (timestamp_gt _ _).
Qed.

(** Every failure of the validation is the same [ValueError]. *)
Lemma _validate_date_range_error start_date end_date e :
  DataAnalysis._validate_date_range start_date end_date = Raise e →
  e = ValueError "Invalid date range".
Proof.
  rewrite _validate_date_range_cases.
  case_outcome (to_datetime (Str start_date)); [|congruence].
  case_outcome (to_datetime (Str end_date)); [|congruence].
  destruct (timestamp_gt _ _); congruence.
Qed.

(** The validation fails exactly when [pd.to_datetime] raises on a text or
    the start is after the expanded end. *)
Lemma _validate_date_range_raises_iff start_date end_date :
  (∃ e, DataAnalysis._validate_date_range start_date end_date = Raise e) ↔
    (∃ e, to_datetime (Str start_date) = Raise e)
    ∨ (∃ e, to_datetime (Str end_date) = Raise e)
    ∨ (∃ a b, to_datetime (Str start_date) = Return (Some a)
              ∧ to_datetime (Str end_date) = Return (Some b)
              ∧ b + Timedelta_days 1 - Timedelta_seconds 1 < a).
Proof.
  rewrite _validate_date_range_cases.
  case_outcome (to_datetime (Str start_date)).
  - case_outcome (to_datetime (Str end_date)).
    + destruct a as [a|], a0 as [b|]; simpl;
        try (split; [intros [? ?]; done
                    | intros [[? ?] | [[? ?] | (?&?&?&?&?)]]; done]).
      unfold Z.sub.
      destruct (Z.ltb_spec (b + Timedelta_days 1 + - Timedelta_seconds 1) a).
      * split; [intros _ | by eexists]. right; right. by exists a, b.
      * split; [intros [? ?]; done|].
        intros [[? ?] | [[? ?] | (?&?&[= <-]&[= <-]&?)]]; try done. lia.
    + split; [intros _ | by eexists]. right; left. by eexists.
  - split; [intros _ | by eexists]. left. by eexists.
Qed.

Lemma between_lookup dates start end_ i :
  map (fun d => timestamp_le start d && timestamp_le d end_) dates !! i = Some true ↔
  ∃ t a b, dates !! i = Some (Some t) ∧ start = Some a ∧ end_ = Some b ∧ a ≤ t ≤ b.
Proof.
  rewrite list_lookup_fmap. destruct (dates !! i) as [d|]; simpl.
  - destruct start as [a|], d as [t|], end_ as [b|]; simpl;
      try (split; [intros [= Hx]; rewrite ?andb_false_r in Hx; done
                  | intros (?&?&?&?&?&?&?); congruence]).
    split.
    + intros [= Hab]. apply andb_true_iff in Hab as [?%Z.leb_le ?%Z.leb_le].
      exists t, a, b. repeat split; done.
    + intros (?&?&?&[= <-]&[= <-]&[= <-]&?&?).
      f_equal. apply andb_true_iff. split; by apply Z.leb_le.
  - split; [done | by intros (?&?&?&?&?)].
Qed.

Lemma _filter_data_by_date_frame df start end_ consumption_type col dates :
  DataAnalysis.resolve_column (columns df) consumption_type = Return col →
  getitem df "date" = Return (DatetimeSeries dates) →
  DataAnalysis._filter_data_by_date (Some df) start end_ consumption_type =
    Return (frame_select (range_mask dates start end_) df, col).
Proof. intros Hcol Hdate; simpl. by rewrite Hcol; simpl; rewrite Hdate. Qed.

Lemma _filter_data_by_date_raise df start end_ consumption_type e :
  DataAnalysis.resolve_column (columns df) consumption_type = Raise e →
  DataAnalysis._filter_data_by_date (Some df) start end_ consumption_type = Raise e.
Proof. intros Hcol; simpl. by rewrite Hcol. Qed.

(** Range validation as the code runs.  For texts that pandas reads as the
    days [d1] and [d2] the range runs from 00:00:00 of [d1] to 23:59:59 of
    [d2] and is accepted exactly when [d1 <= d2]; the validation fails
    exactly when [pd.to_datetime] raises on a text or the start is after the
    expanded end; the row filter keeps exactly the rows dated within the two
    bounds. *)
Theorem _validate_date_range_spec (start_date end_date : string) :
  (∀ d1 d2,
     to_datetime (Str start_date) = Return (Some (Timedelta_days d1)) →
     to_datetime (Str end_date) = Return (Some (Timedelta_days d2)) →
     (d1 ≤ d2 →
      DataAnalysis._validate_date_range start_date end_date =
        Return (Some (Timedelta_days d1 + Timedelta_seconds 0),
                Some (Timedelta_days d2 + Timedelta_seconds (23 * 3600 + 59 * 60 + 59))))
     ∧ (d2 < d1 →
        DataAnalysis._validate_date_range start_date end_date =
          Raise (ValueError "Invalid date range")))
  ∧ ((∃ e, DataAnalysis._validate_date_range start_date end_date = Raise e) ↔
       (∃ e, to_datetime (Str start_date) = Raise e)
       ∨ (∃ e, to_datetime (Str end_date) = Raise e)
       ∨ (∃ a b, to_datetime (Str start_date) = Return (Some a)
                 ∧ to_datetime (Str end_date) = Return (Some b)
                 ∧ b + Timedelta_days 1 - Timedelta_seconds 1 < a))
  ∧ (∀ df start end_ consumption_type col dates,
       DataAnalysis.resolve_column (columns df) consumption_type = Return col →
       getitem df "date" = Return (DatetimeSeries dates) →
       ∃ mask,
         DataAnalysis._filter_data_by_date (Some df) start end_ consumption_type
           = Return (frame_select mask df, col)
         ∧ length mask = length dates
         ∧ ∀ i, mask !! i = Some true ↔
                ∃ t a b, dates !! i = Some (Some t) ∧ start = Some a ∧ end_ = Some b
                         ∧ a ≤ t ≤ b).
Proof.
  split; [|split].
  - intros d1 d2 Hs He. rewrite _validate_date_range_cases, Hs, He. simpl.
    unfold Timedelta_days, Timedelta_seconds.
    split; intros Hd; destruct (_ <? _) eqn:Hlt;
      try apply Z.ltb_lt in Hlt; try apply Z.ltb_ge in Hlt; try done; try lia.
    do 3 f_equal; lia.
  - apply _validate_date_range_raises_iff.
  - intros df start end_ consumption_type col dates Hcol Hdate.
    eexists. split; [by apply _filter_data_by_date_frame|].
    split; [apply length_map|]. intros i. apply between_lookup.
Qed.

End range.

(** The examples of the specification: one day is a valid range, a
    reversed range is refused. *)
Lemma _validate_date_range_examples :
  DataAnalysis._validate_date_range "2024-12-01" "2024-12-01"
  = Return (Some (Timedelta_days 20058 + Timedelta_seconds 0),
            Some (Timedelta_days 20058 + Timedelta_seconds (23 * 3600 + 59 * 60 + 59)))
  ∧ DataAnalysis._validate_date_range "2024-12-05" "2024-12-01"
    = Raise (ValueError "Invalid date range").
Proof.
  split.
  - destruct (_validate_date_range_spec (H := sample_pandas) "2024-12-01" "2024-12-01")
      as [Hdays _].
    apply (Hdays 20058 20058); [reflexivity | reflexivity | lia].
  - destruct (_validate_date_range_spec (H := sample_pandas) "2024-12-05" "2024-12-01")
      as [Hdays _].
    apply (Hdays 20062 20058); [reflexivity | reflexivity | lia].
Defined.

(** C6, the failing input.  Range validation is to fail when a text does
    not parse as a date.  The empty text is no date, but [pd.to_datetime]
    reads it as the missing timestamp without raising, and the test
    [start > end] is false on a missing timestamp: the validation returns a
    range whose bounds are missing, where its docstring promises a
    [ValueError] for an invalid range. *)
Lemma _validate_date_range_empty_text :
  to_datetime (Str "") = Return None
  ∧ DataAnalysis._validate_date_range "" "" = Return (None, None)
  ∧ DataAnalysis._validate_date_range "2024-12-01" ""
    = Return (Some (Timedelta_days 20058), None).
Proof. by vm_compute. Qed.

(** ** The public queries catch every exception *)

Section queries.
Context `{Pandas}.
Variable data : option DataFrame.

Lemma try_except_returns {A} (c : outcome A) (d : A) :
  ∃ r, try_except c (fun _ => Return d) = Return r.
Proof. destruct c; by eexists. Qed.

(** C2, as the code has it.  No public query raises; the validation raises
    on a text that [pd.to_datetime] refuses and on a reversed range, always
    the same [ValueError]; every public query catches it and answers
    NoData, the answer of a valid query over an empty range. *)
Theorem queries_catch_validation_failure
    (start_date end_date consumption_type : string) (threshold : Q) :
  ((∃ r, DataAnalysis.get_minimum data start_date end_date consumption_type = Return r)
   ∧ (∃ r, DataAnalysis.get_maximum data start_date end_date consumption_type = Return r)
   ∧ (∃ r, DataAnalysis.get_average data start_date end_date consumption_type = Return r)
   ∧ (∃ r, DataAnalysis.count_days_above_threshold data start_date end_date threshold
             consumption_type = Return r)
   ∧ (∃ r, DataAnalysis.count_days_below_threshold data start_date end_date threshold
             consumption_type = Return r)
   ∧ (∃ r, DataAnalysis.get_data_for_period data start_date end_date consumption_type
           = Return r))
  ∧ ((∃ e, to_datetime (Str start_date) = Raise e)
     ∨ (∃ e, to_datetime (Str end_date) = Raise e)
     ∨ (∃ a b, to_datetime (Str start_date) = Return (Some a)
               ∧ to_datetime (Str end_date) = Return (Some b)
               ∧ b + Timedelta_days 1 - Timedelta_seconds 1 < a) →
     DataAnalysis._validate_date_range start_date end_date
       = Raise (ValueError "Invalid date range")
     ∧ DataAnalysis.get_minimum data start_date end_date consumption_type = Return None
     ∧ DataAnalysis.get_maximum data start_date end_date consumption_type = Return None
     ∧ DataAnalysis.get_average data start_date end_date consumption_type = Return None
     ∧ DataAnalysis.count_days_above_threshold data start_date end_date threshold
         consumption_type = Return None
     ∧ DataAnalysis.count_days_below_threshold data start_date end_date threshold
         consumption_type = Return None
     ∧ DataAnalysis.get_data_for_period data start_date end_date consumption_type
       = Return None).
Proof.
  split.
  - repeat split; apply try_except_returns.
  - intros Hbad. apply _validate_date_range_raises_iff in Hbad as [e He].
    pose proof (_validate_date_range_error _ _ _ He) as ->.
    split; [done|].
    unfold DataAnalysis.get_minimum, DataAnalysis.get_maximum, DataAnalysis.get_average,
      DataAnalysis.count_days_above_threshold, DataAnalysis.count_days_below_threshold,
      DataAnalysis.get_data_for_period.
    rewrite He. by simpl.
Qed.

End queries.

(** On the sample table a reversed range is refused by the validation and
    every query answers NoData. *)
Lemma queries_catch_reversed_range :
  DataAnalysis._validate_date_range "2024-12-05" "2024-12-01"
    = Raise (ValueError "Invalid date range")
  ∧ DataAnalysis.get_minimum (Some sample_frame) "2024-12-05" "2024-12-01" "electricity"
    = Return None
  ∧ DataAnalysis.count_days_above_threshold (Some sample_frame) "2024-12-05" "2024-12-01"
      10%Q "electricity" = Return None.
Proof.
  destruct (queries_catch_validation_failure (H := sample_pandas) (Some sample_frame)
              "2024-12-05" "2024-12-01" "electricity" 10%Q) as [_ Hbad].
  destruct Hbad as (Hv & Hmin & _ & _ & Habove & _).
  - right; right. exists (day 2024 12 5), (day 2024 12 1).
    repeat split; vm_compute; reflexivity.
  - repeat split; assumption.
Defined.

(** C2 as stated fails: a caller of a query gets the same answer for a
    reversed range, which the validation refuses, and for a valid range
    that holds no row. *)
Lemma validation_failure_reads_as_no_data :
  DataAnalysis._validate_date_range "2024-12-05" "2024-12-01"
    = Raise (ValueError "Invalid date range")
  ∧ DataAnalysis._validate_date_range "2030-01-01" "2030-01-02"
    = Return (Some (day 2030 1 1), Some (day 2030 1 3 - Timedelta_seconds 1))
  ∧ DataAnalysis.get_minimum (Some sample_frame) "2024-12-05" "2024-12-01" "electricity"
    = DataAnalysis.get_minimum (Some sample_frame) "2030-01-01" "2030-01-02" "electricity"
  ∧ DataAnalysis.get_average (Some sample_frame) "2024-12-05" "2024-12-01" "electricity"
    = DataAnalysis.get_average (Some sample_frame) "2030-01-01" "2030-01-02" "electricity"
  ∧ DataAnalysis.count_days_above_threshold (Some sample_frame) "2024-12-05" "2024-12-01"
      10%Q "electricity"
    = DataAnalysis.count_days_above_threshold (Some sample_frame) "2030-01-01" "2030-01-02"
        10%Q "electricity"
  ∧ DataAnalysis.get_data_for_period (Some sample_frame) "2024-12-05" "2024-12-01" "electricity"
    = DataAnalysis.get_data_for_period (Some sample_frame) "2030-01-01" "2030-01-02" "electricity".
Proof. by vm_compute. Qed.

(** ** Frames and their selections *)

Lemma cells_series_select mask s :
  cells (series_select mask s) = boolean_index mask (cells s).
Proof. destruct s; simpl; by rewrite boolean_index_map. Qed.

Lemma getitem_In df name s : getitem df name = Return s → In (name, s) (series df).
Proof.
  unfold getitem. intros Hget.
  destruct (List.filter _ _) as [|c [|c' l]] eqn:Hf; try done.
  injection Hget as <-.
  assert (In c (List.filter (fun c => String.eqb (fst c) name) (series df))) as Hin
    by (rewrite Hf; by left).
  apply filter_In in Hin as [Hin Heq]. apply String.eqb_eq in Heq.
  destruct c as [n s]; simpl in *. by subst.
Qed.

Lemma getitem_length df name s :
  well_formed df → getitem df name = Return s → length (cells s) = length (index df).
Proof.
  intros [_ Hall] Hget%getitem_In. rewrite Forall_forall in Hall.
  apply (Hall (name, s)). by apply list_elem_of_In.
Qed.

Lemma filter_map_snd {A B} (g : A → B) name (l : list (string * A)) :
  List.filter (fun c => String.eqb (fst c) name) (map (fun c => (fst c, g (snd c))) l)
  = map (fun c => (fst c, g (snd c))) (List.filter (fun c => String.eqb (fst c) name) l).
Proof.
  induction l as [|[n x] l IH]; simpl; [done|].
  destruct (String.eqb n name); simpl; by rewrite IH.
Qed.

Lemma getitem_frame_select mask df name s :
  getitem df name = Return s →
  getitem (frame_select mask df) name = Return (series_select mask s).
Proof.
  unfold getitem, frame_select; simpl. rewrite filter_map_snd.
  destruct (List.filter _ (series df)) as [|c [|c' l]]; simpl; try done.
  by intros [= ->].
Qed.

Lemma index_frame_select mask df :
  index (frame_select mask df) = boolean_index mask (index df).
Proof. done. Qed.

Lemma columns_frame_select mask df : columns (frame_select mask df) = columns df.
Proof. unfold columns, frame_select; simpl. rewrite map_map. by apply map_ext. Qed.

Lemma first_column_frame_select mask df :
  first_column (frame_select mask df) = first_column df.
Proof. unfold first_column. by rewrite columns_frame_select. Qed.

Lemma empty_frame_select mask df name s :
  getitem df name = Return s →
  empty (frame_select mask df) = bool_decide (boolean_index mask (index df) = []).
Proof.
  intros Hget%getitem_In. unfold empty, frame_select; simpl.
  destruct (series df) as [|c l]; [done|]. simpl.
  by destruct (boolean_index mask (index df)).
Qed.

Lemma loc_frame_select mask df name s i label x :
  well_formed df → length mask = length (index df) →
  getitem df name = Return s →
  index df !! i = Some label → mask !! i = Some true → cells s !! i = Some x →
  loc (frame_select mask df) label name = Return x.
Proof.
  intros Hwf Hlen Hget Hi Hm Hx. unfold loc.
  rewrite (getitem_frame_select _ _ _ _ Hget). simpl.
  destruct (position_boolean_index mask (index df) (cells s) i label x)
    as (k & Hk & Hcell); try done; [apply Hwf|].
  rewrite Hk, cells_series_select, Hcell. done.
Qed.

Lemma boolean_index_exists {A} mask (l : list A) :
  length mask = length l → boolean_index mask l ≠ [] → ∃ i, mask !! i = Some true.
Proof.
  revert l. induction mask as [|b mask IH]; intros [|x l] Hlen Hne; simpl in *; try done.
  destruct b; [by exists 0%nat|].
  destruct (IH l) as [i Hi]; [lia | done | by exists (S i)].
Qed.

Lemma count_selected p dates start end_ vals :
  length (List.filter p (present (boolean_index (range_mask dates start end_) vals)))
  = length (qualifying start end_ p dates vals).
Proof.
  unfold range_mask, qualifying, qualifies, present. revert vals.
  induction dates as [|d dates IH]; intros [|v vals]; simpl; try done.
  destruct (timestamp_le start d && timestamp_le d end_); simpl; [|apply IH].
  destruct v as [x|]; simpl; [|apply IH].
  destruct (p x); simpl; by rewrite IH.
Qed.

Lemma qualifies_iff start end_ p d v :
  qualifies start end_ p (d, v) = true ↔
  ∃ t a b x, d = Some t ∧ v = Some x ∧ start = Some a ∧ end_ = Some b
             ∧ a ≤ t ≤ b ∧ p x = true.
Proof.
  unfold qualifies. simpl. split.
  - intros [[Hs He]%andb_true_iff Hp]%andb_true_iff.
    destruct start as [a|], d as [t|], end_ as [b|], v as [x|]; simpl in *; try done.
    exists t, a, b, x. apply Z.leb_le in Hs, He. done.
  - intros (t & a & b & x & -> & -> & -> & -> & [Hs He] & Hp). simpl.
    apply Z.leb_le in Hs, He. by rewrite Hs, He, Hp.
Qed.

Lemma notna_length s : length (notna s) = length (cells s).
Proof. destruct s; simpl; by rewrite !length_map. Qed.

Lemma notna_series_select mask s :
  notna (series_select mask s) = boolean_index mask (notna s).
Proof. destruct s; simpl; by rewrite boolean_index_map. Qed.

Lemma frame_select_twice m1 m2 df :
  length m1 = length m2 →
  frame_select (boolean_index m1 m2) (frame_select m1 df)
  = frame_select (zip_with andb m1 m2) df.
Proof.
  intros Hlen. unfold frame_select; simpl. f_equal.
  - by apply boolean_index_twice.
  - rewrite map_map. apply map_ext. intros [n s]; simpl. f_equal.
    destruct s; simpl; f_equal; by apply boolean_index_twice.
Qed.

(** ** The first smallest value *)

Section argbest.
Context {A} (lt : A → A → bool) `{!StrictWeak lt}.

Lemma lt_asym x y : lt x y = true → lt y x = false.
Proof.
  intros Hxy. destruct (lt y x) eqn:Hyx; [|done].
  pose proof (lt_trans _ _ _ Hxy Hyx) as Hxx. by rewrite lt_irrefl in Hxx.
Qed.

(** Removing the rows outside the mask and making their values missing
    give the same search. *)
Lemma argbest_mask mask idx (vals : list (option A)) best :
  length mask = length idx → length mask = length vals →
  argbest lt best (zip (boolean_index mask idx) (boolean_index mask vals))
  = argbest lt best (zip idx (mask_values mask vals)).
Proof.
  revert idx vals best.
  induction mask as [|b mask IH]; intros [|i idx] [|v vals] best Hi Hv; simpl in *; try done.
  destruct b; simpl.
  - destruct v as [x|]; [destruct best as [[? ?]|]; [destruct (lt x a)|]|];
      apply IH; lia.
  - apply IH; lia.
Qed.

Lemma argbest_spec (l : list (Z * option A)) best :
  match argbest lt best l with
  | None => best = None ∧ ∀ j i x, l !! j = Some (i, Some x) → False
  | Some (i, v) =>
      (best = Some (i, v) ∧ ∀ j i' w, l !! j = Some (i', Some w) → lt w v = false)
      ∨ (∃ k, l !! k = Some (i, Some v)
              ∧ (∀ ib b, best = Some (ib, b) → lt v b = true)
              ∧ ∀ j i' w, l !! j = Some (i', Some w) →
                          lt w v = false ∧ ((j < k)%nat → lt v w = true))
  end.
Proof.
  revert best. induction l as [|[i0 [x|]] l IH]; intros best; simpl.
  - destruct best as [[i v]|]; [left|]; split; try done; by intros [|?].
  - assert ((∀ ib b, best = Some (ib, b) → lt x b = true) →
      match argbest lt (Some (i0, x)) l with
      | None => best = None ∧ ∀ j i x', ((i0, Some x) :: l) !! j = Some (i, Some x') → False
      | Some (i, v) =>
          (best = Some (i, v)
           ∧ ∀ j i' w, ((i0, Some x) :: l) !! j = Some (i', Some w) → lt w v = false)
          ∨ (∃ k, ((i0, Some x) :: l) !! k = Some (i, Some v)
                  ∧ (∀ ib b, best = Some (ib, b) → lt v b = true)
                  ∧ ∀ j i' w, ((i0, Some x) :: l) !! j = Some (i', Some w) →
                              lt w v = false ∧ ((j < k)%nat → lt v w = true))
      end) as Hnew.
    { intros Hbest. specialize (IH (Some (i0, x))).
      destruct (argbest lt (Some (i0, x)) l) as [[i v]|]; [|by destruct IH].
      right. destruct IH as [[[= <- <-] Hall] | (k & Hk & Hbetter & Hall)].
      - exists 0%nat. split; [done|]. split; [done|].
        intros [|j] i' w Hj; simpl in Hj.
        + injection Hj as <- <-. split; [apply lt_irrefl | lia].
        + split; [by eapply Hall | lia].
      - exists (S k). split; [done|].
        pose proof (Hbetter _ _ eq_refl) as Hvx. split.
        + intros ib b Hb. eapply lt_trans; [done|]. by eapply Hbest.
        + intros [|j] i' w Hj; simpl in Hj.
          * injection Hj as <- <-. split; [by apply lt_asym | done].
          * destruct (Hall _ _ _ Hj) as [? ?]. split; [done | intros; auto with lia]. }
    destruct best as [[ib b]|].
    + destruct (lt x b) eqn:Hxb.
      * apply Hnew. by intros ? ? [= <- <-].
      * specialize (IH (Some (ib, b))).
        destruct (argbest lt (Some (ib, b)) l) as [[i v]|]; [|by destruct IH].
        destruct IH as [[[= <- <-] Hall] | (k & Hk & Hbetter & Hall)].
        -- left. split; [done|]. intros [|j] i' w Hj; simpl in Hj.
           ++ by injection Hj as <- <-.
           ++ by eapply Hall.
        -- right. exists (S k). split; [done|]. split; [done|].
           pose proof (Hbetter _ _ eq_refl) as Hvb.
           intros [|j] i' w Hj; simpl in Hj.
           ++ injection Hj as <- <-.
              destruct (lt_cotrans v b x Hvb) as [Hvx | Hxb']; [|congruence].
              split; [by apply lt_asym | done].
           ++ destruct (Hall _ _ _ Hj) as [? ?]. split; [done | intros; auto with lia].
    + apply Hnew. by intros ? ? [=].
  - specialize (IH best). destruct (argbest lt best l) as [[i v]|].
    + destruct IH as [[-> Hall] | (k & Hk & Hbetter & Hall)].
      * left. split; [done|]. intros [|j] i' w Hj; simpl in Hj; [done | by eapply Hall].
      * right. exists (S k). split; [done|]. split; [done|].
        intros [|j] i' w Hj; simpl in Hj; [done|].
        destruct (Hall _ _ _ Hj) as [? ?]. split; [done | intros; auto with lia].
    + destruct IH as [-> Hall]. split; [done|].
      intros [|j] i x Hj; simpl in Hj; [done | by eapply Hall].
Qed.

End argbest.

Lemma Qlt_bool_iff x y : Qlt_bool x y = true ↔ (x < y)%Q.
Proof.
  unfold Qlt_bool. rewrite negb_true_iff. split.
  - intros Hle. apply Qnot_le_lt. intros Hyx%Qle_bool_iff. congruence.
  - intros Hlt. destruct (Qle_bool y x) eqn:Hle; [|done].
    apply Qle_bool_iff in Hle. by apply Qlt_not_le in Hlt.
Qed.

Lemma Qlt_bool_false_iff x y : Qlt_bool x y = false ↔ (y <= x)%Q.
Proof.
  unfold Qlt_bool. rewrite negb_false_iff. apply Qle_bool_iff.
Qed.

#[global] Instance Qlt_bool_strict_weak : StrictWeak Qlt_bool.
Proof.
  split.
  - intros x. apply Qlt_bool_false_iff, Qle_refl.
  - intros x y z. rewrite !Qlt_bool_iff. apply Qlt_trans.
  - intros x y z. rewrite !Qlt_bool_iff. intros Hxy.
    destruct (Qlt_le_dec x z) as [?|Hzx]; [by left | right].
    by eapply Qle_lt_trans.
Qed.

#[global] Instance Qgt_bool_strict_weak : StrictWeak (fun x b => Qlt_bool b x).
Proof.
  split.
  - intros x. apply lt_irrefl.
  - intros x y z Hxy Hyz. by eapply (lt_trans z y x).
  - intros x y z Hxy. destruct (lt_cotrans y x z Hxy); auto.
Qed.

Lemma lookup_zip_mask {A} idx mask (vals : list (option A)) k (i : Z) v :
  zip idx (mask_values mask vals) !! k = Some (i, Some v) ↔
  idx !! k = Some i ∧ mask !! k = Some true ∧ vals !! k = Some (Some v).
Proof.
  unfold mask_values. rewrite !lookup_zip_with.
  destruct (idx !! k) as [i'|], (mask !! k) as [[|]|], (vals !! k) as [[v'|]|]; simpl;
    split; try done; try (by intros (?&?&?)).
  - by intros [= -> ->].
  - by intros ([= ->] & _ & [= ->]).
Qed.

(** ** The aggregates over the rows in range *)

Lemma bind_Return {A B} (a : A) (f : A → outcome B) : (Return a ≫= f) = f a.
Proof. done. Qed.

Section aggregates.
Context `{Pandas}.
Variables (df : DataFrame) (start_date end_date consumption_type : string).
Variables (start end_ : option Z) (col c0 : string).
Variables (dates : list (option Z)) (vals : list (option Q)) (s0 : Series).

Hypothesis Hwf : well_formed df.
Hypothesis Hrange :
  DataAnalysis._validate_date_range start_date end_date = Return (start, end_).
Hypothesis Hcol :
  DataAnalysis.resolve_column (columns df) consumption_type = Return col.
Hypothesis Hdate : getitem df "date" = Return (DatetimeSeries dates).
Hypothesis Hvals : getitem df col = Return (FloatSeries vals).
Hypothesis Hc0 : first_column df = Return c0.
Hypothesis Hs0 : getitem df c0 = Return s0.

#[local] Opaque DataAnalysis._filter_data_by_date DataAnalysis._validate_date_range
  getitem loc first_column empty frame_select.

Local Abbreviation mask := (range_mask dates start end_).

Lemma range_mask_length : length mask = length (index df).
Proof.
  unfold range_mask. rewrite length_map.
  rewrite <- (getitem_length _ _ _ Hwf Hdate). simpl. by rewrite length_map.
Qed.

Lemma vals_length : length vals = length (index df).
Proof. rewrite <- (getitem_length _ _ _ Hwf Hvals). simpl. by rewrite length_map. Qed.

Lemma range_mask_in_range i : mask !! i = Some true ↔ in_range dates start end_ i.
Proof. apply between_lookup. Qed.

#[local] Opaque range_mask.

Lemma in_range_label i : in_range dates start end_ i → ∃ label, index df !! i = Some label.
Proof.
  intros Hin%range_mask_in_range. apply lookup_lt_is_Some.
  rewrite <- range_mask_length. by eapply lookup_lt_Some.
Qed.

Lemma filter_step :
  DataAnalysis._filter_data_by_date (Some df) start end_ consumption_type
  = Return (frame_select mask df, col).
Proof. by apply _filter_data_by_date_frame. Qed.

Lemma empty_no_row :
  empty (frame_select mask df) = true ↔ ∀ i, ¬ in_range dates start end_ i.
Proof.
  rewrite (empty_frame_select _ _ _ _ Hdate), bool_decide_eq_true.
  rewrite boolean_index_nil_iff by apply range_mask_length.
  split; intros Hno i Hi; apply (Hno i); by apply range_mask_in_range.
Qed.

Lemma extreme_rows lt `{!StrictWeak lt} :
  ((∀ i v, in_range dates start end_ i → vals !! i = Some (Some v) → False)
   ∧ ∃ e, extreme df mask vals col lt = Raise e)
  ∨ (∃ i v x,
       in_range dates start end_ i ∧ vals !! i = Some (Some v) ∧ cells s0 !! i = Some x
       ∧ (∀ j w, in_range dates start end_ j → vals !! j = Some (Some w) →
                 lt w v = false ∧ ((j < i)%nat → lt v w = true))
       ∧ extreme df mask vals col lt = Return (Some (Float v, x))).
Proof.
  unfold extreme. rewrite index_frame_select.
  rewrite argbest_mask by (by rewrite ?range_mask_length, ?vals_length).
  pose proof (argbest_spec lt (zip (index df) (mask_values mask vals)) None) as Hbest.
  destruct (argbest lt None _) as [[label v]|].
  - right. destruct Hbest as [[? _] | (k & Hk & _ & Hall)]; [done|].
    apply lookup_zip_mask in Hk as (Hidx & Hm & Hv).
    destruct (lookup_lt_is_Some_2 (cells s0) k) as [x Hx].
    { rewrite (getitem_length _ _ _ Hwf Hs0). by eapply lookup_lt_Some. }
    exists k, v, x. split; [by apply range_mask_in_range|]. do 2 (split; [done|]).
    split.
    + intros j w Hj Hw. destruct (in_range_label j Hj) as [lj Hlj].
      apply (Hall j lj w). apply lookup_zip_mask.
      by rewrite range_mask_in_range.
    + simpl.
      rewrite (loc_frame_select mask df col (FloatSeries vals) k label (Float v));
        try done; [|apply range_mask_length | simpl; by rewrite list_lookup_fmap, Hv].
      rewrite bind_Return, first_column_frame_select, Hc0, bind_Return.
      rewrite (loc_frame_select mask df c0 s0 k label x);
        try done; apply range_mask_length.
  - left. destruct Hbest as [_ Hno]. split; [|by eexists].
    intros i v Hi Hv. destruct (in_range_label i Hi) as [li Hli].
    apply (Hno i li v). apply lookup_zip_mask. by rewrite range_mask_in_range.
Qed.
Lemma get_minimum_extreme :
  DataAnalysis.get_minimum (Some df) start_date end_date consumption_type
  = if empty (frame_select mask df) then Return None
    else try_except (extreme df mask vals col Qlt_bool) (fun _ => Return None).
Proof.
  unfold DataAnalysis.get_minimum. rewrite Hrange. simpl. rewrite filter_step. simpl.
  destruct (empty _); [done|].
  by rewrite (getitem_frame_select _ _ _ _ Hvals).
Qed.

Lemma get_maximum_extreme :
  DataAnalysis.get_maximum (Some df) start_date end_date consumption_type
  = if empty (frame_select mask df) then Return None
    else try_except (extreme df mask vals col (fun x b => Qlt_bool b x))
           (fun _ => Return None).
Proof.
  unfold DataAnalysis.get_maximum. rewrite Hrange. simpl. rewrite filter_step. simpl.
  destruct (empty _); [done|].
  by rewrite (getitem_frame_select _ _ _ _ Hvals).
Qed.

(** The answer of a query built on [extreme]: NoData when no row in range
    has a value, else the first best value and the cell of the first column
    in its row. *)
Lemma extreme_answer lt `{!StrictWeak lt} :
  let answer := if empty (frame_select mask df) then Return None
                else try_except (extreme df mask vals col lt) (fun _ => Return None) in
  ((∀ i v, in_range dates start end_ i → vals !! i = Some (Some v) → False)
   ∧ answer = Return None)
  ∨ (∃ i v x,
       in_range dates start end_ i ∧ vals !! i = Some (Some v) ∧ cells s0 !! i = Some x
       ∧ (∀ j w, in_range dates start end_ j → vals !! j = Some (Some w) →
                 lt w v = false ∧ ((j < i)%nat → lt v w = true))
       ∧ answer = Return (Some (Float v, x))).
Proof.
  simpl. destruct (empty _) eqn:Hemp.
  - left. split; [|done]. intros i v Hi _. by apply (proj1 empty_no_row Hemp i).
  - destruct (extreme_rows lt) as [[Hno [e He]] | (i & v & x & Hi & Hv & Hx & Hbest & He)].
    + left. split; [done|]. by rewrite He.
    + right. exists i, v, x. by rewrite He.
Qed.

(** The minimum and its row, with the cell of the first column [c0]. *)
Lemma get_minimum_rows :
  ((∀ i v, in_range dates start end_ i → vals !! i = Some (Some v) → False)
   ∧ DataAnalysis.get_minimum (Some df) start_date end_date consumption_type = Return None)
  ∨ (∃ i v x,
       in_range dates start end_ i ∧ vals !! i = Some (Some v) ∧ cells s0 !! i = Some x
       ∧ (∀ j w, in_range dates start end_ j → vals !! j = Some (Some w) →
                 (v <= w)%Q ∧ ((j < i)%nat → (v < w)%Q))
       ∧ DataAnalysis.get_minimum (Some df) start_date end_date consumption_type
         = Return (Some (Float v, x))).
Proof.
  rewrite get_minimum_extreme.
  destruct (extreme_answer Qlt_bool) as [? | (i & v & x & Hi & Hv & Hx & Hbest & He)];
    [by left | right].
  exists i, v, x. do 3 (split; [done|]). split; [|done].
  intros j w Hj Hw. destruct (Hbest j w Hj Hw) as [Hle Hlt].
  split; [by apply Qlt_bool_false_iff | intros; by apply Qlt_bool_iff, Hlt].
Qed.

(** The maximum and its row, with the cell of the first column [c0]. *)
Lemma get_maximum_rows :
  ((∀ i v, in_range dates start end_ i → vals !! i = Some (Some v) → False)
   ∧ DataAnalysis.get_maximum (Some df) start_date end_date consumption_type = Return None)
  ∨ (∃ i v x,
       in_range dates start end_ i ∧ vals !! i = Some (Some v) ∧ cells s0 !! i = Some x
       ∧ (∀ j w, in_range dates start end_ j → vals !! j = Some (Some w) →
                 (w <= v)%Q ∧ ((j < i)%nat → (w < v)%Q))
       ∧ DataAnalysis.get_maximum (Some df) start_date end_date consumption_type
         = Return (Some (Float v, x))).
Proof.
  rewrite get_maximum_extreme.
  destruct (extreme_answer (fun x b => Qlt_bool b x))
    as [? | (i & v & x & Hi & Hv & Hx & Hbest & He)]; [by left | right].
  exists i, v, x. do 3 (split; [done|]). split; [|done].
  intros j w Hj Hw. destruct (Hbest j w Hj Hw) as [Hle Hlt].
  split; [by apply Qlt_bool_false_iff | intros; by apply Qlt_bool_iff, Hlt].
Qed.

Lemma count_days_above_threshold_rows threshold :
  DataAnalysis.count_days_above_threshold (Some df) start_date end_date threshold
    consumption_type
  = if empty (frame_select mask df) then Return None
    else Return (Some (Z.of_nat (length
           (qualifying start end_ (fun x => Qlt_bool threshold x) dates vals)))).
Proof.
  unfold DataAnalysis.count_days_above_threshold.
  rewrite Hrange. simpl. rewrite filter_step. simpl.
  destruct (empty _); [done|].
  rewrite (getitem_frame_select _ _ _ _ Hvals). simpl. by rewrite count_selected.
Qed.

Lemma count_days_below_threshold_rows threshold :
  DataAnalysis.count_days_below_threshold (Some df) start_date end_date threshold
    consumption_type
  = if empty (frame_select mask df) then Return None
    else Return (Some (Z.of_nat (length
           (qualifying start end_ (fun x => Qlt_bool x threshold) dates vals)))).
Proof.
  unfold DataAnalysis.count_days_below_threshold.
  rewrite Hrange. simpl. rewrite filter_step. simpl.
  destruct (empty _); [done|].
  rewrite (getitem_frame_select _ _ _ _ Hvals). simpl. by rewrite count_selected.
Qed.

Lemma some_row_or_none :
  (empty (frame_select mask df) = true ∧ ∀ i, ¬ in_range dates start end_ i)
  ∨ (empty (frame_select mask df) = false ∧ ∃ i, in_range dates start end_ i).
Proof.
  destruct (empty _) eqn:Hemp.
  - left. split; [done|]. by apply empty_no_row.
  - right. split; [done|].
    rewrite (empty_frame_select _ _ _ _ Hdate) in Hemp. apply bool_decide_eq_false in Hemp.
    destruct (boolean_index_exists mask (index df)) as [i Hi];
      [apply range_mask_length | done |].
    exists i. by apply range_mask_in_range.
Qed.

(** The average is NoData when no row is in range, the missing number when
    rows are in range and none has a value, else the mean of the values. *)
Lemma get_average_rows :
  DataAnalysis.get_average (Some df) start_date end_date consumption_type
  = if empty (frame_select mask df) then Return None
    else match present (boolean_index mask vals) with
         | [] => Return (Some NaN)
         | xs => Return (Some (float_mean xs))
         end.
Proof.
  unfold DataAnalysis.get_average.
  rewrite Hrange. simpl. rewrite filter_step. simpl.
  destruct (empty _); [done|].
  rewrite (getitem_frame_select _ _ _ _ Hvals). simpl.
  by destruct (present _).
Qed.

Lemma keep_mask_length s name :
  getitem df name = Return s → length (keep_mask dates start end_ s) = length (index df).
Proof.
  intros Hs. unfold keep_mask. rewrite length_zip_with.
  rewrite range_mask_length, notna_length, (getitem_length _ _ _ Hwf Hs). lia.
Qed.

Lemma keep_mask_in_range s i :
  keep_mask dates start end_ s !! i = Some true → in_range dates start end_ i.
Proof.
  unfold keep_mask. rewrite lookup_zip_with. intros Hk. apply range_mask_in_range.
  destruct (mask !! i) as [[|]|]; simpl in *; try done.
  by destruct (notna s !! i).
Qed.

Lemma dropna_frame_select name s :
  getitem df name = Return s →
  dropna (frame_select mask df) name = Return (frame_select (keep_mask dates start end_ s) df).
Proof.
  intros Hs. unfold dropna. rewrite (getitem_frame_select _ _ _ _ Hs). simpl.
  rewrite notna_series_select, frame_select_twice; [done|].
  by rewrite range_mask_length, notna_length, (getitem_length _ _ _ Hwf Hs).
Qed.

Lemma project2_frame_select keep name s :
  getitem df name = Return s →
  project2 (frame_select keep df) c0 name = Return (subtable df keep c0 s0 name s).
Proof.
  intros Hs. unfold project2.
  by rewrite (getitem_frame_select _ _ _ _ Hs0), (getitem_frame_select _ _ _ _ Hs).
Qed.

Lemma has_row_or_not keep :
  length keep = length (index df) →
  (empty (frame_select keep df) = true ∧ ¬ has_row keep)
  ∨ (empty (frame_select keep df) = false ∧ has_row keep).
Proof.
  intros Hlen. rewrite (empty_frame_select _ _ _ _ Hdate).
  case_bool_decide as Hnil.
  - left. split; [done|]. intros [i Hi].
    by apply (proj1 (boolean_index_nil_iff keep (index df) Hlen) Hnil i).
  - right. split; [done|]. by apply (boolean_index_exists keep (index df)).
Qed.

(** The extraction: the rows in range with a value, as the first column
    [c0] and the resolved column; for electricity without such a row, the
    same with the gas column; else NoData. *)
Lemma get_data_for_period_rows :
  let keep := keep_mask dates start end_ (FloatSeries vals) in
  (has_row keep →
   DataAnalysis.get_data_for_period (Some df) start_date end_date consumption_type
   = Return (Some (subtable df keep c0 s0 col (FloatSeries vals))))
  ∧ (¬ has_row keep → consumption_type = "electricity" →
     ∀ gas_column sg,
       DataAnalysis.resolve_column (columns df) "gas" = Return gas_column →
       getitem df gas_column = Return sg →
       has_row (keep_mask dates start end_ sg) →
       DataAnalysis.get_data_for_period (Some df) start_date end_date consumption_type
       = Return (Some (subtable df (keep_mask dates start end_ sg) c0 s0 gas_column sg)))
  ∧ (¬ has_row keep →
     consumption_type ≠ "electricity"
     ∨ (∃ e, DataAnalysis.resolve_column (columns df) "gas" = Raise e)
     ∨ (∃ gas_column sg,
          DataAnalysis.resolve_column (columns df) "gas" = Return gas_column
          ∧ getitem df gas_column = Return sg
          ∧ ¬ has_row (keep_mask dates start end_ sg)) →
     DataAnalysis.get_data_for_period (Some df) start_date end_date consumption_type
     = Return None).
Proof.
  intros keep. unfold DataAnalysis.get_data_for_period.
  rewrite Hrange. simpl. rewrite filter_step. simpl.
  destruct some_row_or_none as [[-> Hno] | [-> _]].
  { assert (∀ s, ¬ has_row (keep_mask dates start end_ s)) as Hnone.
    { intros s [i Hi]. by apply (Hno i), (keep_mask_in_range s). }
    split; [intros Hk; by destruct (Hnone _ Hk)|].
    split; [intros _ _ ? sg _ _ Hk; by destruct (Hnone _ Hk) | done]. }
  rewrite (dropna_frame_select _ _ Hvals). simpl. fold keep.
  destruct (has_row_or_not keep) as [[-> Hk] | [-> Hk]];
    [by eapply keep_mask_length | | ].
  - split; [done|]. split.
    + intros _ -> gas_column sg Hgas Hsg Hrow. simpl.
      rewrite (_filter_data_by_date_frame _ _ _ _ _ _ Hgas Hdate). simpl.
      rewrite (dropna_frame_select _ _ Hsg). simpl.
      destruct (has_row_or_not (keep_mask dates start end_ sg)) as [[_ ?] | [-> _]];
        [by eapply keep_mask_length | done |]. simpl.
      rewrite first_column_frame_select, Hc0. simpl.
      by rewrite (project2_frame_select _ _ _ Hsg).
    + intros _ [Hne | [[e He] | (gas_column & sg & Hgas & Hsg & Hrow)]].
      * apply String.eqb_neq in Hne. by rewrite Hne.
      * destruct (String.eqb _ _); [|done].
        by rewrite (_filter_data_by_date_raise _ _ _ _ _ He).
      * destruct (String.eqb _ _); [|done].
        rewrite (_filter_data_by_date_frame _ _ _ _ _ _ Hgas Hdate). simpl.
        rewrite (dropna_frame_select _ _ Hsg). simpl.
        by destruct (has_row_or_not (keep_mask dates start end_ sg)) as [[-> _] | [_ ?]];
          [by eapply keep_mask_length | |].
  - split; [|by split].
    intros _. rewrite first_column_frame_select, Hc0. simpl.
    by rewrite (project2_frame_select _ _ _ Hvals).
Qed.

End aggregates.

(** C3.  On a table whose first column is the date column, over a valid
    range and with a float column resolved for the kind: when no row in range
    has a value, minimum and maximum answer NoData; otherwise the minimum is
    the smallest value of the rows in range, taken at the first row where it
    occurs and returned with the date of that row, and likewise the maximum
    with the largest value. *)
Theorem get_minimum_maximum_spec `{Pandas} (df : DataFrame)
    (start_date end_date consumption_type : string) (start end_ : option Z)
    (col : string) (dates : list (option Z)) (vals : list (option Q)) :
  well_formed df →
  DataAnalysis._validate_date_range start_date end_date = Return (start, end_) →
  DataAnalysis.resolve_column (columns df) consumption_type = Return col →
  getitem df "date" = Return (DatetimeSeries dates) →
  getitem df col = Return (FloatSeries vals) →
  first_column df = Return "date" →
  ((∀ i v, in_range dates start end_ i → vals !! i = Some (Some v) → False)
   ∧ DataAnalysis.get_minimum (Some df) start_date end_date consumption_type = Return None
   ∧ DataAnalysis.get_maximum (Some df) start_date end_date consumption_type = Return None)
  ∨ ((∃ i v t,
        in_range dates start end_ i ∧ vals !! i = Some (Some v) ∧ dates !! i = Some (Some t)
        ∧ (∀ j w, in_range dates start end_ j → vals !! j = Some (Some w) →
                  (v <= w)%Q ∧ ((j < i)%nat → (v < w)%Q))
        ∧ DataAnalysis.get_minimum (Some df) start_date end_date consumption_type
          = Return (Some (Float v, Timestamp t)))
     ∧ (∃ i v t,
          in_range dates start end_ i ∧ vals !! i = Some (Some v) ∧ dates !! i = Some (Some t)
          ∧ (∀ j w, in_range dates start end_ j → vals !! j = Some (Some w) →
                    (w <= v)%Q ∧ ((j < i)%nat → (w < v)%Q))
          ∧ DataAnalysis.get_maximum (Some df) start_date end_date consumption_type
            = Return (Some (Float v, Timestamp t)))).
Proof.
  intros Hwf Hrange Hcol Hdate Hvals Hc0.
  assert (∀ i x t, cells (DatetimeSeries dates) !! i = Some x →
                   dates !! i = Some (Some t) → x = Timestamp t) as Hcell.
  { intros i x t Hx Ht. simpl in Hx. rewrite list_lookup_fmap, Ht in Hx. by injection Hx. }
  destruct (get_minimum_rows df start_date end_date consumption_type start end_ col "date"
              dates vals (DatetimeSeries dates) Hwf Hrange Hcol Hdate Hvals Hc0 Hdate)
    as [[Hno Hmin] | (i & v & x & Hi & Hv & Hx & Hbest & Hmin)];
  destruct (get_maximum_rows df start_date end_date consumption_type start end_ col "date"
              dates vals (DatetimeSeries dates) Hwf Hrange Hcol Hdate Hvals Hc0 Hdate)
    as [[Hno' Hmax] | (i' & v' & x' & Hi' & Hv' & Hx' & Hbest' & Hmax)].
  - by left.
  - by destruct (Hno i' v').
  - by destruct (Hno' i v).
  - right. split.
    + destruct Hi as (t & a & b & Ht & Hab). exists i, v, t.
      rewrite Hmin, (Hcell i x t); try done. split; [by exists t, a, b | done].
    + destruct Hi' as (t & a & b & Ht & Hab). exists i', v', t.
      rewrite Hmax, (Hcell i' x' t); try done. split; [by exists t, a, b | done].
Qed.

Lemma sample_frame_well_formed : well_formed sample_frame.
Proof.
  split; [|by repeat constructor].
  apply (bool_decide_unpack _). by vm_compute.
Defined.

(** The example of the specification: over the three days the minimum is 5
    on the second day and the maximum 20 on the third. *)
Example get_minimum_maximum_sample :
  DataAnalysis.get_minimum (Some sample_frame) "2024-12-01" "2024-12-03" "electricity"
  = Return (Some (Float 5, Timestamp (day 2024 12 2)))
  ∧ DataAnalysis.get_maximum (Some sample_frame) "2024-12-01" "2024-12-03" "electricity"
    = Return (Some (Float 20, Timestamp (day 2024 12 3))).
Proof. by vm_compute. Qed.

Lemma get_minimum_maximum_witness :
  let dates := [Some (day 2024 12 1); Some (day 2024 12 2); Some (day 2024 12 3)] in
  let vals := [Some 10%Q; Some 5%Q; Some 20%Q] in
  let start := Some (day 2024 12 1) in
  let end_ := Some (day 2024 12 4 - Timedelta_seconds 1) in
  ((∀ i v, in_range dates start end_ i → vals !! i = Some (Some v) → False)
   ∧ DataAnalysis.get_minimum (Some sample_frame) "2024-12-01" "2024-12-03" "electricity"
     = Return None
   ∧ DataAnalysis.get_maximum (Some sample_frame) "2024-12-01" "2024-12-03" "electricity"
     = Return None)
  ∨ ((∃ i v t,
        in_range dates start end_ i ∧ vals !! i = Some (Some v) ∧ dates !! i = Some (Some t)
        ∧ (∀ j w, in_range dates start end_ j → vals !! j = Some (Some w) →
                  (v <= w)%Q ∧ ((j < i)%nat → (v < w)%Q))
        ∧ DataAnalysis.get_minimum (Some sample_frame) "2024-12-01" "2024-12-03" "electricity"
          = Return (Some (Float v, Timestamp t)))
     ∧ (∃ i v t,
          in_range dates start end_ i ∧ vals !! i = Some (Some v) ∧ dates !! i = Some (Some t)
          ∧ (∀ j w, in_range dates start end_ j → vals !! j = Some (Some w) →
                    (w <= v)%Q ∧ ((j < i)%nat → (w < v)%Q))
          ∧ DataAnalysis.get_maximum (Some sample_frame) "2024-12-01" "2024-12-03" "electricity"
            = Return (Some (Float v, Timestamp t)))).
Proof.
  apply (get_minimum_maximum_spec (H := sample_pandas) sample_frame
           "2024-12-01" "2024-12-03" "electricity" _ _ "electricity_consumption");
    [apply sample_frame_well_formed | by vm_compute ..].
Defined.

(** C5.  A row qualifies for [countAbove] when it is dated within the range
    and its value is present and strictly greater than the threshold, for
    [countBelow] when strictly less; with no row in range both answer NoData,
    otherwise each answers the number of rows that qualify, which may be 0. *)
Theorem count_days_threshold_spec `{Pandas} (df : DataFrame)
    (start_date end_date consumption_type : string) (start end_ : option Z)
    (col : string) (dates : list (option Z)) (vals : list (option Q)) (threshold : Q) :
  well_formed df →
  DataAnalysis._validate_date_range start_date end_date = Return (start, end_) →
  DataAnalysis.resolve_column (columns df) consumption_type = Return col →
  getitem df "date" = Return (DatetimeSeries dates) →
  getitem df col = Return (FloatSeries vals) →
  let above := qualifies start end_ (fun x => Qlt_bool threshold x) in
  let below := qualifies start end_ (fun x => Qlt_bool x threshold) in
  (∀ d v, above (d, v) = true ↔
          ∃ t a b x, d = Some t ∧ v = Some x ∧ start = Some a ∧ end_ = Some b
                     ∧ a ≤ t ≤ b ∧ (threshold < x)%Q)
  ∧ (∀ d v, below (d, v) = true ↔
            ∃ t a b x, d = Some t ∧ v = Some x ∧ start = Some a ∧ end_ = Some b
                       ∧ a ≤ t ≤ b ∧ (x < threshold)%Q)
  ∧ (((∀ i, ¬ in_range dates start end_ i)
      ∧ DataAnalysis.count_days_above_threshold (Some df) start_date end_date threshold
          consumption_type = Return None
      ∧ DataAnalysis.count_days_below_threshold (Some df) start_date end_date threshold
          consumption_type = Return None)
     ∨ ((∃ i, in_range dates start end_ i)
        ∧ DataAnalysis.count_days_above_threshold (Some df) start_date end_date threshold
            consumption_type
          = Return (Some (Z.of_nat (length (List.filter above (zip dates vals)))))
        ∧ DataAnalysis.count_days_below_threshold (Some df) start_date end_date threshold
            consumption_type
          = Return (Some (Z.of_nat (length (List.filter below (zip dates vals))))))).
Proof.
  intros Hwf Hrange Hcol Hdate Hvals above below.
  split; [|split].
  - intros d v. unfold above. rewrite qualifies_iff.
    by setoid_rewrite Qlt_bool_iff.
  - intros d v. unfold below. rewrite qualifies_iff.
    by setoid_rewrite Qlt_bool_iff.
  - rewrite (count_days_above_threshold_rows df _ _ _ start end_ col dates vals) by done.
    rewrite (count_days_below_threshold_rows df _ _ _ start end_ col dates vals) by done.
    destruct (some_row_or_none df start end_ dates Hwf Hdate) as [[-> Hno] | [-> Hsome]];
      [by left | by right].
Qed.

(** The example of the specification: with the threshold 10 over 10, 5 and
    20, one day is above and one below. *)
Example count_days_threshold_sample :
  DataAnalysis.count_days_above_threshold (Some sample_frame) "2024-12-01" "2024-12-03"
    10 "electricity" = Return (Some 1)
  ∧ DataAnalysis.count_days_below_threshold (Some sample_frame) "2024-12-01" "2024-12-03"
      10 "electricity" = Return (Some 1)
  ∧ DataAnalysis.count_days_above_threshold (Some sample_frame) "2024-12-01" "2024-12-03"
      20 "electricity" = Return (Some 0)
  ∧ DataAnalysis.count_days_above_threshold (Some sample_frame) "2030-01-01" "2030-01-02"
      20 "electricity" = Return None.
Proof. by vm_compute. Qed.

Lemma count_days_threshold_witness :
  let dates := [Some (day 2024 12 1); Some (day 2024 12 2); Some (day 2024 12 3)] in
  let vals := [Some 10%Q; Some 5%Q; Some 20%Q] in
  let start := Some (day 2024 12 1) in
  let end_ := Some (day 2024 12 4 - Timedelta_seconds 1) in
  DataAnalysis.count_days_above_threshold (Some sample_frame) "2024-12-01" "2024-12-03"
    10 "electricity"
  = Return (Some (Z.of_nat (length
      (List.filter (qualifies start end_ (fun x => Qlt_bool 10 x)) (zip dates vals))))).
Proof.
  intros dates vals start end_.
  destruct (count_days_threshold_spec (H := sample_pandas) sample_frame
              "2024-12-01" "2024-12-03" "electricity" start end_
              "electricity_consumption" dates vals 10%Q)
    as (_ & _ & [(Hno & _) | (_ & Habove & _)]);
    [apply sample_frame_well_formed | by vm_compute .. | | exact Habove].
  destruct (Hno 0%nat). exists (day 2024 12 1), (day 2024 12 1), (day 2024 12 4 - Timedelta_seconds 1).
  by vm_compute.
Defined.

(** The failing input of C4: on the second day of the sample table the gas
    value is missing; the range holds that one row, and the average is the
    missing number [NaN], not NoData. *)
Lemma get_average_all_missing :
  DataAnalysis.get_average (Some sample_frame) "2024-12-02" "2024-12-02" "gas"
  = Return (Some NaN)
  ∧ DataAnalysis.get_minimum (Some sample_frame) "2024-12-02" "2024-12-02" "gas"
    = Return None
  ∧ DataAnalysis.get_data_for_period (Some sample_frame) "2024-12-02" "2024-12-02" "gas"
    = Return None.
Proof. by vm_compute. Qed.

(** The example of the specification, the average of 10, 5 and 20, with
    the mean of the sample, which is taken exactly. *)
Example get_average_sample :
  ∃ x, DataAnalysis.get_average (Some sample_frame) "2024-12-01" "2024-12-03" "electricity"
       = Return (Some (Float x))
       ∧ (x == 35 # 3)%Q.
Proof. eexists. split; [by vm_compute | done]. Qed.

Lemma keep_mask_lookup dates start end_ (vals : list (option Q)) i :
  keep_mask dates start end_ (FloatSeries vals) !! i = Some true ↔
  in_range dates start end_ i ∧ ∃ v, vals !! i = Some (Some v).
Proof.
  unfold keep_mask, in_range. rewrite lookup_zip_with. simpl.
  rewrite <- between_lookup. fold (range_mask dates start end_).
  rewrite list_lookup_fmap.
  destruct (range_mask dates start end_ !! i) as [[|]|], (vals !! i) as [[v|]|]; simpl;
    split; try done; try (by intros [? [? ?]]).
  intros _. split; [done | by exists v].
Qed.

Lemma keep_mask_present m (vals : list (option Q)) :
  Forall is_Some (boolean_index (zip_with andb m (notna (FloatSeries vals))) vals).
Proof.
  revert vals. induction m as [|b m IH]; intros [|v vals]; simpl; try done.
  destruct b, v as [x|]; simpl; try apply IH.
  constructor; [done | apply IH].
Qed.

(** C7, as the code has it.  On a table whose first column is the date
    column, over a valid range.  When no column resolves for the kind, the
    answer is NoData, whatever the other columns hold.  When a float column
    resolves: the rows kept are those in range whose value is present; when
    there is one, the answer is the table of these rows with the date column
    and the resolved column; when there is none and the kind is electricity
    and the gas column has a value in range, the answer is the same table
    built with the gas column; in every other case the answer is NoData. *)
Theorem get_data_for_period_spec `{Pandas} (df : DataFrame)
    (start_date end_date consumption_type : string) (start end_ : option Z)
    (dates : list (option Z)) :
  well_formed df →
  DataAnalysis._validate_date_range start_date end_date = Return (start, end_) →
  getitem df "date" = Return (DatetimeSeries dates) →
  first_column df = Return "date" →
  (∀ e, DataAnalysis.resolve_column (columns df) consumption_type = Raise e →
        DataAnalysis.get_data_for_period (Some df) start_date end_date consumption_type
        = Return None)
  ∧ (∀ col vals,
       DataAnalysis.resolve_column (columns df) consumption_type = Return col →
       getitem df col = Return (FloatSeries vals) →
       let keep := keep_mask dates start end_ (FloatSeries vals) in
       (∀ i, keep !! i = Some true ↔
             in_range dates start end_ i ∧ ∃ v, vals !! i = Some (Some v))
       ∧ Forall is_Some (boolean_index keep vals)
       ∧ (has_row keep →
          DataAnalysis.get_data_for_period (Some df) start_date end_date consumption_type
          = Return (Some {| index := boolean_index keep (index df);
                            series := [("date", DatetimeSeries (boolean_index keep dates));
                                       (col, FloatSeries (boolean_index keep vals))] |}))
       ∧ (¬ has_row keep → consumption_type = "electricity" →
          ∀ gas_column gas_vals,
            DataAnalysis.resolve_column (columns df) "gas" = Return gas_column →
            getitem df gas_column = Return (FloatSeries gas_vals) →
            let gas_keep := keep_mask dates start end_ (FloatSeries gas_vals) in
            has_row gas_keep →
            DataAnalysis.get_data_for_period (Some df) start_date end_date consumption_type
            = Return (Some {| index := boolean_index gas_keep (index df);
                              series :=
                                [("date", DatetimeSeries (boolean_index gas_keep dates));
                                 (gas_column, FloatSeries (boolean_index gas_keep gas_vals))]
                           |}))
       ∧ (¬ has_row keep →
          consumption_type ≠ "electricity"
          ∨ (∃ e, DataAnalysis.resolve_column (columns df) "gas" = Raise e)
          ∨ (∃ gas_column sg,
               DataAnalysis.resolve_column (columns df) "gas" = Return gas_column
               ∧ getitem df gas_column = Return sg
               ∧ ¬ has_row (keep_mask dates start end_ sg)) →
          DataAnalysis.get_data_for_period (Some df) start_date end_date consumption_type
          = Return None)).
Proof.
  intros Hwf Hrange Hdate Hc0. split.
  - intros e He. unfold DataAnalysis.get_data_for_period.
    rewrite Hrange, bind_Return.
    by rewrite (_filter_data_by_date_raise _ _ _ _ _ He).
  - intros col vals Hcol Hvals keep.
    destruct (get_data_for_period_rows df start_date end_date consumption_type start end_
                col "date" dates vals (DatetimeSeries dates) Hwf Hrange Hcol Hdate Hvals
                Hc0 Hdate) as (Hsome & Hgas & Hnone).
    split; [apply keep_mask_lookup|]. split; [apply keep_mask_present|].
    split; [exact Hsome|]. split; [|exact Hnone].
    intros Hk Hkind gas_column gas_vals Hg Hgv gas_keep Hrow.
    by apply (Hgas Hk Hkind gas_column (FloatSeries gas_vals)).
Qed.

Lemma gas_only_frame_well_formed : well_formed gas_only_frame.
Proof.
  split; [|by repeat constructor].
  apply (bool_decide_unpack _). by vm_compute.
Defined.

Lemma gas_loaded_frame_well_formed : well_formed gas_loaded_frame.
Proof.
  split; [|by repeat constructor].
  apply (bool_decide_unpack _). by vm_compute.
Defined.

(** The three answers: the rows with a gas value, the gas table for
    electricity when the electricity column holds no value in range, and
    NoData for electricity on a table without an electricity column. *)
Lemma get_data_for_period_witness :
  DataAnalysis.get_data_for_period (Some sample_frame) "2024-12-02" "2024-12-03" "gas"
  = Return (Some {| index := [2];
                    series := [("date", DatetimeSeries [Some (day 2024 12 3)]);
                               ("gas_consumption", FloatSeries [Some 3%Q])] |})
  ∧ DataAnalysis.get_data_for_period (Some gas_only_frame) "2024-12-01" "2024-12-02"
      "electricity"
    = Return (Some {| index := [0; 1];
                      series := [("date", DatetimeSeries [Some (day 2024 12 1);
                                                          Some (day 2024 12 2)]);
                                 ("gas_consumption", FloatSeries [Some 3%Q; Some 4%Q])] |})
  ∧ DataAnalysis.get_data_for_period (Some gas_loaded_frame) "2024-12-01" "2024-12-02"
      "electricity"
    = Return None.
Proof.
  split; [|split].
  - destruct (get_data_for_period_spec (H := sample_pandas) sample_frame
                "2024-12-02" "2024-12-03" "gas"
                (Some (day 2024 12 2)) (Some (day 2024 12 4 - Timedelta_seconds 1))
                [Some (day 2024 12 1); Some (day 2024 12 2); Some (day 2024 12 3)])
      as (_ & Hcol); [apply sample_frame_well_formed | by vm_compute .. |].
    destruct (Hcol "gas_consumption" [Some 7%Q; None; Some 3%Q])
      as (_ & _ & Hsome & _); [by vm_compute .. |].
    apply Hsome. by exists 2%nat.
  - destruct (get_data_for_period_spec (H := sample_pandas) gas_only_frame
                "2024-12-01" "2024-12-02" "electricity"
                (Some (day 2024 12 1)) (Some (day 2024 12 3 - Timedelta_seconds 1))
                [Some (day 2024 12 1); Some (day 2024 12 2)])
      as (_ & Hcol); [apply gas_only_frame_well_formed | by vm_compute .. |].
    destruct (Hcol "electricity_consumption" [None; None])
      as (_ & _ & _ & Hgas & _); [by vm_compute .. |].
    apply (fun Hk => Hgas Hk eq_refl "gas_consumption" [Some 3%Q; Some 4%Q]);
      [by intros [[|[|i]] Hi] | by vm_compute .. | by exists 0%nat].
  - destruct (get_data_for_period_spec (H := sample_pandas) gas_loaded_frame
                "2024-12-01" "2024-12-02" "electricity"
                (Some (day 2024 12 1)) (Some (day 2024 12 3 - Timedelta_seconds 1))
                [Some (day 2024 12 1); Some (day 2024 12 2)])
      as (Hnone & _); [apply gas_loaded_frame_well_formed | by vm_compute .. |].
    apply (Hnone (ValueError "No electricity consumption data available")).
    by vm_compute.
Defined.

(** C7 as stated fails.  This table is loaded from a file without an
    electricity column; its rows in range have gas values; the extraction for
    electricity answers NoData, not the gas table, because no column resolves
    for electricity and the fallback is never reached.  The extraction for gas
    answers the gas table. *)
Lemma get_data_for_period_gas_only :
  DataLoader._load_csv gas_raw_frame = Return gas_loaded_frame
  ∧ columns gas_loaded_frame = ["date"; "gas_consumption"]
  ∧ DataAnalysis.resolve_column (columns gas_loaded_frame) "electricity"
    = Raise (ValueError "No electricity consumption data available")
  ∧ DataAnalysis.get_data_for_period (Some gas_loaded_frame) "2024-12-01" "2024-12-02"
      "electricity"
    = Return None
  ∧ DataAnalysis.get_data_for_period (Some gas_loaded_frame) "2024-12-01" "2024-12-02"
      "gas"
    = Return (Some gas_loaded_frame).
Proof. by vm_compute. Qed.

(** The example of the specification: electricity is missing on every row
    in range and gas is not, so the extraction for electricity answers the
    gas table. *)
Example get_data_for_period_fallback :
  DataAnalysis.get_data_for_period (Some gas_only_frame) "2024-12-01" "2024-12-02"
    "electricity"
  = Return (Some {| index := [0; 1];
                    series := [("date", DatetimeSeries [Some (day 2024 12 1);
                                                        Some (day 2024 12 2)]);
                               ("gas_consumption", FloatSeries [Some 3%Q; Some 4%Q])] |}).
Proof. by vm_compute. Qed.

(** ** Classification of the columns *)

Example _load_csv_sample : DataLoader._load_csv raw_frame = Return loaded_frame.
Proof. by vm_compute. Qed.

Section classification.
Context `{Pandas}.

Lemma first_candidate_None matches patterns cols :
  (∀ pattern col, In pattern patterns → In col cols → matches pattern col = false) →
  DataLoader.first_candidate matches patterns cols = None.
Proof.
  intros Hno. induction patterns as [|pattern patterns IH]; simpl; [done|].
  rewrite (proj2 (filter_nil_none (matches pattern) cols)).
  - apply IH. intros p col Hp Hc. apply Hno; [by right | done].
  - intros col Hc. apply Hno; [by left | done].
Qed.

Lemma numeric_cols_In df c :
  In c (DataLoader.numeric_cols df) ↔ ∃ v, In (c, FloatSeries v) (series df).
Proof.
  unfold DataLoader.numeric_cols. rewrite in_map_iff. split.
  - intros ([n s] & <- & [Hin Hnum]%filter_In). destruct s; try done. by exists v.
  - intros [v Hin]. exists (c, FloatSeries v). split; [done|]. by apply filter_In.
Qed.



End classification.



(** ** Normalisation *)

Lemma bind_Return_inv {A B} (c : outcome A) (f : A → outcome B) b :
  c ≫= f = Return b → ∃ a, c = Return a ∧ f a = Return b.
Proof. destruct c as [a|e]; simpl; [by exists a | done]. Qed.

Lemma Return_inj {A} (a b : A) : Return a = Return b → a = b.
Proof. congruence. Qed.

Lemma try_except_Raise_inv {A} (c : outcome A) e a :
  try_except c (fun _ => Raise e) = Return a → c = Return a.
Proof. by destruct c. Qed.

Lemma filter_head_In {A} (f : A → bool) l x l' : List.filter f l = x :: l' → In x l ∧ f x = true.
Proof. intros Hf. apply filter_In. rewrite Hf. by left. Qed.

Lemma columns_In df c : In c (columns df) ↔ ∃ s, In (c, s) (series df).
Proof.
  unfold columns. rewrite in_map_iff. split.
  - intros ([n s] & <- & Hin). by exists s.
  - intros [s Hin]. by exists (c, s).
Qed.

Lemma getitem_singleton df name s :
  getitem df name = Return s ↔
  List.filter (fun c => String.eqb (fst c) name) (series df) = [(name, s)].
Proof.
  unfold getitem. split.
  - intros Hget. destruct (List.filter _ _) as [|[n s'] [|c' l]] eqn:Hf; try done.
    injection Hget as <-. apply filter_head_In in Hf as [_ Heq]. simpl in *.
    apply String.eqb_eq in Heq. by subst.
  - by intros ->.
Qed.

Lemma getitem_head name s rest :
  (∀ c, In c rest → fst c ≠ name) →
  ∀ idx, getitem {| index := idx; series := (name, s) :: rest |} name = Return s.
Proof.
  intros Hrest idx. apply getitem_singleton. simpl. rewrite String.eqb_refl. f_equal.
  apply filter_nil_none. intros c Hc. by apply String.eqb_neq, Hrest.
Qed.

Lemma setitem_head name s s' rest idx :
  (∀ c, In c rest → fst c ≠ name) →
  DataLoader.setitem {| index := idx; series := (name, s) :: rest |} name s'
  = {| index := idx; series := (name, s') :: rest |}.
Proof.
  intros Hrest. unfold DataLoader.setitem, columns, label_in. simpl.
  rewrite String.eqb_refl. simpl. f_equal. f_equal.
  rewrite <- (map_id rest) at 2. apply map_ext_in. intros c Hc.
  apply Hrest, String.eqb_neq in Hc. by rewrite Hc.
Qed.

Section normalisation.
Context `{Pandas}.

Lemma first_candidate_In matches patterns cols c :
  DataLoader.first_candidate matches patterns cols = Some c → In c cols.
Proof.
  induction patterns as [|pattern patterns IH]; simpl; [done|].
  destruct (List.filter _ _) as [|col l] eqn:Hf; [done|].
  intros [= <-]. by apply filter_head_In in Hf as [? _].
Qed.

Lemma find_date_col_In df c : DataLoader.find_date_col df = Return c → In c (columns df).
Proof.
  unfold DataLoader.find_date_col.
  destruct (DataLoader.first_candidate _ _ _) as [c1|] eqn:H1.
  { intros [= <-]. by eapply first_candidate_In. }
  destruct (first_column df ≫= _) as [c2|e] eqn:H2.
  { intros [= <-]. apply bind_Return_inv in H2 as (c0 & Hc0 & H2).
    apply bind_Return_inv in H2 as (s & _ & H2).
    apply bind_Return_inv in H2 as (x & _ & H2).
    apply bind_Return_inv in H2 as (t & _ & [= <-]).
    unfold first_column in Hc0. destruct (columns df); [done|]. injection Hc0 as <-. by left. }
  destruct (head _) as [c3|] eqn:H3; [|done].
  intros [= <-]. destruct (List.filter _ _) as [|c3' l] eqn:Hf; [done|].
  injection H3 as <-. by apply filter_head_In in Hf as [? _].
Qed.

Lemma to_datetime_all_coerce l ts :
  DataLoader.to_datetime_all l = Return ts →
  ts = map (fun x => match to_datetime x with Return t => t | Raise _ => None end) l.
Proof.
  revert ts. induction l as [|x l IH]; intros ts; simpl; [by intros [= <-]|].
  destruct (to_datetime x) as [t|]; simpl; [|done].
  destruct (DataLoader.to_datetime_all l) as [ts'|]; simpl; [|done].
  intros [= <-]. by rewrite (IH ts').
Qed.

(** Both ways of converting the dates give the coerced series. *)
Lemma convert_dates_coerce new_df df1 :
  DataLoader.convert_dates new_df = Return df1 →
  ∃ s, getitem new_df "date" = Return s
       ∧ df1 = DataLoader.setitem new_df "date" (DataLoader.to_datetime_coerce s).
Proof.
  unfold DataLoader.convert_dates. destruct (getitem new_df "date") as [s|e]; simpl; [|done].
  intros Hconv. exists s. split; [done|].
  unfold DataLoader.to_datetime_strict in Hconv.
  destruct (DataLoader.to_datetime_all (cells s)) as [ts|] eqn:Hall; simpl in Hconv.
  - injection Hconv as <-. unfold DataLoader.to_datetime_coerce.
    by rewrite (to_datetime_all_coerce _ _ Hall).
  - by injection Hconv as <-.
Qed.

Lemma to_numeric_coerce_idemp s :
  DataLoader.to_numeric_coerce (DataLoader.to_numeric_coerce s) = DataLoader.to_numeric_coerce s.
Proof. by destruct s. Qed.

Lemma to_numeric_coerce_select m s :
  DataLoader.to_numeric_coerce (series_select m s)
  = series_select m (DataLoader.to_numeric_coerce s).
Proof. destruct s; simpl; by rewrite ?boolean_index_map. Qed.

(** The conversion loop converts the columns it names and keeps the rest. *)
Lemma convert_columns_series names df df' :
  DataLoader.convert_columns names df = Return df' →
  index df' = index df
  ∧ series df' = map (fun c => if label_in (fst c) names
                                then (fst c, DataLoader.to_numeric_coerce (snd c)) else c)
                     (series df).
Proof.
  revert df. induction names as [|n names IH]; intros df; simpl.
  { intros [= <-]. split; [done|]. rewrite <- (map_id (series df)) at 1.
    apply map_ext. by intros [? ?]. }
  intros Hconv. apply bind_Return_inv in Hconv as (s & Hs & Hconv).
  apply IH in Hconv as [Hidx Hser].
  assert (label_in n (columns df) = true) as Hin.
  { apply label_in_In, columns_In. exists s. by apply getitem_In. }
  unfold DataLoader.setitem in Hidx, Hser. rewrite Hin in Hidx, Hser. simpl in *.
  split; [done|]. rewrite Hser, map_map. apply map_ext_in. intros [c sc] Hc. simpl.
  destruct (String.eqb_spec c n) as [->|Hne]; simpl.
  - assert (sc = s) as ->.
    { apply getitem_singleton in Hs.
      assert (In (n, sc) (List.filter (fun c => String.eqb (fst c) n) (series df))) as Hf
        by (apply filter_In; split; [done | apply String.eqb_refl]).
      rewrite Hs in Hf. destruct Hf as [[=]|[]]. done. }
    destruct (label_in n names); by rewrite ?to_numeric_coerce_idemp.
  - done.
Qed.

Lemma truthy_cases col : DataLoader.truthy col = [] ∨ ∃ c, DataLoader.truthy col = [c].
Proof.
  destruct col as [c|]; simpl; [|by left].
  destruct (String.eqb c ""); [by left | right; by exists c].
Qed.

(** Only the date column can come out of the renaming as [date], and only
    when it is not also taken as a consumption column. *)
Lemma column_mapping_date date_col elec_col gas_col c :
  let column_mapping :=
    DataLoader.assign_if gas_col "gas_consumption"
      (DataLoader.assign_if elec_col "electricity_consumption" {[ date_col := "date" ]}) in
  In c (date_col :: DataLoader.truthy elec_col ++ DataLoader.truthy gas_col) →
  default c (column_mapping !! c) = "date" → c = date_col.
Proof.
  intros m Hin. unfold m, DataLoader.assign_if.
  destruct (truthy_cases elec_col) as [He | [x He]], (truthy_cases gas_col) as [Hg | [y Hg]];
    rewrite He, Hg in *; simpl in Hin;
    rewrite ?lookup_insert, lookup_singleton;
    repeat case_decide; simpl; try done; intros ->;
    repeat (destruct Hin as [Hin|Hin]; try done).
Qed.

Lemma getitems_In df names c :
  In c (series (DataLoader.getitems df names)) ↔ In (fst c) names ∧ In c (series df).
Proof.
  unfold DataLoader.getitems. simpl. rewrite in_flat_map. split.
  - intros (name & Hname & [Hc Heq]%filter_In). apply String.eqb_eq in Heq. by subst.
  - intros [Hname Hc]. exists (fst c). split; [done|]. apply filter_In.
    split; [done | apply String.eqb_refl].
Qed.

(** The frame that goes into the date conversion has the date column first,
    under the name [date], and no other column of that name. *)
Lemma keep_and_rename_date df date_col elec_col gas_col new_df s :
  In date_col (columns df) →
  DataLoader.keep_and_rename df date_col elec_col gas_col = Some new_df →
  getitem new_df "date" = Return s →
  index new_df = index df
  ∧ ∃ rest, series new_df = ("date", s) :: rest
            ∧ (∀ c, In c rest → fst c ≠ "date")
            ∧ In (date_col, s) (series df)
            ∧ ∀ c, In c rest → ∃ raw, In (raw, snd c) (series df).
Proof.
  intros Hdate. unfold DataLoader.keep_and_rename. simpl.
  rewrite (proj2 (label_in_In _ _) Hdate).
  set (K := List.filter _ (_ ++ _)).
  set (m := DataLoader.assign_if gas_col _ _).
  destruct (_ <? _)%nat; [done|]. intros [= <-] Hget.
  split; [done|].
  assert (∀ c, In c (series (DataLoader.getitems df (date_col :: K))) →
               In c (series df) ∧
               (default (fst c) (m !! fst c) = "date" → fst c = date_col)) as Hraw.
  { intros c [Hname Hc]%getitems_In. split; [done|].
    apply column_mapping_date. destruct Hname as [<-|Hk]; [by left | right].
    by apply filter_In in Hk as [? _]. }
  apply getitem_singleton in Hget. unfold DataLoader.rename in Hget |- *. simpl in Hget |- *.
  apply columns_In in Hdate as [s0 Hs0].
  destruct (List.filter (fun c => String.eqb (fst c) date_col) (series df))
    as [|[n1 s1] l1] eqn:Hf1.
  { rewrite filter_nil_none in Hf1. specialize (Hf1 _ Hs0). simpl in Hf1.
    by rewrite String.eqb_refl in Hf1. }
  pose proof (filter_head_In _ _ _ _ Hf1) as [Hin1 Hn1]. simpl in Hn1.
  apply String.eqb_eq in Hn1 as ->. simpl in Hraw, Hget |- *.
  rewrite Hf1 in Hraw. simpl in Hraw.
  assert (default date_col (m !! date_col) = "date") as Hren.
  { assert (In ("date", s) (List.filter (fun c => String.eqb (fst c) "date")
              (map (fun c => (default (fst c) (m !! fst c), snd c))
                   (((date_col, s1) :: l1) ++
                    flat_map (fun name =>
                      List.filter (fun c => String.eqb (fst c) name) (series df)) K))))
      as Hmem by (simpl; rewrite Hget; by left).
    apply filter_In in Hmem as [Hmem _]. apply in_map_iff in Hmem as (c & Hc & Hcin).
    destruct (Hraw c Hcin) as [_ Hname]. injection Hc as Hc _.
    by rewrite <- (Hname Hc) at 1 2. }
  rewrite Hren in Hget |- *. simpl in Hget. injection Hget as -> Hrest.
  eexists. split; [done|]. rewrite filter_nil_none in Hrest.
  split; [|split; [done|]].
  - intros c Hc. by apply String.eqb_neq, Hrest.
  - intros c (c' & <- & Hc')%in_map_iff. simpl. exists (fst c').
    destruct (Hraw c') as [? _]; [by right|]. by destruct c'.
Qed.

(** The stages of a load that succeeds: the date column [s] of the file comes
    first under the name [date], coerced to timestamps; the other columns
    kept are coerced to numbers; the rows without a date are dropped, then
    the flagged rows. *)
Lemma _load_csv_stages df new_df :
  DataLoader._load_csv df = Return new_df →
  ∃ date_col s rest,
    In (date_col, s) (series df)
    ∧ (∀ c, In c rest → fst c ≠ "date" ∧ ∃ raw, In (raw, snd c) (series df))
    ∧ let dates := DataLoader.to_datetime_coerce s in
      DataLoader.drop_flagged df
        {| index := boolean_index (notna dates) (index df);
           series := ("date", series_select (notna dates) dates)
                     :: map (fun c => (fst c, DataLoader.to_numeric_coerce
                                                (series_select (notna dates) (snd c)))) rest |}
      = Return new_df.
Proof.
  unfold DataLoader._load_csv. intros Hload%try_except_Raise_inv.
  destruct (_ <? _)%nat; [done|].
  apply bind_Return_inv in Hload as (date_col & Hfind%find_date_col_In & Hload).
  destruct (DataLoader.find_consumption_cols df) as [elec_col gas_col].
  destruct (DataLoader.keep_and_rename _ _ _ _) as [df0|] eqn:Hkeep; [|done].
  apply bind_Return_inv in Hload as (df1 & (s & Hget & ->)%convert_dates_coerce & Hload).
  apply bind_Return_inv in Hload as (df2 & Hdrop & Hload).
  apply bind_Return_inv in Hload as (df3 & [Hidx3 Hser3]%convert_columns_series & Hflag).
  destruct (keep_and_rename_date _ _ _ _ _ _ Hfind Hkeep Hget)
    as (Hidx0 & rest & Hser0 & Hrest & Hs & Hraw).
  exists date_col, s, rest. split; [done|]. split; [by auto|].
  remember (DataLoader.to_datetime_coerce s) as d eqn:Hd.
  cbn zeta. clear Hd Hkeep Hget.
  destruct df0 as [idx0 ser0]. cbn [index series] in Hidx0, Hser0. subst idx0 ser0.
  rewrite (setitem_head _ _ _ _ _ Hrest) in Hdrop.
  unfold dropna in Hdrop. rewrite (getitem_head _ _ _ Hrest), bind_Return in Hdrop.
  injection Hdrop as <-.
  remember (notna d) as m1 eqn:Hm1. clear Hm1.
  unfold frame_select, columns in Hidx3, Hser3.
  cbn [index series map fst snd tail] in Hidx3, Hser3.
  destruct df3 as [idx3 ser3]. cbn [index series] in Hidx3, Hser3. subst idx3 ser3.
  rewrite <- Hflag. f_equal. f_equal.
  rewrite !map_map. cbn [fst snd].
  change (map (fun x : string * Series => fst x) rest) with (map fst rest).
  assert (label_in "date" (map fst rest) = false) as ->.
  { apply label_in_not_In. intros ([n sn] & Hn & Hin)%in_map_iff. simpl in Hn; subst n.
    by apply (Hrest _ Hin). }
  f_equal. apply map_ext_in. intros [n sn] Hin. cbn [fst snd].
  assert (label_in n (map fst rest) = true) as ->; [|done].
  apply label_in_In, in_map_iff. by exists (n, sn).
Qed.

End normalisation.

Lemma series_select_twice m1 m2 s :
  length m1 = length m2 →
  series_select (boolean_index m1 m2) (series_select m1 s)
  = series_select (zip_with andb m1 m2) s.
Proof. intros Hlen. destruct s; simpl; f_equal; by apply boolean_index_twice. Qed.

Lemma boolean_index_In {A} mask (l : list A) x : In x (boolean_index mask l) → In x l.
Proof.
  revert l. induction mask as [|b mask IH]; intros [|y l]; simpl; try done.
  destruct b; simpl; [intros [->|?]|]; auto.
Qed.

(** Selecting by label is selecting by position when the labels are
    distinct. *)
Lemma isin_boolean_index idx mask :
  NoDup idx → length mask = length idx →
  DataLoader.isin idx (boolean_index mask idx) = mask.
Proof.
  unfold DataLoader.isin. revert mask.
  induction idx as [|l idx IH]; intros [|b mask] Hnd Hlen; simpl in *; try done.
  apply NoDup_cons in Hnd as [Hl Hnd].
  assert (existsb (Z.eqb l) (boolean_index mask idx) = false) as Hnot.
  { destruct (existsb _ _) eqn:Hex; [|done].
    apply existsb_exists in Hex as (x & Hx%boolean_index_In & ->%Z.eqb_eq).
    destruct Hl. by apply list_elem_of_In. }
  f_equal.
  - destruct b; simpl; [by rewrite Z.eqb_refl | done].
  - etrans; [|apply (IH mask); [done | lia]].
    apply map_ext_in. intros x Hx. destruct b; simpl; [|done].
    assert (x ≠ l) as Hne by (intros ->; apply Hl; by apply list_elem_of_In).
    apply Z.eqb_neq in Hne. by rewrite Hne.
Qed.

Lemma zip_with_andb_true (m : list bool) {A} (l : list A) :
  length m = length l → zip_with andb m (map (fun _ => true) l) = m.
Proof.
  revert l. induction m as [|b m IH]; intros [|x l] Hlen; simpl in *; try done.
  rewrite andb_true_r. f_equal. apply IH. lia.
Qed.

Lemma boolean_index_present {A} (l : list (option A)) flags :
  Forall is_Some
    (boolean_index (zip_with andb (map (fun c => bool_decide (is_Some c)) l) flags) l).
Proof.
  revert flags. induction l as [|c l IH]; intros [|f flags]; simpl; try done.
  case_bool_decide as Hc; destruct f; simpl; try apply IH.
  constructor; [done | apply IH].
Qed.

Section loaded.
Context `{Pandas}.

Lemma kept_lookup df sd i :
  kept df sd !! i = Some true ↔
  (∃ x t, cells sd !! i = Some x ∧ to_datetime x = Return (Some t))
  ∧ unflagged df !! i = Some true.
Proof.
  unfold kept, DataLoader.to_datetime_coerce. simpl.
  rewrite lookup_zip_with, !list_lookup_fmap.
  destruct (cells sd !! i) as [x|]; simpl.
  - destruct (to_datetime x) as [[t|]|e] eqn:Hx; simpl;
      destruct (unflagged df !! i) as [[|]|]; simpl; split; try done;
      try (by intros [_ ?]); try (intros [(? & ? & [= <-] & ?) _]; congruence).
    intros _. split; [by exists x, t | done].
  - split; [done | by intros [(? & ? & ? & _) _]].
Qed.

(** The table of a load that succeeds, row by row and column by column. *)
Lemma _load_csv_table (df new_df : DataFrame) :
  well_formed df →
  DataLoader._load_csv df = Return new_df →
  ∃ date_col sd rest,
    In (date_col, sd) (series df)
    ∧ new_df = {| index := boolean_index (kept df sd) (index df);
                  series := ("date", series_select (kept df sd)
                                       (DataLoader.to_datetime_coerce sd)) :: rest |}
    ∧ (∃ ds, series_select (kept df sd) (DataLoader.to_datetime_coerce sd) = DatetimeSeries ds
             ∧ Forall is_Some ds)
    ∧ (∀ c, In c rest →
            fst c ≠ "date"
            ∧ ∃ raw s, In (raw, s) (series df)
                       ∧ snd c = series_select (kept df sd) (DataLoader.to_numeric_coerce s)).
Proof.
  intros Hwf Hload.
  destruct (_load_csv_stages _ _ Hload) as (date_col & sd & rest0 & Hsd & Hrest & Hflag).
  lazy zeta in Hflag. exists date_col, sd.
  assert (length (notna (DataLoader.to_datetime_coerce sd)) = length (index df)) as Hlen.
  { rewrite notna_length. unfold DataLoader.to_datetime_coerce. simpl.
    rewrite !length_map. destruct Hwf as [_ Hall]. rewrite Forall_forall in Hall.
    apply (Hall (date_col, sd)). by apply list_elem_of_In. }
  assert (∃ ds, series_select (kept df sd) (DataLoader.to_datetime_coerce sd) = DatetimeSeries ds
                ∧ Forall is_Some ds) as Hdates.
  { unfold kept, DataLoader.to_datetime_coerce. simpl. eexists. split; [done|].
    apply boolean_index_present. }
  remember (DataLoader.to_datetime_coerce sd) as d eqn:Hd.
  assert (∀ keep c, In c rest0 →
            fst c ≠ "date"
            ∧ ∃ raw s, In (raw, s) (series df)
                       ∧ series_select keep (DataLoader.to_numeric_coerce (snd c))
                         = series_select keep (DataLoader.to_numeric_coerce s)) as Hraw.
  { intros keep c Hc. destruct (Hrest c Hc) as [Hne [raw Hin]].
    split; [done|]. by exists raw, (snd c). }
  assert (∃ rest,
    new_df = {| index := boolean_index (kept df sd) (index df);
                series := ("date", series_select (kept df sd) d) :: rest |}
    ∧ ∀ c, In c rest →
           fst c ≠ "date"
           ∧ ∃ raw s, In (raw, s) (series df)
                      ∧ snd c = series_select (kept df sd) (DataLoader.to_numeric_coerce s))
    as (rest & -> & Hcols).
  { unfold DataLoader.drop_flagged in Hflag. unfold kept, unflagged. rewrite <- Hd.
    destruct (label_in "flag_ignore" (columns df)).
    - apply bind_Return_inv in Hflag as (flag & Hget & Hret).
      apply Return_inj in Hret as <-. rewrite Hget.
      assert (length (DataLoader.ne_oui flag) = length (index df)) as Hlf.
      { rewrite <- (getitem_length _ _ _ Hwf Hget). destruct flag; simpl; by rewrite !length_map. }
      cbn [index frame_select].
      unfold DataLoader.isin at 1. rewrite <- boolean_index_map.
      fold (DataLoader.isin (index df) (boolean_index (DataLoader.ne_oui flag) (index df))).
      rewrite isin_boolean_index by (apply Hwf || done).
      eexists. split.
      + unfold frame_select. cbn [index series map fst snd]. f_equal.
        * apply boolean_index_twice. by rewrite Hlen.
        * f_equal. f_equal. apply series_select_twice. by rewrite Hlen.
      + intros c (c1 & <- & (c0 & <- & Hc0)%in_map_iff)%in_map_iff. cbn [fst snd].
        destruct (Hraw (zip_with andb (notna d) (DataLoader.ne_oui flag)) c0 Hc0)
          as (Hne & raw & s & Hin & Heq).
        split; [done|]. exists raw, s. split; [done|].
        rewrite to_numeric_coerce_select, series_select_twice by (by rewrite Hlen).
        done.
    - apply Return_inj in Hflag as <-. rewrite zip_with_andb_true by done.
      eexists. split; [done|].
      intros c (c0 & <- & Hc0)%in_map_iff. cbn [fst snd].
      destruct (Hraw (notna d) c0 Hc0) as (Hne & raw & s & Hin & Heq).
      split; [done|]. exists raw, s. split; [done|]. by rewrite to_numeric_coerce_select. }
  by exists rest.
Qed.


(** C9.  After a load that succeeds, the rows of the table are the rows of
    the file whose date cell parses to a timestamp and that are not flagged,
    in file order; the date column holds their timestamps, none missing; every
    other column is a column of the file coerced to numbers cell by cell, on
    the same rows, so a cell that is not a number is missing in its row. *)
Theorem _load_csv_rows (df new_df : DataFrame) :
  well_formed df →
  DataLoader._load_csv df = Return new_df →
  ∃ date_col sd rest,
    In (date_col, sd) (series df)
    ∧ (∀ i, kept df sd !! i = Some true ↔
            (∃ x t, cells sd !! i = Some x ∧ to_datetime x = Return (Some t))
            ∧ unflagged df !! i = Some true)
    ∧ new_df = {| index := boolean_index (kept df sd) (index df);
                  series := ("date", series_select (kept df sd)
                                       (DataLoader.to_datetime_coerce sd)) :: rest |}
    ∧ (∃ ds, series_select (kept df sd) (DataLoader.to_datetime_coerce sd) = DatetimeSeries ds
             ∧ Forall is_Some ds)
    ∧ (∀ c, In c rest →
            ∃ raw s, In (raw, s) (series df)
                     ∧ snd c = series_select (kept df sd) (DataLoader.to_numeric_coerce s))
    ∧ (∀ v i text, v !! i = Some (Some text) → to_numeric text = None →
                   cells (DataLoader.to_numeric_coerce (ObjectSeries v)) !! i = Some NaN).
Proof.
  intros Hwf Hload.
  destruct (_load_csv_table df new_df Hwf Hload)
    as (date_col & sd & rest & Hsd & Heq & Hdates & Hrest).
  exists date_col, sd, rest. split; [done|]. split; [apply kept_lookup|].
  do 2 (split; [done|]). split.
  - intros c Hc. by destruct (Hrest c Hc).
  - intros v i text Hv Hnum. simpl. by rewrite !list_lookup_fmap, Hv; simpl; rewrite Hnum.
Qed.

Lemma boolean_index_NoDup {A} mask (l : list A) : NoDup l → NoDup (boolean_index mask l).
Proof.
  revert l. induction mask as [|b mask IH]; intros [|x l] Hnd; simpl; try constructor.
  apply NoDup_cons in Hnd as [Hx Hnd]. destruct b; [|by apply IH].
  apply NoDup_cons. split; [|by apply IH].
  intros Hin%list_elem_of_In%boolean_index_In. by apply Hx, list_elem_of_In.
Qed.

Lemma boolean_index_length {A B} mask (l : list A) (k : list B) :
  length l = length k → length (boolean_index mask l) = length (boolean_index mask k).
Proof.
  revert l k. induction mask as [|b mask IH]; intros [|x l] [|y k] Hlen; simpl in *; try done.
  destruct b; simpl; rewrite (IH l k); done || lia.
Qed.

Lemma series_select_length mask s (idx : list Z) :
  length (cells s) = length idx →
  length (cells (series_select mask s)) = length (boolean_index mask idx).
Proof. intros Hlen. rewrite cells_series_select. by apply boolean_index_length. Qed.

Lemma to_numeric_coerce_float s : ∃ v, DataLoader.to_numeric_coerce s = FloatSeries v.
Proof. destruct s; by eexists. Qed.

Lemma to_numeric_coerce_length s :
  length (cells (DataLoader.to_numeric_coerce s)) = length (cells s).
Proof. destruct s; simpl; by rewrite !length_map. Qed.

(** A load that succeeds gives a table as the queries expect it: distinct
    row labels, columns as long as the index, the timestamps first under the
    name [date], and float columns after. *)
Lemma _load_csv_normalized (df new_df : DataFrame) :
  well_formed df →
  DataLoader._load_csv df = Return new_df →
  well_formed new_df
  ∧ first_column new_df = Return "date"
  ∧ (∃ ds, getitem new_df "date" = Return (DatetimeSeries ds) ∧ Forall is_Some ds)
  ∧ ∀ col s, col ≠ "date" → getitem new_df col = Return s → ∃ vals, s = FloatSeries vals.
Proof.
  intros Hwf Hload.
  destruct (_load_csv_table df new_df Hwf Hload)
    as (date_col & sd & rest & Hsd & -> & (ds & Hds & Hall) & Hrest).
  assert (∀ raw s, In (raw, s) (series df) → length (cells s) = length (index df)) as Hlen.
  { intros raw s Hin. destruct Hwf as [_ Hcols]. rewrite Forall_forall in Hcols.
    apply (Hcols (raw, s)). by apply list_elem_of_In. }
  split; [split|split; [done|split]].
  - apply boolean_index_NoDup, Hwf.
  - cbn [index series]. constructor.
    + cbn [snd]. apply series_select_length.
      unfold DataLoader.to_datetime_coerce. simpl. rewrite !length_map. by eapply Hlen.
    + apply Forall_forall. intros c Hc%list_elem_of_In.
      destruct (Hrest c Hc) as (_ & raw & s & Hin & ->).
      apply series_select_length. rewrite to_numeric_coerce_length. by eapply Hlen.
  - exists ds. split; [|done]. rewrite <- Hds. apply getitem_head.
    intros c Hc. by destruct (Hrest c Hc).
  - intros col s Hne Hget%getitem_In. cbn [series] in Hget.
    destruct Hget as [[= <- _] | Hin]; [done|].
    destruct (Hrest _ Hin) as (_ & raw & s' & _ & Heq). cbn [snd] in Heq. subst s.
    destruct (to_numeric_coerce_float s') as [v ->]. by eexists.
Qed.

End loaded.

Lemma raw_frame_well_formed : well_formed raw_frame.
Proof.
  split; [|by repeat constructor].
  apply (bool_decide_unpack _). by vm_compute.
Defined.

Lemma _load_csv_rows_witness :
  ∃ date_col sd,
    In (date_col, sd) (series raw_frame)
    ∧ index loaded_frame = boolean_index (kept raw_frame sd) (index raw_frame).
Proof.
  destruct (_load_csv_rows (H := sample_pandas) raw_frame loaded_frame)
    as (date_col & sd & rest & Hin & _ & Heq & _);
    [apply raw_frame_well_formed | by vm_compute |].
  exists date_col, sd. split; [done|]. by rewrite Heq.
Defined.

(** ** The date column comes first *)

Section first_column.
Context `{Pandas}.



End first_column.

(** On a table whose first column is the electricity column, the "date" of
    the minimum is an electricity value. *)
Example swapped_frame_minimum :
  DataAnalysis.get_minimum (Some swapped_frame) "2024-12-01" "2024-12-03" "electricity"
  = Return (Some (Float 5, Float 5)).
Proof. by vm_compute. Qed.



(** * Further properties of the code *)

(** ** Queries without a usable table *)

Section unusable.
Context `{Pandas}.

Lemma _filter_data_by_date_no_date df start end_ consumption_type e :
  getitem df "date" = Raise e →
  ∃ e', DataAnalysis._filter_data_by_date (Some df) start end_ consumption_type = Raise e'.
Proof.
  intros Hdate. simpl.
  destruct (DataAnalysis.resolve_column _ _) as [col|e0]; simpl; [|by eexists].
  rewrite Hdate. by eexists.
Qed.

(** X1.  Before any load ([self.data] is [None]) and on a table without a
    column named [date], every query answers NoData, whatever the range, the
    kind and the threshold. *)
Theorem queries_without_dated_table (data : option DataFrame)
    (start_date end_date consumption_type : string) (threshold : Q) :
  data = None ∨ (∃ df e, data = Some df ∧ getitem df "date" = Raise e) →
  DataAnalysis.get_minimum data start_date end_date consumption_type = Return None
  ∧ DataAnalysis.get_maximum data start_date end_date consumption_type = Return None
  ∧ DataAnalysis.get_average data start_date end_date consumption_type = Return None
  ∧ DataAnalysis.count_days_above_threshold data start_date end_date threshold
      consumption_type = Return None
  ∧ DataAnalysis.count_days_below_threshold data start_date end_date threshold
      consumption_type = Return None
  ∧ DataAnalysis.get_data_for_period data start_date end_date consumption_type
    = Return None.
Proof.
  intros Hdata.
  assert (∀ start end_, ∃ e,
            DataAnalysis._filter_data_by_date data start end_ consumption_type = Raise e)
    as Hfilter.
  { intros start end_. destruct Hdata as [-> | (df & e & -> & Hdate)]; [by eexists|].
    by eapply _filter_data_by_date_no_date. }
  unfold DataAnalysis.get_minimum, DataAnalysis.get_maximum, DataAnalysis.get_average,
    DataAnalysis.count_days_above_threshold, DataAnalysis.count_days_below_threshold,
    DataAnalysis.get_data_for_period.
  destruct (DataAnalysis._validate_date_range start_date end_date) as [[start end_]|e];
    [|done].
  destruct (Hfilter start end_) as [e He]. rewrite !bind_Return.
  by rewrite He.
Qed.

End unusable.

Lemma queries_without_dated_table_witness :
  DataAnalysis.get_average None "2024-12-01" "2024-12-03" "electricity" = Return None
  ∧ DataAnalysis.get_minimum
      (Some {| index := [0]; series := [("electricity_consumption", FloatSeries [Some 1%Q])] |})
      "2024-12-01" "2024-12-03" "electricity" = Return None.
Proof.
  split.
  - destruct (queries_without_dated_table (H := sample_pandas) None
                "2024-12-01" "2024-12-03" "electricity" 0%Q) as (_ & _ & Havg & _);
      [by left | exact Havg].
  - destruct (queries_without_dated_table (H := sample_pandas)
                (Some {| index := [0];
                         series := [("electricity_consumption", FloatSeries [Some 1%Q])] |})
                "2024-12-01" "2024-12-03" "electricity" 0%Q) as (Hmin & _).
    + right. eexists _, (KeyError "date"). split; reflexivity.
    + exact Hmin.
Defined.

(** ** How the queries agree with one another *)

Lemma filter_length_le {A} (f g : A → bool) l :
  (∀ x, In x l → f x = true → g x = true) →
  (length (List.filter f l) ≤ length (List.filter g l))%nat.
Proof.
  induction l as [|x l IH]; intros Himp; simpl; [done|].
  assert (length (List.filter f l) ≤ length (List.filter g l))%nat as Hle
    by (apply IH; intros; apply Himp; [by right | done]).
  destruct (f x) eqn:Hf; simpl.
  - rewrite (Himp x (or_introl eq_refl) Hf). simpl. lia.
  - destruct (g x); simpl; lia.
Qed.

Lemma filter_length_disjoint {A} (f g h : A → bool) l :
  (∀ x, f x = true → g x = false) →
  (∀ x, f x = true → h x = true) →
  (∀ x, g x = true → h x = true) →
  (length (List.filter f l) + length (List.filter g l) ≤ length (List.filter h l))%nat.
Proof.
  intros Hfg Hfh Hgh. induction l as [|x l IH]; simpl; [done|].
  destruct (f x) eqn:Hf; simpl.
  - rewrite (Hfg x Hf), (Hfh x Hf). simpl. lia.
  - destruct (g x) eqn:Hg; simpl; [rewrite (Hgh x Hg); simpl; lia|].
    destruct (h x); simpl; lia.
Qed.

Lemma qualifies_mono start end_ (p q : Q → bool) r :
  (∀ x, p x = true → q x = true) →
  qualifies start end_ p r = true → qualifies start end_ q r = true.
Proof.
  intros Hpq. unfold qualifies. intros [Hin Hp]%andb_true_iff.
  rewrite Hin. simpl. destruct (snd r); simpl in *; auto.
Qed.

Lemma keep_rows_length dates start end_ (vals : list (option Q)) (idx : list Z) :
  length idx = length dates → length idx = length vals →
  length (boolean_index (keep_mask dates start end_ (FloatSeries vals)) idx)
  = length (qualifying start end_ (fun _ => true) dates vals).
Proof.
  unfold keep_mask, range_mask, qualifying, qualifies. simpl. revert idx vals.
  induction dates as [|d dates IH]; intros [|i idx] [|v vals] Hd Hv; simpl in *; try done.
  destruct (timestamp_le start d && timestamp_le d end_); simpl; [|apply IH; lia].
  destruct v as [x|]; simpl; [f_equal|]; apply IH; lia.
Qed.

Section agreement.
Context `{Pandas}.
Variables (df : DataFrame) (start_date end_date consumption_type : string).
Variables (start end_ : option Z) (col c0 : string).
Variables (dates : list (option Z)) (vals : list (option Q)) (s0 : Series).

Hypothesis Hwf : well_formed df.
Hypothesis Hrange :
  DataAnalysis._validate_date_range start_date end_date = Return (start, end_).
Hypothesis Hcol :
  DataAnalysis.resolve_column (columns df) consumption_type = Return col.
Hypothesis Hdate : getitem df "date" = Return (DatetimeSeries dates).
Hypothesis Hvals : getitem df col = Return (FloatSeries vals).
Hypothesis Hc0 : first_column df = Return c0.
Hypothesis Hs0 : getitem df c0 = Return s0.

(** X2.  The minimum is a value exactly when the maximum is one, and the
    minimum is then not larger than the maximum. *)
Theorem minimum_and_maximum_together :
  (∀ v d,
     DataAnalysis.get_minimum (Some df) start_date end_date consumption_type
       = Return (Some (v, d)) →
     ∃ vmin vmax dmax,
       v = Float vmin
       ∧ DataAnalysis.get_maximum (Some df) start_date end_date consumption_type
         = Return (Some (Float vmax, dmax))
       ∧ (vmin <= vmax)%Q)
  ∧ (∀ v d,
       DataAnalysis.get_maximum (Some df) start_date end_date consumption_type
         = Return (Some (v, d)) →
       ∃ vmax vmin dmin,
         v = Float vmax
         ∧ DataAnalysis.get_minimum (Some df) start_date end_date consumption_type
           = Return (Some (Float vmin, dmin))
         ∧ (vmin <= vmax)%Q).
Proof.
  destruct (get_minimum_rows df start_date end_date consumption_type start end_ col c0
              dates vals s0 Hwf Hrange Hcol Hdate Hvals Hc0 Hs0)
    as [[Hno Hnone] | (i & vmin & x & Hi & Hv & _ & Hleast & Hmin)];
    destruct (get_maximum_rows df start_date end_date consumption_type start end_ col c0
                dates vals s0 Hwf Hrange Hcol Hdate Hvals Hc0 Hs0)
      as [[Hno' Hnone'] | (i' & vmax & x' & Hi' & Hv' & _ & Hmost & Hmax)].
  - split; intros v d Hq; congruence.
  - by destruct (Hno i' vmax).
  - by destruct (Hno' i vmin).
  - split; intros v d Hq.
    + rewrite Hmin in Hq. injection Hq as <- <-. exists vmin, vmax, x'.
      split; [done|]. split; [done|]. by apply (Hmost i vmin).
    + rewrite Hmax in Hq. injection Hq as <- <-. exists vmax, vmin, x.
      split; [done|]. split; [done|]. by apply (Hmost i vmin).
Qed.

(** X3.  Raising the threshold never raises the number of days above it
    and never lowers the number of days below it. *)
Theorem counts_monotone_in_threshold (t1 t2 : Q) :
  (t1 <= t2)%Q →
  (∀ n1 n2,
     DataAnalysis.count_days_above_threshold (Some df) start_date end_date t1
       consumption_type = Return (Some n1) →
     DataAnalysis.count_days_above_threshold (Some df) start_date end_date t2
       consumption_type = Return (Some n2) →
     0 ≤ n2 ≤ n1)
  ∧ (∀ n1 n2,
       DataAnalysis.count_days_below_threshold (Some df) start_date end_date t1
         consumption_type = Return (Some n1) →
       DataAnalysis.count_days_below_threshold (Some df) start_date end_date t2
         consumption_type = Return (Some n2) →
       0 ≤ n1 ≤ n2).
Proof.
  intros Ht.
  rewrite !(count_days_above_threshold_rows df start_date end_date consumption_type
              start end_ col dates vals) by done.
  rewrite !(count_days_below_threshold_rows df start_date end_date consumption_type
              start end_ col dates vals) by done.
  destruct (empty _); [by split|].
  split; intros n1 n2 [= <-] [= <-]; (split; [lia|]); apply Nat2Z.inj_le;
    apply filter_length_le; intros r _; apply qualifies_mono; intros x;
    rewrite !Qlt_bool_iff; intros Hx.
  - by eapply Qle_lt_trans.
  - by eapply Qlt_le_trans.
Qed.

(** X4.  When the extraction answers the table of the resolved column, the
    two counts are numbers, and together they do not exceed the number of rows
    of that table. *)
Theorem counts_within_extraction (threshold : Q) :
  has_row (keep_mask dates start end_ (FloatSeries vals)) →
  ∃ r above below,
    DataAnalysis.get_data_for_period (Some df) start_date end_date consumption_type
      = Return (Some r)
    ∧ DataAnalysis.count_days_above_threshold (Some df) start_date end_date threshold
        consumption_type = Return (Some above)
    ∧ DataAnalysis.count_days_below_threshold (Some df) start_date end_date threshold
        consumption_type = Return (Some below)
    ∧ 0 ≤ above ∧ 0 ≤ below
    ∧ above + below ≤ Z.of_nat (length (index r)).
Proof.
  intros Hrow.
  destruct (get_data_for_period_rows df start_date end_date consumption_type start end_
              col c0 dates vals s0 Hwf Hrange Hcol Hdate Hvals Hc0 Hs0) as (Hsome & _).
  rewrite (Hsome Hrow).
  rewrite (count_days_above_threshold_rows df start_date end_date consumption_type
             start end_ col dates vals) by done.
  rewrite (count_days_below_threshold_rows df start_date end_date consumption_type
             start end_ col dates vals) by done.
  destruct (some_row_or_none df start end_ dates Hwf Hdate) as [[_ Hno] | [-> _]].
  { destruct Hrow as [i Hi]. apply keep_mask_lookup in Hi as [Hi _]. by destruct (Hno i). }
  do 3 eexists. do 3 (split; [done|]). split; [lia|]. split; [lia|].
  unfold subtable. cbn [index].
  rewrite keep_rows_length.
  - rewrite <- Nat2Z.inj_add. apply Nat2Z.inj_le.
    apply filter_length_disjoint.
    + intros r Hr. destruct (qualifies start end_ (fun x => Qlt_bool x threshold) r) eqn:Hb;
        [|done]. destruct r as [dr vr].
      apply qualifies_iff in Hr as (?&?&?&x&?&->&?&?&?&Hx).
      apply qualifies_iff in Hb as (?&?&?&x'&?&[= <-]&?&?&?&Hx').
      apply Qlt_bool_iff in Hx, Hx'. by destruct (Qlt_irrefl x); eapply Qlt_trans.
    + intros r. by apply qualifies_mono.
    + intros r. by apply qualifies_mono.
  - rewrite <- (range_mask_length df start end_ dates Hwf Hdate).
    unfold range_mask. by rewrite length_map.
  - symmetry. by eapply vals_length.
Qed.

(** X5.  The value and the first-column cell that the minimum returns, and
    those that the maximum returns, stand side by side in a row of the table
    that the extraction returns for the same range and kind. *)
Theorem extremes_are_rows_of_extraction v d :
  DataAnalysis.get_minimum (Some df) start_date end_date consumption_type
    = Return (Some (v, d))
  ∨ DataAnalysis.get_maximum (Some df) start_date end_date consumption_type
    = Return (Some (v, d)) →
  ∃ idx s1 s2 k,
    DataAnalysis.get_data_for_period (Some df) start_date end_date consumption_type
      = Return (Some {| index := idx; series := [(c0, s1); (col, s2)] |})
    ∧ cells s1 !! k = Some d ∧ cells s2 !! k = Some v.
Proof.
  intros Hext.
  assert (∃ i x, in_range dates start end_ i ∧ vals !! i = Some (Some x)
                 ∧ v = Float x ∧ cells s0 !! i = Some d) as (i & x & Hi & Hv & -> & Hd).
  { destruct Hext as [Hmin | Hmax].
    - destruct (get_minimum_rows df start_date end_date consumption_type start end_ col c0
                  dates vals s0 Hwf Hrange Hcol Hdate Hvals Hc0 Hs0)
        as [[_ Hnone] | (i & x & y & Hi & Hv & Hy & _ & Hsome)]; [congruence|].
      rewrite Hsome in Hmin. injection Hmin as <- <-. by exists i, x.
    - destruct (get_maximum_rows df start_date end_date consumption_type start end_ col c0
                  dates vals s0 Hwf Hrange Hcol Hdate Hvals Hc0 Hs0)
        as [[_ Hnone] | (i & x & y & Hi & Hv & Hy & _ & Hsome)]; [congruence|].
      rewrite Hsome in Hmax. injection Hmax as <- <-. by exists i, x. }
  set (keep := keep_mask dates start end_ (FloatSeries vals)).
  assert (keep !! i = Some true) as Hk by (apply keep_mask_lookup; split; [done | by exists x]).
  destruct (get_data_for_period_rows df start_date end_date consumption_type start end_
              col c0 dates vals s0 Hwf Hrange Hcol Hdate Hvals Hc0 Hs0) as (Hsome & _).
  rewrite Hsome by (by exists i). unfold subtable.
  destruct (in_range_label df start end_ dates Hwf Hdate i Hi) as [label Hlabel].
  assert (length keep = length (index df)) as Hlen by (by eapply keep_mask_length).
  destruct (position_boolean_index keep (index df) (cells s0) i label d)
    as (k & Hpos & Hcell); try done; [apply Hwf|].
  destruct (position_boolean_index keep (index df) (cells (FloatSeries vals)) i label (Float x))
    as (k' & Hpos' & Hcell'); try done; [apply Hwf | simpl; by rewrite list_lookup_fmap, Hv|].
  assert (k' = k) as -> by congruence.
  exists (boolean_index keep (index df)), (series_select keep s0),
    (series_select keep (FloatSeries vals)), k.
  by rewrite !cells_series_select.
Qed.

End agreement.

Lemma minimum_and_maximum_together_witness :
  ∃ vmin vmax dmax,
    Float 5 = Float vmin
    ∧ DataAnalysis.get_maximum (Some sample_frame) "2024-12-01" "2024-12-03" "electricity"
      = Return (Some (Float vmax, dmax))
    ∧ (vmin <= vmax)%Q.
Proof.
  destruct (minimum_and_maximum_together (H := sample_pandas) sample_frame
              "2024-12-01" "2024-12-03" "electricity"
              (Some (day 2024 12 1)) (Some (day 2024 12 4 - Timedelta_seconds 1))
              "electricity_consumption" "date"
              [Some (day 2024 12 1); Some (day 2024 12 2); Some (day 2024 12 3)]
              [Some 10%Q; Some 5%Q; Some 20%Q]
              (DatetimeSeries [Some (day 2024 12 1); Some (day 2024 12 2);
                               Some (day 2024 12 3)])
              sample_frame_well_formed) as [Hmin _]; [by vm_compute .. |].
  apply (Hmin (Float 5) (Timestamp (day 2024 12 2))). by vm_compute.
Defined.

Lemma counts_monotone_in_threshold_witness :
  DataAnalysis.count_days_above_threshold (Some sample_frame) "2024-12-01" "2024-12-03"
    5 "electricity" = Return (Some 2)
  ∧ DataAnalysis.count_days_above_threshold (Some sample_frame) "2024-12-01" "2024-12-03"
      10 "electricity" = Return (Some 1)
  ∧ 0 ≤ 1 ≤ 2.
Proof.
  destruct (counts_monotone_in_threshold (H := sample_pandas) sample_frame
              "2024-12-01" "2024-12-03" "electricity"
              (Some (day 2024 12 1)) (Some (day 2024 12 4 - Timedelta_seconds 1))
              "electricity_consumption"
              [Some (day 2024 12 1); Some (day 2024 12 2); Some (day 2024 12 3)]
              [Some 10%Q; Some 5%Q; Some 20%Q]) with (t1 := 5%Q) (t2 := 10%Q)
    as [Habove _]; [by vm_compute .. |].
  split; [by vm_compute|]. split; [by vm_compute|].
  apply Habove; by vm_compute.
Defined.

Lemma counts_within_extraction_witness :
  ∃ r above below,
    DataAnalysis.get_data_for_period (Some sample_frame) "2024-12-01" "2024-12-03" "gas"
      = Return (Some r)
    ∧ DataAnalysis.count_days_above_threshold (Some sample_frame) "2024-12-01" "2024-12-03"
        5 "gas" = Return (Some above)
    ∧ DataAnalysis.count_days_below_threshold (Some sample_frame) "2024-12-01" "2024-12-03"
        5 "gas" = Return (Some below)
    ∧ 0 ≤ above ∧ 0 ≤ below
    ∧ above + below ≤ Z.of_nat (length (index r)).
Proof.
  apply (counts_within_extraction (H := sample_pandas) sample_frame
           "2024-12-01" "2024-12-03" "gas"
           (Some (day 2024 12 1)) (Some (day 2024 12 4 - Timedelta_seconds 1))
           "gas_consumption" "date"
           [Some (day 2024 12 1); Some (day 2024 12 2); Some (day 2024 12 3)]
           [Some 7%Q; None; Some 3%Q]
           (DatetimeSeries [Some (day 2024 12 1); Some (day 2024 12 2); Some (day 2024 12 3)])
           sample_frame_well_formed);
    [by vm_compute .. | by exists 0%nat].
Defined.

Lemma extremes_are_rows_of_extraction_witness :
  ∃ idx s1 s2 k,
    DataAnalysis.get_data_for_period (Some sample_frame) "2024-12-01" "2024-12-03"
      "electricity"
      = Return (Some {| index := idx;
                        series := [("date", s1); ("electricity_consumption", s2)] |})
    ∧ cells s1 !! k = Some (Timestamp (day 2024 12 2)) ∧ cells s2 !! k = Some (Float 5).
Proof.
  apply (extremes_are_rows_of_extraction (H := sample_pandas) sample_frame
           "2024-12-01" "2024-12-03" "electricity"
           (Some (day 2024 12 1)) (Some (day 2024 12 4 - Timedelta_seconds 1))
           "electricity_consumption" "date"
           [Some (day 2024 12 1); Some (day 2024 12 2); Some (day 2024 12 3)]
           [Some 10%Q; Some 5%Q; Some 20%Q]
           (DatetimeSeries [Some (day 2024 12 1); Some (day 2024 12 2); Some (day 2024 12 3)])
           sample_frame_well_formed);
    [by vm_compute .. | left; by vm_compute].
Defined.

(** ** The columns of a loaded table *)

Lemma filter_columns (l : list (string * Series)) name :
  List.filter (fun c => String.eqb c name) (map fst l)
  = map fst (List.filter (fun c => String.eqb (fst c) name) l).
Proof.
  induction l as [|[n s] l IH]; simpl; [done|].
  destruct (String.eqb n name); simpl; by rewrite IH.
Qed.

Lemma getitem_Return_columns df name :
  (∃ s, getitem df name = Return s) ↔
  List.filter (fun c => String.eqb c name) (columns df) = [name].
Proof.
  unfold getitem, columns. rewrite filter_columns.
  destruct (List.filter _ (series df)) as [|[n s] [|c l]] eqn:Hf; simpl.
  - split; [by intros [? ?] | done].
  - apply filter_head_In in Hf as [_ Hn]. simpl in Hn. apply String.eqb_eq in Hn as ->.
    split; [done | by exists s].
  - split; [by intros [? ?] | done].
Qed.

Lemma once_NoDup (l : list string) :
  (∀ x, In x l → List.filter (fun c => String.eqb c x) l = [x]) → NoDup l.
Proof.
  induction l as [|a l IH]; intros Honce; [constructor|].
  assert (¬ In a l) as Ha.
  { intros Hin. specialize (Honce a (or_introl eq_refl)). simpl in Honce.
    rewrite String.eqb_refl in Honce. injection Honce as Hnil.
    rewrite filter_nil_none in Hnil. specialize (Hnil a Hin).
    by rewrite String.eqb_refl in Hnil. }
  apply NoDup_cons. split; [by rewrite list_elem_of_In|].
  apply IH. intros x Hx. specialize (Honce x (or_intror Hx)). simpl in Honce.
  destruct (String.eqb a x) eqn:Hax; [|done].
  apply String.eqb_eq in Hax as ->. done.
Qed.

Section columns_of_load.
Context `{Pandas}.

Lemma columns_setitem df name s :
  In name (columns df) → columns (DataLoader.setitem df name s) = columns df.
Proof.
  intros Hin%label_in_In. unfold DataLoader.setitem. rewrite Hin. unfold columns. simpl.
  rewrite map_map. apply map_ext. intros [n s']. simpl.
  destruct (String.eqb n name) eqn:E; [by apply String.eqb_eq in E | done].
Qed.

Lemma getitem_columns df name s : getitem df name = Return s → In name (columns df).
Proof. intros Hget%getitem_In. apply columns_In. by exists s. Qed.

Lemma convert_columns_getitem names df df' :
  DataLoader.convert_columns names df = Return df' →
  columns df' = columns df ∧ ∀ n, In n names → ∃ s, getitem df n = Return s.
Proof.
  revert df. induction names as [|col names IH]; intros df Hconv; simpl in Hconv.
  - apply Return_inj in Hconv as ->. by split.
  - apply bind_Return_inv in Hconv as (s & Hget & Hconv).
    destruct (IH _ Hconv) as [Hcols Hnames].
    rewrite (columns_setitem _ _ _ (getitem_columns _ _ _ Hget)) in Hcols.
    split; [done|]. intros n [<- | Hn]; [by exists s|].
    apply getitem_Return_columns. rewrite <- (columns_setitem df col
      (DataLoader.to_numeric_coerce s) (getitem_columns _ _ _ Hget)).
    by apply getitem_Return_columns, Hnames.
Qed.

Lemma drop_flagged_columns df new_df r :
  DataLoader.drop_flagged df new_df = Return r → columns r = columns new_df.
Proof.
  unfold DataLoader.drop_flagged. destruct (label_in _ _).
  - intros (flag & _ & Hret)%bind_Return_inv. apply Return_inj in Hret as <-.
    apply columns_frame_select.
  - by intros ->%Return_inj.
Qed.

(** The names that the renaming gives to the columns kept. *)
Lemma columns_rename_getitems df names (m : gmap string string) :
  columns (DataLoader.rename (DataLoader.getitems df names) m)
  = map (fun c => default c (m !! c))
        (flat_map (fun n => List.filter (fun c => String.eqb c n) (columns df)) names).
Proof.
  unfold columns, DataLoader.rename, DataLoader.getitems. simpl. rewrite map_map. simpl.
  induction names as [|n names IH]; simpl; [done|].
  rewrite !map_app, IH. f_equal. rewrite filter_columns, map_map. done.
Qed.

Lemma filter_named cols n :
  In n cols →
  ∃ l, List.filter (fun c => String.eqb c n) cols = n :: l ∧ (l = [] ∨ ∃ l', l = n :: l').
Proof.
  intros Hin.
  destruct (List.filter _ cols) as [|a [|b l]] eqn:Hf.
  - rewrite filter_nil_none in Hf. specialize (Hf n Hin). by rewrite String.eqb_refl in Hf.
  - apply filter_head_In in Hf as [_ ->%String.eqb_eq]. exists []. by split; [|left].
  - assert (In a (List.filter (fun c => String.eqb c n) cols)
            ∧ In b (List.filter (fun c => String.eqb c n) cols)) as [Ha Hb]
      by (rewrite Hf; split; [by left | by right; left]).
    apply filter_In in Ha as [_ ->%String.eqb_eq], Hb as [_ ->%String.eqb_eq].
    exists (n :: l). split; [done | right; by exists l].
Qed.

Lemma flat_named_NoDup cols (f : string → string) names :
  (∀ n, In n names → In n cols) →
  NoDup (map f (flat_map (fun n => List.filter (fun c => String.eqb c n) cols) names)) →
  flat_map (fun n => List.filter (fun c => String.eqb c n) cols) names = names.
Proof.
  induction names as [|n names IH]; intros Hin Hnd; simpl in *; [done|].
  rewrite map_app in Hnd. apply NoDup_app in Hnd as (Hn & _ & Hrest).
  destruct (filter_named cols n) as (l & Hl & Hcase); [by apply Hin; left|].
  rewrite Hl in Hn |- *. destruct Hcase as [-> | [l' ->]].
  - simpl. f_equal. apply IH; [|done]. intros n' Hn'. apply Hin. by right.
  - simpl in Hn. apply NoDup_cons in Hn as [Hnotin _]. destruct Hnotin. by left.
Qed.

Lemma NoDup_head_twice {A} (a : A) l : ¬ NoDup (a :: a :: l).
Proof. intros [Hnotin _]%NoDup_cons. apply Hnotin. by left. Qed.

Lemma NoDup_second_twice {A} (a b : A) l : ¬ NoDup (a :: b :: b :: l).
Proof. intros [_ Hnd]%NoDup_cons. by apply NoDup_head_twice in Hnd. Qed.

(** The names of the frame that goes into the conversions, when they are
    distinct and [date] comes first. *)
Lemma keep_and_rename_shape df date_col elec_col gas_col new_df :
  DataLoader.keep_and_rename df date_col elec_col gas_col = Some new_df →
  NoDup (columns new_df) → head (columns new_df) = Some "date" →
  columns new_df = ["date"; "electricity_consumption"]
  ∨ columns new_df = ["date"; "gas_consumption"]
  ∨ columns new_df = ["date"; "electricity_consumption"; "gas_consumption"].
Proof.
  unfold DataLoader.keep_and_rename. lazy zeta.
  set (K := List.filter _ _).
  assert (∀ n, In n K → In n (columns df)) as HK
    by (by intros n [_ Hn%label_in_In]%filter_In).
  destruct (_ <? _)%nat eqn:Hlen; [done|]. intros [= <-].
  rewrite columns_rename_getitems. intros Hnd.
  rewrite (flat_named_NoDup _ _ _ HK Hnd) in Hnd |- *. clear HK.
  revert Hlen Hnd. unfold K, DataLoader.assign_if.
  destruct (truthy_cases elec_col) as [-> | [x ->]],
           (truthy_cases gas_col) as [-> | [y ->]];
    cbn [app List.filter];
    repeat match goal with |- context [label_in ?c (columns df)] =>
             destruct (label_in c (columns df)) end;
    cbn [length map Nat.ltb Nat.leb]; try done;
    rewrite ?lookup_insert, ?lookup_singleton;
    repeat case_decide; subst; cbn [default head];
    intros _ Hnd Hhd; try done;
    try (by apply NoDup_second_twice in Hnd);
    try (by apply NoDup_head_twice in Hnd);
    auto.
Qed.

End columns_of_load.

Section loaded_columns.
Context `{Pandas}.

(** What a load that succeeds has gone through: the columns found, the frame
    kept from them, and its names, which are those of the table returned. *)
Lemma _load_csv_kept df new_df :
  DataLoader._load_csv df = Return new_df →
  ∃ date_col elec_col gas_col df0,
    DataLoader.find_date_col df = Return date_col
    ∧ DataLoader.find_consumption_cols df = (elec_col, gas_col)
    ∧ DataLoader.keep_and_rename df date_col elec_col gas_col = Some df0
    ∧ columns new_df = columns df0
    ∧ NoDup (columns df0) ∧ head (columns df0) = Some "date".
Proof.
  unfold DataLoader._load_csv. intros Hload%try_except_Raise_inv.
  destruct (_ <? _)%nat; [done|].
  apply bind_Return_inv in Hload as (date_col & Hfind & Hload).
  destruct (DataLoader.find_consumption_cols df) as [elec_col gas_col] eqn:Hcons.
  destruct (DataLoader.keep_and_rename _ _ _ _) as [df0|] eqn:Hkeep; [|done].
  apply bind_Return_inv in Hload as (df1 & (s & Hget & ->)%convert_dates_coerce & Hload).
  apply bind_Return_inv in Hload as (df2 & Hdrop & Hload).
  apply bind_Return_inv in Hload as (df3 & Hconv & Hflag).
  apply drop_flagged_columns in Hflag.
  apply convert_columns_getitem in Hconv as [Hcols3 Honce].
  unfold dropna in Hdrop. apply bind_Return_inv in Hdrop as (sd & _ & Hret).
  apply Return_inj in Hret as <-.
  pose proof (getitem_columns _ _ _ Hget) as Hdate.
  rewrite columns_frame_select, columns_setitem in Hcols3, Honce by done.
  exists date_col, elec_col, gas_col, df0. do 3 (split; [done|]).
  split; [congruence|].
  destruct (keep_and_rename_date _ _ _ _ _ _ (find_date_col_In _ _ Hfind) Hkeep Hget)
    as (_ & rest & Hser & _).
  assert (columns df0 = "date" :: map fst rest) as Hc by (unfold columns; by rewrite Hser).
  split; [|by rewrite Hc].
  apply once_NoDup. intros x Hx. rewrite Hc in Hx. destruct Hx as [<- | Hx].
  - apply getitem_Return_columns. by exists s.
  - destruct (Honce x) as [sx Hsx]; [by rewrite Hc|].
    assert (∃ s', getitem (frame_select (notna sd)
              (DataLoader.setitem df0 "date" (DataLoader.to_datetime_coerce s))) x
              = Return s') as Hex by (by exists sx).
    apply getitem_Return_columns in Hex.
    by rewrite columns_frame_select, columns_setitem in Hex.
Qed.

(** X6.  A load that succeeds returns a table with the column [date]
    first, then [electricity_consumption], [gas_consumption] or both in that
    order, and no other column. *)
Theorem _load_csv_columns (df new_df : DataFrame) :
  DataLoader._load_csv df = Return new_df →
  columns new_df = ["date"; "electricity_consumption"]
  ∨ columns new_df = ["date"; "gas_consumption"]
  ∨ columns new_df = ["date"; "electricity_consumption"; "gas_consumption"].
Proof.
  intros Hload.
  apply _load_csv_kept in Hload
    as (date_col & elec_col & gas_col & df0 & _ & _ & Hkeep & -> & Hnd & Hhd).
  by eapply keep_and_rename_shape.
Qed.

End loaded_columns.

Lemma _load_csv_columns_witness :
  columns loaded_frame = ["date"; "electricity_consumption"]
  ∨ columns loaded_frame = ["date"; "gas_consumption"]
  ∨ columns loaded_frame = ["date"; "electricity_consumption"; "gas_consumption"].
Proof.
  apply (_load_csv_columns (H := sample_pandas) raw_frame). by vm_compute.
Defined.

(** ** Files that the loader rejects *)

Lemma try_except_Raise {A} (c : outcome A) e0 e :
  try_except c (fun _ => Raise e0) = Raise e → e = e0.
Proof. destruct c; simpl; congruence. Qed.

Lemma filter_all {A} (f : A → bool) l : (∀ x, In x l → f x = true) → List.filter f l = l.
Proof.
  induction l as [|a l IH]; intros Hall; simpl; [done|].
  rewrite (Hall a) by (by left). f_equal. apply IH. intros x Hx. apply Hall. by right.
Qed.

Section rejected.
Context `{Pandas}.

Lemma truthy_In col c : In c (DataLoader.truthy col) → col = Some c.
Proof.
  destruct col as [c'|]; simpl; [|done].
  destruct (String.eqb c' ""); [done|]. by intros [-> | []].
Qed.

Lemma find_consumption_cols_In df elec_col gas_col c :
  DataLoader.find_consumption_cols df = (elec_col, gas_col) →
  In c (DataLoader.truthy elec_col ++ DataLoader.truthy gas_col) → In c (columns df).
Proof.
  unfold DataLoader.find_consumption_cols. intros Hfind Hc.
  assert (elec_col = Some c ∨ gas_col = Some c) as Hsome.
  { apply in_app_or in Hc as [Hc%truthy_In | Hc%truthy_In]; [by left | by right]. }
  assert (∀ i, DataLoader.numeric_cols df !! i = Some c → In c (columns df)) as Hnum.
  { intros i Hi. apply list_elem_of_lookup_2, list_elem_of_In, numeric_cols_In in Hi as [v Hv].
    apply columns_In. by eexists. }
  destruct (DataLoader.first_candidate _ DataLoader.elec_patterns _) as [e|] eqn:He,
           (DataLoader.first_candidate _ DataLoader.gas_patterns _) as [g|] eqn:Hg;
    injection Hfind as <- <-; destruct Hsome as [Heq | Heq]; try done;
    try (injection Heq as <-; by eapply first_candidate_In);
    by eapply Hnum.
Qed.

(** When the load has kept distinct names with [date] first, the date
    column is not also a consumption column, and electricity and gas are not
    the same column. *)
Lemma keep_and_rename_distinct df date_col elec_col gas_col new_df :
  DataLoader.keep_and_rename df date_col elec_col gas_col = Some new_df →
  NoDup (columns new_df) → head (columns new_df) = Some "date" →
  (∀ c, In c (date_col :: DataLoader.truthy elec_col ++ DataLoader.truthy gas_col) →
        In c (columns df)) →
  ¬ In date_col (DataLoader.truthy elec_col ++ DataLoader.truthy gas_col)
  ∧ ∀ c, DataLoader.truthy elec_col = [c] → DataLoader.truthy gas_col = [c] → False.
Proof.
  unfold DataLoader.keep_and_rename. lazy zeta.
  set (K := List.filter _ _).
  assert (∀ n, In n K → In n (columns df)) as HK
    by (by intros n [_ Hn%label_in_In]%filter_In).
  destruct (_ <? _)%nat eqn:Hlen; [done|]. intros [= <-].
  rewrite columns_rename_getitems. intros Hnd.
  rewrite (flat_named_NoDup _ _ _ HK Hnd) in Hnd |- *. clear HK Hlen.
  intros Hhd Hin. revert Hnd Hhd. unfold K.
  rewrite filter_all by (intros c Hc; by apply label_in_In, Hin).
  clear K. unfold DataLoader.assign_if.
  destruct (truthy_cases elec_col) as [-> | [x ->]],
           (truthy_cases gas_col) as [-> | [y ->]];
    cbn [app map In];
    rewrite ?lookup_insert, ?lookup_singleton;
    repeat case_decide; subst; cbn [default head];
    intros Hnd Hhd; try done;
    try (by apply NoDup_second_twice in Hnd);
    (split; [intuition congruence | intros c; congruence]).
Qed.

(** X7.  The load fails when the column found for the dates is also the
    column found for electricity or for gas, and when one column is found for
    both electricity and gas. *)
Theorem _load_csv_shared_column (df : DataFrame) (date_col : string)
    (elec_col gas_col : option string) :
  DataLoader.find_date_col df = Return date_col →
  DataLoader.find_consumption_cols df = (elec_col, gas_col) →
  In date_col (DataLoader.truthy elec_col ++ DataLoader.truthy gas_col)
  ∨ (∃ c, DataLoader.truthy elec_col = [c] ∧ DataLoader.truthy gas_col = [c]) →
  DataLoader._load_csv df = Raise (ValueError "Invalid file format").
Proof.
  intros Hdate Hcons Hshared.
  destruct (DataLoader._load_csv df) as [new_df|e] eqn:Hload.
  - apply _load_csv_kept in Hload
      as (date_col' & elec_col' & gas_col' & df0 & Hdate' & Hcons' & Hkeep & _ & Hnd & Hhd).
    rewrite Hdate in Hdate'. injection Hdate' as <-.
    rewrite Hcons in Hcons'. injection Hcons' as <- <-.
    destruct (keep_and_rename_distinct _ _ _ _ _ Hkeep Hnd Hhd) as [Hd Hsame].
    + intros c [<- | Hc]; [by apply find_date_col_In | by eapply find_consumption_cols_In].
    + destruct Hshared as [? | (c & He & Hg)]; [done | by destruct (Hsame c)].
  - f_equal. by eapply try_except_Raise.
Qed.

End rejected.

Lemma _load_csv_shared_column_witness :
  DataLoader._load_csv numeric_date_frame = Raise (ValueError "Invalid file format").
Proof.
  apply (_load_csv_shared_column (H := sample_pandas) numeric_date_frame
           "Date" (Some "Date") (Some "value")); [by vm_compute .. |].
  left. by left.
Defined.

(** ** Queries on a loaded table *)

Section queries_on_loaded.
Context `{Pandas}.

(** With [str.lower] leaving the word [date] as it is, the column resolved
    for a query is a column of the table other than [date]. *)
Lemma resolve_column_not_date cols consumption_type col :
  lower "date" = "date" →
  DataAnalysis.resolve_column cols consumption_type = Return col →
  In col cols ∧ col ≠ "date".
Proof.
  intros Hlower. unfold DataAnalysis.resolve_column.
  destruct (String.eqb consumption_type "gas"); [|destruct (String.eqb consumption_type _)].
  - destruct (label_in _ cols) eqn:Hin; [intros [= <-]; by apply label_in_In in Hin|].
    destruct (List.filter _ cols) as [|c l] eqn:Hf; [done|]. intros [= <-].
    apply filter_head_In in Hf as [Hc Hm]. split; [done|]. intros ->.
    by rewrite Hlower in Hm.
  - destruct (label_in _ cols) eqn:Hin; [intros [= <-]; by apply label_in_In in Hin|].
    destruct (List.filter _ cols) as [|c l] eqn:Hf; [done|]. intros [= <-].
    apply filter_head_In in Hf as [Hc Hm]. split; [done|]. intros ->.
    by rewrite Hlower in Hm.
  - destruct (label_in _ cols) eqn:Hin; [intros [= <-]; by apply label_in_In in Hin|].
    destruct (List.filter _ cols) as [|c l] eqn:Hf; [done|]. intros [= <-].
    apply filter_head_In in Hf as [Hc Hm]. split; [done|]. intros ->.
    by rewrite String.eqb_refl in Hm.
Qed.

(** X8.  On a table that a load has returned, a minimum or a maximum that
    is not NoData is a number, not the missing number, and comes with a
    timestamp, not the missing timestamp. *)
Theorem loaded_extremes_are_dated_numbers (raw loaded : DataFrame)
    (start_date end_date consumption_type : string) (v d : scalar) :
  well_formed raw →
  DataLoader._load_csv raw = Return loaded →
  lower "date" = "date" →
  DataAnalysis.get_minimum (Some loaded) start_date end_date consumption_type
    = Return (Some (v, d))
  ∨ DataAnalysis.get_maximum (Some loaded) start_date end_date consumption_type
    = Return (Some (v, d)) →
  ∃ x t, v = Float x ∧ d = Timestamp t.
Proof.
  intros Hwf Hload Hlower Hext.
  destruct (_load_csv_normalized raw loaded Hwf Hload)
    as (Hwf' & Hfirst & (ds & Hdate & Hall) & Hfloat).
  destruct (DataAnalysis._validate_date_range start_date end_date)
    as [[start end_]|e] eqn:Hrange.
  2: { unfold DataAnalysis.get_minimum, DataAnalysis.get_maximum in Hext.
       rewrite Hrange in Hext. by destruct Hext. }
  destruct (DataAnalysis.resolve_column (columns loaded) consumption_type)
    as [col|e] eqn:Hcol.
  2: { unfold DataAnalysis.get_minimum, DataAnalysis.get_maximum,
         DataAnalysis._filter_data_by_date in Hext.
       rewrite Hrange in Hext. simpl in Hext. rewrite Hcol in Hext. by destruct Hext. }
  destruct (resolve_column_not_date _ _ _ Hlower Hcol) as [Hin Hne].
  assert (∃ s, getitem loaded col = Return s) as [s Hs].
  { apply getitem_Return_columns.
    destruct (_load_csv_columns raw loaded Hload) as [Hc | [Hc | Hc]];
      rewrite Hc in Hin |- *; simpl in Hin;
      repeat (destruct Hin as [<- | Hin]; try done). }
  destruct (Hfloat col s Hne Hs) as [vals ->].
  assert (∃ i x, vals !! i = Some (Some x) ∧ v = Float x
                 ∧ cells (DatetimeSeries ds) !! i = Some d) as (i & x & Hv & -> & Hd).
  { destruct Hext as [Hmin | Hmax].
    - destruct (get_minimum_rows loaded start_date end_date consumption_type start end_ col
                  "date" ds vals (DatetimeSeries ds) Hwf' Hrange Hcol Hdate Hs Hfirst Hdate)
        as [[_ Hnone] | (i & x & y & _ & Hv & Hy & _ & Hsome)]; [congruence|].
      rewrite Hsome in Hmin. injection Hmin as <- <-. by exists i, x.
    - destruct (get_maximum_rows loaded start_date end_date consumption_type start end_ col
                  "date" ds vals (DatetimeSeries ds) Hwf' Hrange Hcol Hdate Hs Hfirst Hdate)
        as [[_ Hnone] | (i & x & y & _ & Hv & Hy & _ & Hsome)]; [congruence|].
      rewrite Hsome in Hmax. injection Hmax as <- <-. by exists i, x. }
  exists x. simpl in Hd. rewrite list_lookup_fmap in Hd.
  destruct (ds !! i) as [[t|]|] eqn:Hi; simpl in Hd; try done.
  - injection Hd as <-. by exists t.
  - rewrite Forall_forall in Hall. by destruct (Hall None (list_elem_of_lookup_2 _ _ _ Hi)).
Qed.

End queries_on_loaded.

Lemma loaded_extremes_are_dated_numbers_witness :
  ∃ x t, Float 3 = Float x ∧ Timestamp (day 2024 12 1) = Timestamp t.
Proof.
  apply (loaded_extremes_are_dated_numbers (H := sample_pandas) raw_frame loaded_frame
           "2024-12-01" "2024-12-02" "gas");
    [apply raw_frame_well_formed | by vm_compute | by vm_compute | left; by vm_compute].
Defined.

(** ** A file without dates *)

Lemma boolean_index_all_false {A} mask (l : list A) :
  (∀ i, mask !! i = Some true → False) → boolean_index mask l = [].
Proof.
  revert l. induction mask as [|b mask IH]; intros [|x l] Hno; simpl; try done.
  destruct b; [by destruct (Hno 0%nat)|]. apply IH. intros i Hi. by apply (Hno (S i)).
Qed.

Lemma boolean_index_of_nil {A} mask : boolean_index mask (@nil A) = [].
Proof. by destruct mask. Qed.

Section without_dates.
Context `{Pandas}.

(** On a table without rows every query answers NoData. *)
Lemma queries_without_rows df start_date end_date consumption_type threshold :
  index df = [] →
  DataAnalysis.get_minimum (Some df) start_date end_date consumption_type = Return None
  ∧ DataAnalysis.get_maximum (Some df) start_date end_date consumption_type = Return None
  ∧ DataAnalysis.get_average (Some df) start_date end_date consumption_type = Return None
  ∧ DataAnalysis.count_days_above_threshold (Some df) start_date end_date threshold
      consumption_type = Return None
  ∧ DataAnalysis.count_days_below_threshold (Some df) start_date end_date threshold
      consumption_type = Return None
  ∧ DataAnalysis.get_data_for_period (Some df) start_date end_date consumption_type
    = Return None.
Proof.
  intros Hidx.
  assert (∀ start end_ filtered column,
            DataAnalysis._filter_data_by_date (Some df) start end_ consumption_type
            = Return (filtered, column) → empty filtered = true) as Hempty.
  { intros start end_ filtered column Hf. simpl in Hf.
    apply bind_Return_inv in Hf as (col & _ & Hf).
    apply bind_Return_inv in Hf as (dates & _ & Hf).
    apply bind_Return_inv in Hf as (mask & _ & Hf).
    injection Hf as <- _. unfold empty. rewrite index_frame_select, Hidx.
    by rewrite boolean_index_of_nil. }
  unfold DataAnalysis.get_minimum, DataAnalysis.get_maximum, DataAnalysis.get_average,
    DataAnalysis.count_days_above_threshold, DataAnalysis.count_days_below_threshold,
    DataAnalysis.get_data_for_period.
  destruct (DataAnalysis._validate_date_range start_date end_date) as [[start end_]|e];
    [|done].
  rewrite !bind_Return.
  destruct (DataAnalysis._filter_data_by_date (Some df) start end_ consumption_type)
    as [[filtered column]|e] eqn:Hf; [|done].
  rewrite !bind_Return. by rewrite (Hempty _ _ _ _ Hf).
Qed.

(** The row labels of a loaded table are among those of the rows whose cell
    in the date column found converts to a timestamp. *)
Lemma _load_csv_index df new_df date_col sd :
  DataLoader._load_csv df = Return new_df →
  DataLoader.find_date_col df = Return date_col →
  getitem df date_col = Return sd →
  ∃ mask, index new_df
          = boolean_index mask
              (boolean_index (notna (DataLoader.to_datetime_coerce sd)) (index df)).
Proof.
  intros Hload Hfind Hsd. apply getitem_singleton in Hsd.
  revert Hload. unfold DataLoader._load_csv. intros Hload%try_except_Raise_inv.
  destruct (_ <? _)%nat; [done|]. rewrite Hfind, bind_Return in Hload.
  destruct (DataLoader.find_consumption_cols df) as [elec_col gas_col].
  destruct (DataLoader.keep_and_rename _ _ _ _) as [df0|] eqn:Hkeep; [|done].
  apply bind_Return_inv in Hload as (df1 & (s & Hget & ->)%convert_dates_coerce & Hload).
  apply bind_Return_inv in Hload as (df2 & Hdrop & Hload).
  apply bind_Return_inv in Hload as (df3 & [Hidx3 _]%convert_columns_series & Hflag).
  destruct (keep_and_rename_date _ _ _ _ _ _ (find_date_col_In _ _ Hfind) Hkeep Hget)
    as (Hidx0 & rest & Hser0 & Hrest & Hs & _).
  assert (s = sd) as ->.
  { assert (In (date_col, s) (List.filter (fun c => String.eqb (fst c) date_col) (series df)))
      as Hin by (apply filter_In; split; [done | apply String.eqb_refl]).
    rewrite Hsd in Hin. destruct Hin as [[= <-] | []]. done. }
  destruct df0 as [idx0 ser0]. cbn [index series] in Hidx0, Hser0. subst idx0 ser0.
  rewrite (setitem_head _ _ _ _ _ Hrest) in Hdrop.
  unfold dropna in Hdrop. rewrite (getitem_head _ _ _ Hrest), bind_Return in Hdrop.
  apply Return_inj in Hdrop as <-. rewrite index_frame_select in Hidx3.
  cbn [index] in Hidx3.
  unfold DataLoader.drop_flagged in Hflag. destruct (label_in _ _).
  - apply bind_Return_inv in Hflag as (flag & _ & Hret). apply Return_inj in Hret as <-.
    rewrite index_frame_select, Hidx3. by eexists.
  - apply Return_inj in Hflag as <-. rewrite Hidx3.
    exists (map (fun _ => true)
      (boolean_index (notna (DataLoader.to_datetime_coerce sd)) (index df))).
    generalize (boolean_index (notna (DataLoader.to_datetime_coerce sd)) (index df)).
    intros l. induction l as [|a l IH]; simpl; [done | by f_equal].
Qed.

(** X9.  When no cell of the column found for the dates converts to a
    timestamp, a load that succeeds returns a table without rows, on which
    every query answers NoData. *)
Theorem _load_csv_without_dates (df new_df : DataFrame) (date_col : string) (sd : Series)
    (start_date end_date consumption_type : string) (threshold : Q) :
  DataLoader._load_csv df = Return new_df →
  DataLoader.find_date_col df = Return date_col →
  getitem df date_col = Return sd →
  (∀ x t, In x (cells sd) → to_datetime x ≠ Return (Some t)) →
  index new_df = []
  ∧ DataAnalysis.get_minimum (Some new_df) start_date end_date consumption_type
    = Return None
  ∧ DataAnalysis.get_maximum (Some new_df) start_date end_date consumption_type
    = Return None
  ∧ DataAnalysis.get_average (Some new_df) start_date end_date consumption_type
    = Return None
  ∧ DataAnalysis.count_days_above_threshold (Some new_df) start_date end_date threshold
      consumption_type = Return None
  ∧ DataAnalysis.count_days_below_threshold (Some new_df) start_date end_date threshold
      consumption_type = Return None
  ∧ DataAnalysis.get_data_for_period (Some new_df) start_date end_date consumption_type
    = Return None.
Proof.
  intros Hload Hfind Hsd Hno.
  assert (index new_df = []) as Hidx.
  { destruct (_load_csv_index _ _ _ _ Hload Hfind Hsd) as [mask ->].
    rewrite (boolean_index_all_false (notna _)); [apply boolean_index_of_nil|].
    intros i. unfold DataLoader.to_datetime_coerce. simpl. rewrite !list_lookup_fmap.
    destruct (cells sd !! i) as [x|] eqn:Hx; simpl; [|done].
    destruct (to_datetime x) as [[t|]|e] eqn:Ht; simpl; intros Hi; try done.
    apply (Hno x t); [|done]. apply list_elem_of_In. by eapply list_elem_of_lookup_2. }
  split; [done|]. by apply queries_without_rows.
Qed.

End without_dates.

Lemma _load_csv_without_dates_witness :
  DataLoader.find_date_col undated_frame = Return "ref"
  ∧ DataLoader._load_csv undated_frame
    = Return {| index := [];
                series := [("date", DatetimeSeries []);
                           ("electricity_consumption", FloatSeries [])] |}
  ∧ DataAnalysis.get_average
      (Some {| index := [];
               series := [("date", DatetimeSeries []);
                          ("electricity_consumption", FloatSeries [])] |})
      "2024-12-01" "2024-12-03" "electricity" = Return None.
Proof.
  split; [by vm_compute|]. split; [by vm_compute|].
  destruct (_load_csv_without_dates (H := sample_pandas) undated_frame
              {| index := [];
                 series := [("date", DatetimeSeries []);
                            ("electricity_consumption", FloatSeries [])] |}
              "ref" (ObjectSeries [Some "x-1"; Some "y-2"])
              "2024-12-01" "2024-12-03" "electricity" 0%Q)
    as (_ & _ & _ & Havg & _); [by vm_compute .. | | exact Havg].
  intros x t Hx. simpl in Hx. destruct Hx as [<- | [<- | []]]; by vm_compute.
Defined.

(** ** The search of a column by name *)

Lemma head_filter_first {A} (f : A → bool) l c l' :
  List.filter f l = c :: l' → first_where f l c.
Proof. intros Hf. apply filter_head_first. by rewrite Hf. Qed.

Section by_pattern.
Context `{Pandas}.

(** X10.  The search of a column by name patterns answers the first column,
    in column order, that matches the first pattern, in pattern order, that
    any column matches: the order of the patterns comes before the order of
    the columns. *)
Theorem first_candidate_spec (matches : string → string → bool)
    (patterns cols : list string) (c : string) :
  DataLoader.first_candidate matches patterns cols = Some c ↔
  ∃ i pattern,
    patterns !! i = Some pattern
    ∧ (∀ j earlier col, (j < i)%nat → patterns !! j = Some earlier → In col cols →
                        matches earlier col = false)
    ∧ first_where (matches pattern) cols c.
Proof.
  revert c. induction patterns as [|p patterns IH]; intros c; simpl.
  { split; [done | by intros (i & pattern & Hi & _)]. }
  destruct (List.filter (matches p) cols) as [|col l] eqn:Hf.
  - rewrite IH. rewrite filter_nil_none in Hf. split.
    + intros (i & pattern & Hi & Hbefore & Hfirst). exists (S i), pattern.
      split; [done|]. split; [|done].
      intros [|j] earlier col' Hj He Hc; simpl in He.
      * injection He as <-. by apply Hf.
      * apply (Hbefore j); [lia | done | done].
    + intros ([|i] & pattern & Hi & Hbefore & Hfirst); simpl in Hi.
      * injection Hi as <-. apply filter_head_first in Hfirst.
        rewrite (proj2 (filter_nil_none _ _) Hf) in Hfirst. done.
      * exists i, pattern. split; [done|]. split; [|done].
        intros j earlier col' Hj He Hc. apply (Hbefore (S j)); [lia | done | done].
  - split.
    + intros [= <-]. exists 0%nat, p. split; [done|]. split; [intros; lia|].
      by eapply head_filter_first.
    + intros ([|i] & pattern & Hi & Hbefore & Hfirst); simpl in Hi.
      * injection Hi as <-. apply filter_head_first in Hfirst.
        rewrite Hf in Hfirst. by injection Hfirst as <-.
      * pose proof (filter_head_In _ _ _ _ Hf) as [Hin Hm].
        rewrite (Hbefore 0%nat p col) in Hm; [done | lia | done | done].
Qed.

End by_pattern.

Lemma existsb_false {A} (f : A → bool) l : existsb f l = false ↔ ∀ x, In x l → f x = false.
Proof.
  induction l as [|a l IH]; simpl; [by split|].
  rewrite orb_false_iff, IH. split.
  - intros [Ha Hl] x [<- | Hx]; auto.
  - intros Hall. split; [by apply Hall; left | intros x Hx; by apply Hall; right].
Qed.

Section date_column.
Context `{Pandas}.

Lemma first_candidate_None_iff matches patterns cols :
  DataLoader.first_candidate matches patterns cols = None ↔
  ∀ pattern col, In pattern patterns → In col cols → matches pattern col = false.
Proof.
  split; [|apply first_candidate_None].
  induction patterns as [|p patterns IH]; simpl; [done|].
  destruct (List.filter (matches p) cols) as [|c l] eqn:Hf; [|done].
  intros Hnone pattern col [<- | Hp] Hc; [|by apply IH].
  rewrite filter_nil_none in Hf. by apply Hf.
Qed.

(** X11.  The search of the date column fails, with the message that no
    date column was found, exactly when no column name contains a date
    pattern, the second stage returns nothing, and no column shows a dash or
    a slash in its first five present cells.  The second stage returns the
    first column whenever [pd.to_datetime] returns on its first cell, be it a
    timestamp or the missing timestamp: it returns nothing only when that
    call raises, or when there is no first cell to read. *)
Theorem find_date_col_raises (df : DataFrame) (e : exn) :
  DataLoader.find_date_col df = Raise e ↔
  e = ValueError "No date column found in the CSV file"
  ∧ (∀ pattern col, In pattern DataLoader.date_patterns → In col (columns df) →
                    str_in pattern col = false)
  ∧ (∀ c s x t, first_column df = Return c → getitem df c = Return s →
                DataLoader.iloc0 s = Return x → to_datetime x ≠ Return t)
  ∧ (∀ col s text, In col (columns df) → getitem df col = Return s →
                   In text (DataLoader.samples s) →
                   str_in "-" text = false ∧ str_in "/" text = false).
Proof.
  unfold DataLoader.find_date_col.
  pose proof (first_candidate_None_iff (fun pattern col => str_in pattern col)
                DataLoader.date_patterns (columns df)) as Hname.
  destruct (DataLoader.first_candidate _ _ _) as [c1|].
  { split; [done|]. intros (_ & Hno & _). by apply Hname in Hno. }
  destruct (first_column df ≫= _) as [c2|e2] eqn:Hfirst.
  { split; [done|]. intros (_ & _ & Hno & _).
    apply bind_Return_inv in Hfirst as (c & Hc & Hfirst).
    apply bind_Return_inv in Hfirst as (s & Hs & Hfirst).
    apply bind_Return_inv in Hfirst as (x & Hx & Hfirst).
    apply bind_Return_inv in Hfirst as (t & Ht & _).
    by destruct (Hno c s x t). }
  destruct (List.filter _ (columns df)) as [|c3 l] eqn:Hlast; simpl.
  - rewrite filter_nil_none in Hlast. split.
    + intros [= <-]. split; [done|]. split; [by apply Hname|]. split.
      * intros c s x t Hc Hs Hx Ht. by rewrite Hc, bind_Return, Hs, bind_Return, Hx,
          bind_Return, Ht in Hfirst.
      * intros col s text Hcol Hs Htext. specialize (Hlast col Hcol). simpl in Hlast.
        rewrite Hs in Hlast. apply orb_false_iff in Hlast as [Hdash Hslash].
        rewrite existsb_false in Hdash, Hslash. split; [by apply Hdash | by apply Hslash].
    + by intros (-> & _).
  - split; [done|]. intros (_ & _ & _ & Hno).
    apply filter_head_In in Hlast as [Hcol Hshow]. simpl in Hshow.
    destruct (getitem df c3) as [s|] eqn:Hs; [|done].
    apply orb_true_iff in Hshow as [Hshow | Hshow];
      apply existsb_exists in Hshow as (text & Htext & Hin);
      destruct (Hno c3 s text Hcol Hs Htext); congruence.
Qed.

End date_column.

(** A first cell that is missing does not make [pd.to_datetime] raise: the
    first column is taken for the dates, though it holds none. *)
Example find_date_col_missing_first_cell :
  DataLoader.find_date_col
    {| index := [0; 1];
       series := [("id", ObjectSeries [None; Some "b"]);
                  ("value", FloatSeries [Some 1%Q; Some 2%Q])] |}
  = Return "id".
Proof. by vm_compute. Qed.

(** ** The name of the downloaded file *)

Lemma endswith_refl s : endswith s s = true.
Proof. destruct s; simpl; [done|]. by rewrite Ascii.eqb_refl, String.eqb_refl. Qed.

Lemma endswith_app s t : endswith (s ++ t) t = true.
Proof.
  induction s as [|a s IH]; simpl; [apply endswith_refl|].
  rewrite IH. apply orb_true_r.
Qed.

Lemma str_in_slash_cons c s : str_in "/" (String c s) = Ascii.eqb c "/" || str_in "/" s.
Proof.
  cbn [str_in String.prefix].
  destruct (ascii_dec "/" c) as [Heq | Hne].
  - subst c. by destruct s.
  - by rewrite (proj2 (Ascii.eqb_neq c "/")) by congruence.
Qed.

Lemma str_in_slash_app s t : str_in "/" (s ++ t) = str_in "/" s || str_in "/" t.
Proof.
  induction s as [|a s IH].
  - simpl. by destruct t.
  - change (String a s ++ t) with (String a (s ++ t)).
    rewrite !str_in_slash_cons, IH. by rewrite orb_assoc.
Qed.

Lemma basename_no_slash p : str_in "/" (basename p) = false.
Proof.
  induction p as [|c p IH]; [done|].
  cbn [basename]. destruct (str_in "/" p) eqn:Hp; [done|].
  destruct (Ascii.eqb c "/") eqn:Hc; [done|].
  by rewrite str_in_slash_cons, Hc, Hp.
Qed.

(** X12.  Whatever path the address holds, the name given to the
    downloaded file ends with [.csv], is not empty and has no slash: the
    temporary file lies in the temporary directory itself. *)
Theorem filename_of_spec (path : string) :
  endswith (Loading.filename_of path) ".csv" = true
  ∧ str_in "/" (Loading.filename_of path) = false
  ∧ Loading.filename_of path ≠ "".
Proof.
  unfold Loading.filename_of.
  destruct (String.eqb (basename path) "") eqn:Hempty; [by vm_compute|].
  apply String.eqb_neq in Hempty.
  destruct (endswith (basename path) ".csv") eqn:Hcsv.
  - split; [done|]. split; [apply basename_no_slash | done].
  - split; [apply endswith_app|]. split.
    + by rewrite str_in_slash_app, basename_no_slash.
    + by destruct (basename path).
Qed.

Example filename_of_export :
  Loading.filename_of
    "/api/explore/v2.1/catalog/datasets/consommation-quotidienne-brute/exports/csv"
  = "csv.csv".
Proof. reflexivity. Qed.

(** ** The loader, the analysis and the plot together *)

Section window.
Context `{Pandas}.
Variable add_approximation :
  Visualisation.visualizer → nat → Visualisation.visualizer * outcome unit.

Local Abbreviation run := (Interface.run add_approximation).
Local Abbreviation step := (Interface.step add_approximation).

Lemma load_from_file_cases self file_path read :
  (∃ df, Loading._load_csv read = Return df
         ∧ Loading.load_from_file self file_path read
           = ({| Loading.data := Some df; Loading.data_source := Some file_path |}, true))
  ∨ ((∃ e, Loading._load_csv read = Raise e)
     ∧ Loading.load_from_file self file_path read = (self, false)).
Proof.
  unfold Loading.load_from_file.
  destruct (Loading._load_csv read) as [df|e]; [left; by exists df | right].
  split; [by exists e | done].
Qed.

Lemma _load_csv_of_read read df :
  Loading._load_csv read = Return df → ∃ raw, DataLoader._load_csv raw = Return df.
Proof. destruct read as [raw|e]; simpl; [by exists raw | done]. Qed.

Lemma step_invariant w a :
  normalised (Loading.data (Interface.data_loader w)) →
  normalised (Interface.data_analysis w) →
  (Loading.data (Interface.data_loader w) = None → Interface.data_analysis w = None) →
  normalised (Loading.data (Interface.data_loader (step w a)))
  ∧ normalised (Interface.data_analysis (step w a))
  ∧ (Loading.data (Interface.data_loader (step w a)) = None →
     Interface.data_analysis (step w a) = None)
  ∧ (¬ backup_fails a →
     Interface.data_analysis w = Loading.data (Interface.data_loader w) →
     Interface.data_analysis (step w a) = Loading.data (Interface.data_loader (step w a))).
Proof.
  intros Hl Ha Hnone. destruct a as [file_path read | url download read backup | sd ed re rl dg].
  - simpl. unfold Interface.load_file.
    destruct (String.eqb file_path ""); [done|].
    unfold Loading.load_from_file.
    destruct (Loading._load_csv read) as [df|e] eqn:Hread; simpl; [|done].
    assert (normalised (Some df)) as Hdf.
    { intros df' [= <-]. by eapply _load_csv_of_read. }
    done.
  - simpl. unfold Interface.load_from_url.
    destruct (String.eqb url ""); [done|].
    unfold Loading.load_from_url.
    destruct download as [[]|e]; simpl; [|done].
    destruct (Loading._load_csv read) as [df|e] eqn:Hread; simpl; [|done].
    assert (normalised (Some df)) as Hdf.
    { intros df' [= <-]. by eapply _load_csv_of_read. }
    destruct backup as [[]|e]; simpl; [done|].
    do 3 (split; [done|]). by intros [].
  - simpl. unfold Interface.create_plot.
    destruct (negb _); [done|].
    destruct (DataAnalysis.get_data_for_period _ _ _ _) as [[period|]|e]; try done.
    destruct (empty period); [done|].
    destruct (Visualisation.plot_consumption _ _ _) as [v [[]|e]]; [|done].
    destruct dg as [n|]; [|done].
    by destruct (add_approximation v n) as [v' [[]|e]].
Qed.

(** X13.  Whatever the user loads and plots, in any order and with any
    outcome, the table that the queries read is one that the normalisation has
    returned, so its columns are [date] and then the canonical consumption
    names, and the analysis holds a table only when the loader holds one.  As
    long as no backup copy fails, the analysis holds the very table of the
    loader. *)
Theorem run_invariant (actions : list Interface.action) :
  let w := run Interface.__init__ actions in
  (∀ df, Interface.data_analysis w = Some df →
         (∃ raw, DataLoader._load_csv raw = Return df)
         ∧ (columns df = ["date"; "electricity_consumption"]
            ∨ columns df = ["date"; "gas_consumption"]
            ∨ columns df = ["date"; "electricity_consumption"; "gas_consumption"]))
  ∧ (Loading.has_data (Interface.data_loader w) = false → Interface.data_analysis w = None)
  ∧ ((∀ a, In a actions → ¬ backup_fails a) →
     Interface.data_analysis w = Loading.get_data (Interface.data_loader w)).
Proof.
  assert (∀ w0,
    normalised (Loading.data (Interface.data_loader w0)) →
    normalised (Interface.data_analysis w0) →
    (Loading.data (Interface.data_loader w0) = None → Interface.data_analysis w0 = None) →
    let w := run w0 actions in
    normalised (Interface.data_analysis w)
    ∧ (Loading.data (Interface.data_loader w) = None → Interface.data_analysis w = None)
    ∧ ((∀ a, In a actions → ¬ backup_fails a) →
       Interface.data_analysis w0 = Loading.data (Interface.data_loader w0) →
       Interface.data_analysis w = Loading.data (Interface.data_loader w))) as Hrun.
  { induction actions as [|a actions IH]; intros w0 Hl Ha Hnone; [done|].
    destruct (step_invariant w0 a Hl Ha Hnone) as (Hl' & Ha' & Hnone' & Heq').
    destruct (IH _ Hl' Ha' Hnone') as (Hnorm & Hn & Heq).
    split; [done|]. split; [done|].
    intros Hsafe Hsame. apply Heq.
    - intros a' Ha'in. apply Hsafe. by right.
    - apply Heq'; [apply Hsafe; by left | done]. }
  destruct (Hrun Interface.__init__) as (Hnorm & Hnone & Heq); try done.
  split; [|split].
  - intros df Hdf. destruct (Hnorm df Hdf) as [raw Hraw].
    split; [by exists raw | by eapply _load_csv_columns].
  - unfold Loading.has_data. intros Hhas. apply Hnone.
    by destruct (Loading.data _).
  - intros Hsafe. by apply Heq.
Qed.

(** X14.  When the backup copy of a download fails after the file was
    parsed, the loader holds the new table and reports a failure: the
    analysis and the plot keep what they had, and the source recorded is not
    updated.  From a fresh window the loader then has data while every query
    answers NoData. *)
Theorem failed_backup_splits_state (w : Interface.window) (url : string)
    (read : outcome DataFrame) (df : DataFrame) (e : exn) :
  url ≠ "" →
  Loading._load_csv read = Return df →
  let w' := Interface.load_from_url w url (Return tt) read (Raise e) in
  Loading.has_data (Interface.data_loader w') = true
  ∧ Loading.get_data (Interface.data_loader w') = Some df
  ∧ Loading.data_source (Interface.data_loader w')
    = Loading.data_source (Interface.data_loader w)
  ∧ Interface.data_analysis w' = Interface.data_analysis w
  ∧ Interface.visualizer w' = Interface.visualizer w
  ∧ (Interface.data_analysis w = None →
     ∀ start_date end_date consumption_type,
       DataAnalysis.get_minimum (Interface.data_analysis w') start_date end_date
         consumption_type = Return None
       ∧ DataAnalysis.get_average (Interface.data_analysis w') start_date end_date
           consumption_type = Return None
       ∧ DataAnalysis.get_data_for_period (Interface.data_analysis w') start_date end_date
           consumption_type = Return None).
Proof.
  intros Hurl%String.eqb_neq Hread. unfold Interface.load_from_url, Loading.load_from_url.
  rewrite Hurl, Hread. simpl. do 5 (split; [done|]).
  intros -> start_date end_date consumption_type.
  unfold DataAnalysis.get_minimum, DataAnalysis.get_average, DataAnalysis.get_data_for_period.
  by destruct (DataAnalysis._validate_date_range start_date end_date) as [[start end_]|e0].
Qed.

End window.

Lemma run_invariant_witness :
  Interface.data_analysis
    (Interface.run (fun v _ => (v, Return tt)) Interface.__init__
       [Interface.Load_file "data.csv" (Return raw_frame);
        Interface.Create_plot "2024-12-01" "2024-12-02" false true None])
  = Loading.get_data (Interface.data_loader
      (Interface.run (fun v _ => (v, Return tt)) Interface.__init__
         [Interface.Load_file "data.csv" (Return raw_frame);
          Interface.Create_plot "2024-12-01" "2024-12-02" false true None])).
Proof.
  apply (run_invariant (H := sample_pandas) (fun v _ => (v, Return tt))
           [Interface.Load_file "data.csv" (Return raw_frame);
            Interface.Create_plot "2024-12-01" "2024-12-02" false true None]).
  by intros a [<- | [<- | []]] Hfails.
Defined.

Lemma failed_backup_splits_state_witness :
  let w' := Interface.load_from_url (H := sample_pandas) Interface.__init__
              "https://example.org/data.csv" (Return tt) (Return raw_frame)
              (Raise (ValueError "disk full")) in
  Loading.has_data (Interface.data_loader w') = true
  ∧ Interface.data_analysis w' = None.
Proof.
  destruct (failed_backup_splits_state (H := sample_pandas) Interface.__init__
              "https://example.org/data.csv" (Return raw_frame) loaded_frame
              (ValueError "disk full")) as (Hhas & _ & _ & Hsame & _);
    [done | by vm_compute |].
  by split.
Defined.

(** ** What the plot shows *)

Section plotting.
Context `{Pandas}.
Variable add_approximation :
  Visualisation.visualizer → nat → Visualisation.visualizer * outcome unit.

(** The column resolved on a table is resolved again on the two columns
    that the extraction keeps of it. *)
Lemma resolve_column_subtable k cols c0 rest col :
  cols = c0 :: rest →
  DataAnalysis.resolve_column cols (kind_name k) = Return col →
  DataAnalysis.resolve_column [c0; col] (kind_name k) = Return col.
Proof.
  intros -> Hcol. rewrite resolve_column_kind in Hcol |- *.
  destruct (label_in (canonical k) (c0 :: rest)) eqn:Hcanon.
  - injection Hcol as Heq. subst col.
    assert (label_in (canonical k) [c0; canonical k] = true) as ->; [|done].
    apply label_in_In. by right; left.
  - destruct (List.filter (token_match k) (c0 :: rest)) as [|c l] eqn:Hf; [done|].
    injection Hcol as ->.
    pose proof (filter_head_In _ _ _ _ Hf) as [Hin Hm].
    assert (label_in (canonical k) [c0; col] = false) as ->.
    { apply label_in_not_In. apply label_in_not_In in Hcanon.
      intros [Heq | [Heq | []]]; apply Hcanon; rewrite <- Heq; [by left | done]. }
    simpl in Hf |- *. destruct (token_match k c0).
    + by injection Hf as -> _.
    + by rewrite Hm.
Qed.

Lemma subtable_not_empty df keep c0 s0 col s :
  length keep = length (index df) → has_row keep →
  empty (subtable df keep c0 s0 col s) = false.
Proof.
  intros Hlen [i Hi]. unfold empty, subtable. cbn [index series].
  destruct (boolean_index keep (index df)) eqn:Hb; [|done].
  rewrite (boolean_index_nil_iff _ _ Hlen) in Hb. by destruct (Hb i).
Qed.

Variables (w : Interface.window) (fig : list Visualisation.artist).
Variables (df : DataFrame) (start_date end_date : string) (radioElectricity : bool).
Variables (start end_ : option Z) (col c0 : string).
Variables (dates : list (option Z)) (vals : list (option Q)) (s0 : Series).

Hypothesis Hhas : Loading.has_data (Interface.data_loader w) = true.
Hypothesis Hdata : Interface.data_analysis w = Some df.
Hypothesis Hfig : Visualisation.figure (Interface.visualizer w) = Some fig.
Hypothesis Hwf : well_formed df.
Hypothesis Hrange :
  DataAnalysis._validate_date_range start_date end_date = Return (start, end_).
Hypothesis Hcol :
  DataAnalysis.resolve_column (columns df)
    (if radioElectricity then "electricity" else "gas") = Return col.
Hypothesis Hdate : getitem df "date" = Return (DatetimeSeries dates).
Hypothesis Hvals : getitem df col = Return (FloatSeries vals).
Hypothesis Hc0 : first_column df = Return c0.
Hypothesis Hs0 : getitem df c0 = Return s0.

(** X15.  When the range holds a row with a value of the column resolved,
    the plot draws one line or one set of bars: the first column against that
    column, on the rows in range whose value is present, in table order. *)
Theorem create_plot_shows_extraction (radioLine : bool) :
  let keep := keep_mask dates start end_ (FloatSeries vals) in
  has_row keep → c0 ≠ col →
  Interface.create_plot add_approximation w start_date end_date radioElectricity radioLine
    None
  = ({| Interface.data_loader := Interface.data_loader w;
        Interface.data_analysis := Some df;
        Interface.visualizer :=
          {| Visualisation.data := Some (subtable df keep c0 s0 col (FloatSeries vals));
             Visualisation.figure :=
               Some [(if radioLine then Visualisation.Line else Visualisation.Bar)
                       (series_select keep s0)
                       [series_select keep (FloatSeries vals)]] |} |},
     Interface.PlotCreated).
Proof.
  intros keep Hrow Hne. unfold Interface.create_plot. rewrite Hhas, Hdata. cbn [negb].
  destruct (get_data_for_period_rows df start_date end_date _ start end_
              col c0 dates vals s0 Hwf Hrange Hcol Hdate Hvals Hc0 Hs0) as (Hsome & _).
  rewrite (Hsome Hrow). fold keep.
  rewrite subtable_not_empty; [|by eapply keep_mask_length | done].
  unfold Visualisation.plot_consumption, Visualisation.set_data.
  cbn [Visualisation.data Visualisation.figure]. rewrite Hfig.
  assert (DataAnalysis.resolve_column
            (columns (subtable df keep c0 s0 col (FloatSeries vals)))
            (if radioElectricity then "electricity" else "gas") = Return col) as ->.
  { unfold first_column in Hc0. destruct (columns df) as [|c rest] eqn:Hcols; [done|].
    injection Hc0 as ->.
    destruct radioElectricity.
    - by apply (resolve_column_subtable electricity (c0 :: rest) c0 rest).
    - by apply (resolve_column_subtable gas (c0 :: rest) c0 rest). }
  rewrite bind_Return. unfold Visualisation.iloc_column0, Visualisation.getitem_all, subtable.
  cbn [series fst snd List.filter]. rewrite bind_Return.
  rewrite (proj2 (String.eqb_neq c0 col) Hne), String.eqb_refl. cbn [map snd].
  rewrite bind_Return. by destruct radioLine.
Qed.

(** X16.  When the extraction for electricity falls back on the gas column
    and neither that column nor the first one bears an electricity name, the
    plot fails for want of electricity data: the fallback table is handed to
    the plot, the figure is left cleared, and nothing is drawn. *)
Theorem create_plot_rejects_fallback (radioLine : bool) (degree : option nat)
    (gas_column : string) (sg : Series) :
  let keep := keep_mask dates start end_ sg in
  radioElectricity = true →
  ¬ has_row (keep_mask dates start end_ (FloatSeries vals)) →
  DataAnalysis.resolve_column (columns df) "gas" = Return gas_column →
  getitem df gas_column = Return sg →
  has_row keep →
  (∀ c, In c [c0; gas_column] →
        c ≠ "electricity_consumption"
        ∧ str_in "electr" (lower c) = false ∧ str_in "électr" (lower c) = false) →
  Interface.create_plot add_approximation w start_date end_date radioElectricity radioLine
    degree
  = ({| Interface.data_loader := Interface.data_loader w;
        Interface.data_analysis := Some df;
        Interface.visualizer :=
          {| Visualisation.data := Some (subtable df keep c0 s0 gas_column sg);
             Visualisation.figure := Some [] |} |},
     Interface.ErrorCreatingPlot (ValueError "No electricity consumption data available")).
Proof.
  intros keep Hre Hnone Hgas Hsg Hrow Hnames. subst radioElectricity.
  unfold Interface.create_plot. rewrite Hhas, Hdata. cbn [negb].
  destruct (get_data_for_period_rows df start_date end_date _ start end_
              col c0 dates vals s0 Hwf Hrange Hcol Hdate Hvals Hc0 Hs0) as (_ & Hfall & _).
  rewrite (Hfall Hnone eq_refl gas_column sg Hgas Hsg Hrow). fold keep.
  rewrite subtable_not_empty; [|by eapply keep_mask_length | done].
  unfold Visualisation.plot_consumption, Visualisation.set_data.
  cbn [Visualisation.data Visualisation.figure]. rewrite Hfig.
  assert (DataAnalysis.resolve_column
            (columns (subtable df keep c0 s0 gas_column sg)) "electricity"
          = Raise (ValueError "No electricity consumption data available")) as ->; [|done].
  rewrite (resolve_column_kind electricity). unfold subtable, columns. cbn [series map fst].
  destruct (Hnames c0) as (Hc & Ha & Hb); [by left|].
  destruct (Hnames gas_column) as (Hc' & Ha' & Hb'); [by right; left|].
  assert (label_in (canonical electricity) [c0; gas_column] = false) as ->.
  { apply label_in_not_In. intros [Heq | [Heq | []]]; by rewrite Heq in *. }
  simpl. by rewrite Ha, Hb, Ha', Hb'.
Qed.

End plotting.

Lemma create_plot_shows_extraction_witness :
  let w := {| Interface.data_loader :=
                {| Loading.data := Some sample_frame; Loading.data_source := Some "data.csv" |};
              Interface.data_analysis := Some sample_frame;
              Interface.visualizer :=
                {| Visualisation.data := Some sample_frame;
                   Visualisation.figure := Some [] |} |} in
  Interface.create_plot (H := sample_pandas) (fun v _ => (v, Return tt)) w
    "2024-12-02" "2024-12-03" false true None
  = ({| Interface.data_loader := Interface.data_loader w;
        Interface.data_analysis := Some sample_frame;
        Interface.visualizer :=
          {| Visualisation.data :=
               Some {| index := [2];
                       series := [("date", DatetimeSeries [Some (day 2024 12 3)]);
                                  ("gas_consumption", FloatSeries [Some 3%Q])] |};
             Visualisation.figure :=
               Some [Visualisation.Line (DatetimeSeries [Some (day 2024 12 3)])
                                        [FloatSeries [Some 3%Q]]] |} |},
     Interface.PlotCreated).
Proof.
  intros w.
  apply (create_plot_shows_extraction (H := sample_pandas) (fun v _ => (v, Return tt)) w []
           sample_frame "2024-12-02" "2024-12-03" false
           (Some (day 2024 12 2)) (Some (day 2024 12 4 - Timedelta_seconds 1))
           "gas_consumption" "date"
           [Some (day 2024 12 1); Some (day 2024 12 2); Some (day 2024 12 3)]
           [Some 7%Q; None; Some 3%Q]
           (DatetimeSeries [Some (day 2024 12 1); Some (day 2024 12 2); Some (day 2024 12 3)])
           eq_refl eq_refl eq_refl sample_frame_well_formed);
    [by vm_compute .. | by exists 2%nat | done].
Defined.

Lemma create_plot_rejects_fallback_witness :
  let w := {| Interface.data_loader :=
                {| Loading.data := Some gas_only_frame; Loading.data_source := Some "data.csv" |};
              Interface.data_analysis := Some gas_only_frame;
              Interface.visualizer :=
                {| Visualisation.data := Some gas_only_frame;
                   Visualisation.figure := Some [] |} |} in
  snd (Interface.create_plot (H := sample_pandas) (fun v _ => (v, Return tt)) w
         "2024-12-01" "2024-12-02" true true None)
  = Interface.ErrorCreatingPlot (ValueError "No electricity consumption data available").
Proof.
  intros w.
  rewrite (create_plot_rejects_fallback (H := sample_pandas) (fun v _ => (v, Return tt)) w []
             gas_only_frame "2024-12-01" "2024-12-02" true
             (Some (day 2024 12 1)) (Some (day 2024 12 3 - Timedelta_seconds 1))
             "electricity_consumption" "date"
             [Some (day 2024 12 1); Some (day 2024 12 2)]
             [None; None]
             (DatetimeSeries [Some (day 2024 12 1); Some (day 2024 12 2)])
             eq_refl eq_refl eq_refl)
    with (gas_column := "gas_consumption") (sg := FloatSeries [Some 3%Q; Some 4%Q]);
    try (by vm_compute).
  - split; [apply (bool_decide_unpack _); by vm_compute | by repeat constructor].
  - by intros [[|[|i]] Hi].
  - by exists 0%nat.
  - intros c [<- | [<- | []]]; by vm_compute.
Defined.

(** ** A wider range *)

Lemma qualifies_wider a b a' b' (p : Q → bool) r :
  a' ≤ a → b ≤ b' →
  qualifies (Some a) (Some b) p r = true → qualifies (Some a') (Some b') p r = true.
Proof.
  intros Ha Hb. destruct r as [d v]. rewrite !qualifies_iff.
  intros (t & a0 & b0 & x & -> & -> & [= <-] & [= <-] & Ht & Hp).
  exists t, a', b', x. repeat split; try done; lia.
Qed.

Lemma in_range_wider dates a b a' b' i :
  a' ≤ a → b ≤ b' →
  in_range dates (Some a) (Some b) i → in_range dates (Some a') (Some b') i.
Proof.
  intros Ha Hb (t & a0 & b0 & Ht & [= <-] & [= <-] & Hin).
  exists t, a', b'. repeat split; try done; lia.
Qed.

Section wider_range.
Context `{Pandas}.
Variables (df : DataFrame) (consumption_type col c0 : string).
Variables (dates : list (option Z)) (vals : list (option Q)) (s0 : Series).
Variables (start_date end_date start_date' end_date' : string) (a b a' b' : Z).

Hypothesis Hwf : well_formed df.
Hypothesis Hcol :
  DataAnalysis.resolve_column (columns df) consumption_type = Return col.
Hypothesis Hdate : getitem df "date" = Return (DatetimeSeries dates).
Hypothesis Hvals : getitem df col = Return (FloatSeries vals).
Hypothesis Hc0 : first_column df = Return c0.
Hypothesis Hs0 : getitem df c0 = Return s0.
Hypothesis Hrange :
  DataAnalysis._validate_date_range start_date end_date = Return (Some a, Some b).
Hypothesis Hrange' :
  DataAnalysis._validate_date_range start_date' end_date' = Return (Some a', Some b').
Hypothesis Hstart : a' ≤ a.
Hypothesis Hend : b ≤ b'.

Lemma wider_not_empty :
  empty (frame_select (range_mask dates (Some a) (Some b)) df) = false →
  empty (frame_select (range_mask dates (Some a') (Some b')) df) = false.
Proof.
  intros Hne.
  destruct (some_row_or_none df (Some a) (Some b) dates Hwf Hdate) as [[He _] | [_ [i Hi]]];
    [congruence|].
  destruct (some_row_or_none df (Some a') (Some b') dates Hwf Hdate) as [[_ Hno] | [-> _]];
    [|done].
  destruct (Hno i). by eapply in_range_wider.
Qed.

(** X17.  Over a range that contains another one, on the same table and
    for the same consumption type: when the narrower range gives a minimum,
    a maximum or a count, so does the wider one, and its minimum is not
    larger, its maximum not smaller, and its counts of days above and below a
    threshold not smaller. *)
Theorem wider_range_agrees (threshold : Q) :
  (∀ v d,
     DataAnalysis.get_minimum (Some df) start_date end_date consumption_type
       = Return (Some (Float v, d)) →
     ∃ v' d',
       DataAnalysis.get_minimum (Some df) start_date' end_date' consumption_type
         = Return (Some (Float v', d'))
       ∧ (v' <= v)%Q)
  ∧ (∀ v d,
       DataAnalysis.get_maximum (Some df) start_date end_date consumption_type
         = Return (Some (Float v, d)) →
       ∃ v' d',
         DataAnalysis.get_maximum (Some df) start_date' end_date' consumption_type
           = Return (Some (Float v', d'))
         ∧ (v <= v')%Q)
  ∧ (∀ n,
       DataAnalysis.count_days_above_threshold (Some df) start_date end_date threshold
         consumption_type = Return (Some n) →
       ∃ n',
         DataAnalysis.count_days_above_threshold (Some df) start_date' end_date' threshold
           consumption_type = Return (Some n')
         ∧ n ≤ n')
  ∧ (∀ n,
       DataAnalysis.count_days_below_threshold (Some df) start_date end_date threshold
         consumption_type = Return (Some n) →
       ∃ n',
         DataAnalysis.count_days_below_threshold (Some df) start_date' end_date' threshold
           consumption_type = Return (Some n')
         ∧ n ≤ n').
Proof.
  split; [|split; [|split]].
  - intros v d Hmin.
    destruct (get_minimum_rows df start_date end_date consumption_type _ _ col c0
                dates vals s0 Hwf Hrange Hcol Hdate Hvals Hc0 Hs0)
      as [[_ Hnone] | (i & x & y & Hi & Hv & _ & _ & Hsome)]; [congruence|].
    rewrite Hsome in Hmin. injection Hmin as -> _.
    destruct (get_minimum_rows df start_date' end_date' consumption_type _ _ col c0
                dates vals s0 Hwf Hrange' Hcol Hdate Hvals Hc0 Hs0)
      as [[Hno _] | (i' & x' & y' & _ & _ & _ & Hleast & Hsome')].
    + destruct (Hno i v); [by eapply in_range_wider | done].
    + exists x', y'. split; [done|].
      apply (Hleast i v); [by eapply in_range_wider | done].
  - intros v d Hmax.
    destruct (get_maximum_rows df start_date end_date consumption_type _ _ col c0
                dates vals s0 Hwf Hrange Hcol Hdate Hvals Hc0 Hs0)
      as [[_ Hnone] | (i & x & y & Hi & Hv & _ & _ & Hsome)]; [congruence|].
    rewrite Hsome in Hmax. injection Hmax as -> _.
    destruct (get_maximum_rows df start_date' end_date' consumption_type _ _ col c0
                dates vals s0 Hwf Hrange' Hcol Hdate Hvals Hc0 Hs0)
      as [[Hno _] | (i' & x' & y' & _ & _ & _ & Hmost & Hsome')].
    + destruct (Hno i v); [by eapply in_range_wider | done].
    + exists x', y'. split; [done|].
      apply (Hmost i v); [by eapply in_range_wider | done].
  - intros n.
    rewrite (count_days_above_threshold_rows df start_date end_date consumption_type
               _ _ col dates vals Hrange Hcol Hdate Hvals).
    rewrite (count_days_above_threshold_rows df start_date' end_date' consumption_type
               _ _ col dates vals Hrange' Hcol Hdate Hvals).
    destruct (empty (frame_select (range_mask dates (Some a) (Some b)) df)) eqn:He; [done|].
    rewrite (wider_not_empty He). intros [= <-]. eexists. split; [done|].
    apply Nat2Z.inj_le, filter_length_le. intros r _. by apply qualifies_wider.
  - intros n.
    rewrite (count_days_below_threshold_rows df start_date end_date consumption_type
               _ _ col dates vals Hrange Hcol Hdate Hvals).
    rewrite (count_days_below_threshold_rows df start_date' end_date' consumption_type
               _ _ col dates vals Hrange' Hcol Hdate Hvals).
    destruct (empty (frame_select (range_mask dates (Some a) (Some b)) df)) eqn:He; [done|].
    rewrite (wider_not_empty He). intros [= <-]. eexists. split; [done|].
    apply Nat2Z.inj_le, filter_length_le. intros r _. by apply qualifies_wider.
Qed.

End wider_range.

Lemma wider_range_agrees_witness :
  ∃ v' d',
    DataAnalysis.get_minimum (Some sample_frame) "2024-12-01" "2024-12-03" "electricity"
      = Return (Some (Float v', d'))
    ∧ (v' <= 20)%Q.
Proof.
  destruct (wider_range_agrees (H := sample_pandas) sample_frame "electricity"
              "electricity_consumption" "date"
              [Some (day 2024 12 1); Some (day 2024 12 2); Some (day 2024 12 3)]
              [Some 10%Q; Some 5%Q; Some 20%Q]
              (DatetimeSeries [Some (day 2024 12 1); Some (day 2024 12 2); Some (day 2024 12 3)])
              "2024-12-03" "2024-12-03" "2024-12-01" "2024-12-03"
              (day 2024 12 3) (day 2024 12 4 - Timedelta_seconds 1)
              (day 2024 12 1) (day 2024 12 4 - Timedelta_seconds 1)
              sample_frame_well_formed) with (threshold := 0%Q) as (Hmin & _);
    [by vm_compute .. |].
  apply (Hmin 20%Q (Timestamp (day 2024 12 3))). by vm_compute.
Defined.

(** ** The extraction of an extraction *)

Lemma boolean_index_all_true {A B} (l : list A) (k : list B) :
  length l = length k → boolean_index (map (fun _ => true) l) k = k.
Proof.
  revert k. induction l as [|x l IH]; intros [|y k] Hlen; simpl in *; try done.
  f_equal. apply IH. lia.
Qed.

Lemma keep_mask_selected dates start end_ (vals : list (option Q)) :
  let keep := keep_mask dates start end_ (FloatSeries vals) in
  keep_mask (boolean_index keep dates) start end_ (FloatSeries (boolean_index keep vals))
  = map (fun _ => true) (boolean_index keep dates).
Proof.
  unfold keep_mask, range_mask. simpl. revert vals.
  induction dates as [|d dates IH]; intros [|v vals]; simpl; try done.
  destruct (timestamp_le start d && timestamp_le d end_) eqn:Hd; simpl; [|apply IH].
  destruct v as [x|]; simpl; [|apply IH].
  rewrite Hd. simpl. f_equal. apply IH.
Qed.

Section extraction_twice.
Context `{Pandas}.
Variables (df : DataFrame) (start_date end_date : string) (k : kind).
Variables (start end_ : option Z) (col : string).
Variables (dates : list (option Z)) (vals : list (option Q)).

Hypothesis Hwf : well_formed df.
Hypothesis Hrange :
  DataAnalysis._validate_date_range start_date end_date = Return (start, end_).
Hypothesis Hcol :
  DataAnalysis.resolve_column (columns df) (kind_name k) = Return col.
Hypothesis Hdate : getitem df "date" = Return (DatetimeSeries dates).
Hypothesis Hvals : getitem df col = Return (FloatSeries vals).
Hypothesis Hfirst : first_column df = Return "date".

(** X18.  On a table whose first column is [date], for electricity and
    for gas: when the range holds a row with a value, the extraction is a
    table that the same extraction leaves as it is. *)
Theorem get_data_for_period_twice :
  let keep := keep_mask dates start end_ (FloatSeries vals) in
  has_row keep →
  ∃ r,
    DataAnalysis.get_data_for_period (Some df) start_date end_date (kind_name k)
      = Return (Some r)
    ∧ DataAnalysis.get_data_for_period (Some r) start_date end_date (kind_name k)
      = Return (Some r).
Proof.
  intros keep Hrow.
  destruct (get_data_for_period_rows df start_date end_date (kind_name k) start end_
              col "date" dates vals (DatetimeSeries dates)
              Hwf Hrange Hcol Hdate Hvals Hfirst Hdate) as (Hsome & _).
  fold keep in Hsome. eexists. split; [by apply Hsome|].
  set (r := subtable df keep "date" (DatetimeSeries dates) col (FloatSeries vals)).
  assert (col ≠ "date") as Hne by (intros ->; congruence).
  assert (length keep = length (index df)) as Hlen by (by eapply keep_mask_length).
  assert (length dates = length (index df)) as Hld.
  { rewrite <- (getitem_length _ _ _ Hwf Hdate). simpl. by rewrite length_map. }
  assert (length vals = length (index df)) as Hlv.
  { rewrite <- (getitem_length _ _ _ Hwf Hvals). simpl. by rewrite length_map. }
  assert (well_formed r) as Hwf'.
  { split; [apply boolean_index_NoDup, Hwf|].
    unfold r, subtable. cbn [index series].
    repeat constructor; cbn [snd]; apply series_select_length; simpl;
      by rewrite length_map. }
  assert (DataAnalysis.resolve_column (columns r) (kind_name k) = Return col) as Hcol'.
  { unfold first_column in Hfirst. destruct (columns df) as [|c rest] eqn:Hcols; [done|].
    injection Hfirst as ->.
    by apply (resolve_column_subtable k ("date" :: rest) "date" rest). }
  assert (getitem r "date" = Return (DatetimeSeries (boolean_index keep dates))) as Hdate'.
  { unfold getitem, r, subtable. cbn [series List.filter fst].
    by rewrite String.eqb_refl, (proj2 (String.eqb_neq col "date") Hne). }
  assert (getitem r col = Return (FloatSeries (boolean_index keep vals))) as Hvals'.
  { unfold getitem, r, subtable. cbn [series List.filter fst].
    rewrite String.eqb_refl, (proj2 (String.eqb_neq "date" col)); [done | congruence]. }
  destruct (get_data_for_period_rows r start_date end_date (kind_name k) start end_
              col "date" (boolean_index keep dates) (boolean_index keep vals)
              (DatetimeSeries (boolean_index keep dates))
              Hwf' Hrange Hcol' Hdate' Hvals' eq_refl Hdate') as (Hsome' & _).
  pose proof (keep_mask_selected dates start end_ vals) as Hsel.
  cbn zeta in Hsel. fold keep in Hsel. rewrite Hsel in Hsome'.
  rewrite Hsome'.
  - do 2 f_equal. unfold r, subtable. cbn [index series series_select].
    rewrite !boolean_index_all_true; [done | ..];
      apply boolean_index_length; congruence.
  - destruct (boolean_index keep dates) as [|d l] eqn:Hb; [|by exists 0%nat].
    rewrite boolean_index_nil_iff in Hb by congruence.
    destruct Hrow as [i Hi]. by destruct (Hb i).
Qed.

End extraction_twice.

Lemma get_data_for_period_twice_witness :
  ∃ r,
    DataAnalysis.get_data_for_period (Some sample_frame) "2024-12-02" "2024-12-03" "gas"
      = Return (Some r)
    ∧ DataAnalysis.get_data_for_period (Some r) "2024-12-02" "2024-12-03" "gas"
      = Return (Some r).
Proof.
  apply (get_data_for_period_twice (H := sample_pandas) sample_frame
           "2024-12-02" "2024-12-03" gas
           (Some (day 2024 12 2)) (Some (day 2024 12 4 - Timedelta_seconds 1))
           "gas_consumption"
           [Some (day 2024 12 1); Some (day 2024 12 2); Some (day 2024 12 3)]
           [Some 7%Q; None; Some 3%Q] sample_frame_well_formed);
    [by vm_compute .. | by exists 2%nat].
Defined.
